(** * Risk-managed position and stop-order lifecycle of the backtesting strategies

    Shallow embedding of
    - [ProfessionalDoubleMAStrategy] (Backtrader/backtest_engine.py):
      [calculate_risk_size], [notify_order] and [next];
    - [AdvancedTrendFollowingStrategy]: [notify_order], [next] and
      [get_strategy_stats] (Backtrader_Plus/trend_strategy.py);
    - [OptimizedBacktest]: [build_param_grid], [optimize_strategy] and
      [run_single_backtest] (Backtrader/backtest_engine.py);
    - [evaluate] and [grid_search] (Backtrader_Plus/optimize_params.py).

    Numbers: Python floats are read as exact rationals ([Q]); sizes, counters
    and bar counts are integers ([Z]).  Rounding of binary floating point is
    not modelled.  A [Bar] carries numbers only; the position sizer is also
    given on every float, NaN and the infinities included
    ([Sizer.calculate_risk_size]), and on a [Bar] is that function at numeric
    reads.  The backtesting engine is the environment: what the
    strategy reads from it during one call is a [Bar]; what the strategy asks
    of it is appended to a request log; a submission or cancellation may
    raise, which a script of outcomes in the [World] decides. *)

From Stdlib Require Import ZArith QArith Qround Bool List Lia Lqa Sorted.
From Stdlib Require String.
Import ListNotations.
Open Scope Q_scope.

(** ** Python numerics *)

Definition Qlt_bool (x y : Q) : bool :=
  (Qnum x * QDen y <? Qnum y * QDen x)%Z.

Notation "x <? y" := (Qlt_bool x y) : Q_scope.
Notation "x <=? y" := (Qle_bool x y) : Q_scope.

(** Truth value of a float: anything but zero. *)
Definition truthy (x : Q) : bool := negb (Qeq_bool x 0).

(** [int(x)] on a float that is a number truncates toward zero; [float_int]
    below is [int] on every float. *)
Definition py_int (x : Q) : Z := (Qnum x ÷ QDen x)%Z.

(** [max(a, b)]: the first argument unless the second is strictly larger. *)
Definition py_max (a b : Q) : Q := if a <? b then b else a.

(** ** Exceptions *)

Inductive exn : Type :=
| ZeroDivisionError
| ValueError
| OverflowError
| OrderError.

Inductive Res (A : Type) : Type :=
| Ok (a : A)
| Raise (e : exn).
Arguments Ok {A} a.
Arguments Raise {A} e.

Definition Res_bind {A B} (r : Res A) (k : A -> Res B) : Res B :=
  match r with
  | Ok a => k a
  | Raise e => Raise e
  end.

Notation "x <-? c ;; k" := (Res_bind c (fun x => k))
  (at level 61, c at next level, right associativity).

(** Float division. *)
Definition py_div (a b : Q) : Res Q :=
  if Qeq_bool b 0 then Raise ZeroDivisionError else Ok (a / b).

(** ** Floats with their special values

    A Python float is a number, an infinity or NaN; an indicator line holds
    NaN where the indicator has no value.  Numbers are exact rationals:
    neither rounding nor overflow of finite results is modelled. *)

Inductive Float : Type :=
| Num (q : Q)
| PlusInf
| MinusInf
| NaN.

(** [x <= 0]: every comparison with NaN is [False]. *)
Definition le_zero (x : Float) : bool :=
  match x with
  | Num q => q <=? 0
  | MinusInf => true
  | PlusInf | NaN => false
  end.

(** An infinity times a number: the sign of the product, NaN at zero. *)
Definition scale_inf (positive : bool) (a : Q) : Float :=
  if 0 <? a then (if positive then PlusInf else MinusInf)
  else if a <? 0 then (if positive then MinusInf else PlusInf)
  else NaN.

(** [x * y]. *)
Definition fmul (x y : Float) : Float :=
  match x, y with
  | NaN, _ | _, NaN => NaN
  | Num a, Num b => Num (a * b)
  | Num a, PlusInf | PlusInf, Num a => scale_inf true a
  | Num a, MinusInf | MinusInf, Num a => scale_inf false a
  | PlusInf, PlusInf | MinusInf, MinusInf => PlusInf
  | PlusInf, MinusInf | MinusInf, PlusInf => MinusInf
  end.

(** [x / y]: a zero divisor raises whatever the dividend; a number over an
    infinity is zero; an infinity over an infinity is NaN. *)
Definition fdiv (x y : Float) : Res Float :=
  match y with
  | Num b =>
      if Qeq_bool b 0 then Raise ZeroDivisionError else
      Ok (match x with
          | Num a => Num (a / b)
          | PlusInf => if 0 <? b then PlusInf else MinusInf
          | MinusInf => if 0 <? b then MinusInf else PlusInf
          | NaN => NaN
          end)
  | PlusInf | MinusInf =>
      Ok (match x with
          | Num _ => Num 0
          | _ => NaN
          end)
  | NaN => Ok NaN
  end.

(** [int(x)]: truncation toward zero on a number, [ValueError] on NaN,
    [OverflowError] on an infinity. *)
Definition float_int (x : Float) : Res Z :=
  match x with
  | Num q => Ok (py_int q)
  | PlusInf | MinusInf => Raise OverflowError
  | NaN => Raise ValueError
  end.

(** ** Strategy parameters ([params] of ProfessionalDoubleMAStrategy) *)

Record Params : Type := mkParams {
  fast_period : Z;
  slow_period : Z;
  trend_period : Z;
  risk_pct : Q;
  atr_period : Z;
  atr_stop_mult : Q;
  max_pos_size : Q;
  retain_pct : Q;
  trail_trigger : Q;
  use_vol_filter : bool;
  use_rsi_filter : bool;
  use_adx_filter : bool;
  adx_period : Z;
  adx_threshold : Q;
  printlog : bool
}.

Definition default_params : Params := {|
  fast_period := 10;
  slow_period := 30;
  trend_period := 60;
  risk_pct := 0.02;
  atr_period := 14;
  atr_stop_mult := 2.0;
  max_pos_size := 0.8;
  retain_pct := 0.15;
  trail_trigger := 0.005;
  use_vol_filter := true;
  use_rsi_filter := true;
  use_adx_filter := true;
  adx_period := 14;
  adx_threshold := 25;
  printlog := true
|}.

(** ** What one call reads from the engine

    [len_data] is [len(self.data)]; [close], [low], [volume] are the data
    lines at offset 0; [crossover], [trend_ma], [atr], [rsi], [vol_ma], [adx]
    the indicator lines at offset 0; [broker_value] is
    [self.broker.get_value()] and [position_size] is [self.position.size].
    Every read is a number; reads that are NaN or infinite are covered for
    the position sizer, by [Sizer.calculate_risk_size] below. *)

Record Bar : Type := mkBar {
  len_data : Z;
  close : Q;
  low : Q;
  volume : Q;
  crossover : Q;
  trend_ma : Q;
  atr : Q;
  rsi : Q;
  vol_ma : Q;
  adx : Q;
  broker_value : Q;
  position_size : Z
}.

(** ** Position sizer: calculate_risk_size (lines 131-169) *)

Module Sizer.

(** The function after its three reads: [account_value] is
    [self.broker.get_value()], [close] is [self.data.close[0]] and [atr] is
    [self.atr[0]].  The reads return floats, so the first [try] block and
    the [is None] tests have nothing to catch.  Both [int] calls are outside
    any [try]. *)
Definition calculate_risk_size (p : Params) (account_value close atr : Float)
  : Res Z :=
  if le_zero atr || le_zero close then Ok 0%Z else
  let risk_money := fmul account_value (Num (risk_pct p)) in
  let per_share_risk := fmul atr (Num (atr_stop_mult p)) in
  if le_zero per_share_risk then Ok 0%Z else
  q1 <-? fdiv risk_money per_share_risk ;;
  target_size <-? float_int q1 ;;
  q2 <-? fdiv (fmul account_value (Num (max_pos_size p))) close ;;
  max_shares <-? float_int q2 ;;
  let max_shares := if (max_shares <? 0)%Z then 0%Z else max_shares in
  let size := Z.min target_size max_shares in
  let size := if (size <? 0)%Z then 0%Z else size in
  Ok size.

End Sizer.

(** The sizer on a [Bar], whose reads are numbers. *)
Definition calculate_risk_size (p : Params) (b : Bar) : Res Z :=
  Sizer.calculate_risk_size p (Num (broker_value b)) (Num (close b))
                            (Num (atr b)).

Definition scenario1_bar : Bar := {|
  len_data := 100; close := 50; low := 49; volume := 1000;
  crossover := 1; trend_ma := 45; atr := 2.0; rsi := 60;
  vol_ma := 1000; adx := 30; broker_value := 100000; position_size := 0
|}.

Definition scenario1_params : Params := default_params.

(** ** Orders, requests and the world outside the strategy *)

Inductive OrdType : Type := Buy | Sell.
Inductive ExecType : Type := Market | Stop.

Inductive Status : Type :=
| Created | Submitted | Accepted | Partial | Completed
| Canceled | Expired | Margin | Rejected.

Record Order : Type := mkOrder {
  ref : Z;
  ordtype : OrdType;
  size : Z;
  exectype : ExecType;
  price : option Q
}.

(** A call of [self.buy], [self.sell] or [self.cancel], logged whether or not
    it raises. *)
Inductive Request : Type :=
| ReqOrder (t : OrdType) (n : Z) (e : ExecType) (pr : option Q)
| ReqCancel (o : Order).

(** One line printed by [self.log]; the payload is what the line formats. *)
Inductive LogMsg : Type :=
| LogBuyFilled (pr : Q) (n : Z)
| LogSellFilled (pr : Q) (n : Z) (pnl : Q)
| LogBuySignal (a : Q) (n : Z)
| LogInitialStop (pr : Q)
| LogInitialStopFailed (e : exn)
| LogBreakEven (pr : Q)
| LogBreakEvenFailed (e : exn)
| LogTrailing (old new : Q)
| LogTrailingFailed (e : exn)
| LogReduce (sold kept : Z)
| LogReduceFailed (e : exn)
| LogExitStopFailed (e : exn).

(** [faults] scripts the engine's answers: the head decides whether the next
    call raises; an empty script means every further call succeeds. *)
Record World : Type := mkWorld {
  next_ref : Z;
  faults : list bool;
  requests : list Request;
  stdout : list LogMsg
}.

(** The delivery of an order to [notify_order]: the order, its status, what
    was executed, and [self.position.size] as the handler reads it. *)
Record Notification : Type := mkNotification {
  order : Order;
  status : Status;
  executed_price : Q;
  executed_size : Z;
  position_seen : Z
}.

(** ** Strategy state (the attributes set in [__init__]) *)

Record Strategy : Type := mkStrategy {
  stop_order : option Order;
  last_stop_price : Q;
  entry_price : Q;
  initial_stop : Q;
  break_even_active : bool;
  trade_count : Z;
  win_count : Z
}.

Definition init : Strategy := {|
  stop_order := None;
  last_stop_price := 0;
  entry_price := 0;
  initial_stop := 0;
  break_even_active := false;
  trade_count := 0;
  win_count := 0
|}.

Definition set_stop_order (o : option Order) (s : Strategy) : Strategy :=
  mkStrategy o (last_stop_price s) (entry_price s) (initial_stop s)
             (break_even_active s) (trade_count s) (win_count s).
Definition set_last_stop_price (x : Q) (s : Strategy) : Strategy :=
  mkStrategy (stop_order s) x (entry_price s) (initial_stop s)
             (break_even_active s) (trade_count s) (win_count s).
Definition set_entry_price (x : Q) (s : Strategy) : Strategy :=
  mkStrategy (stop_order s) (last_stop_price s) x (initial_stop s)
             (break_even_active s) (trade_count s) (win_count s).
Definition set_initial_stop (x : Q) (s : Strategy) : Strategy :=
  mkStrategy (stop_order s) (last_stop_price s) (entry_price s) x
             (break_even_active s) (trade_count s) (win_count s).
Definition set_break_even_active (x : bool) (s : Strategy) : Strategy :=
  mkStrategy (stop_order s) (last_stop_price s) (entry_price s)
             (initial_stop s) x (trade_count s) (win_count s).
Definition set_trade_count (x : Z) (s : Strategy) : Strategy :=
  mkStrategy (stop_order s) (last_stop_price s) (entry_price s)
             (initial_stop s) (break_even_active s) x (win_count s).
Definition set_win_count (x : Z) (s : Strategy) : Strategy :=
  mkStrategy (stop_order s) (last_stop_price s) (entry_price s)
             (initial_stop s) (break_even_active s) (trade_count s) x.

(** ** State and exception monad *)

Definition St : Type := Strategy * World.
Definition M (A : Type) : Type := St -> Res A * St.

Definition ret {A} (a : A) : M A := fun st => (Ok a, st).
Definition bind {A B} (m : M A) (k : A -> M B) : M B :=
  fun st =>
    match m st with
    | (Ok a, st') => k a st'
    | (Raise e, st') => (Raise e, st')
    end.
Definition raise {A} (e : exn) : M A := fun st => (Raise e, st).

(** [try: m except Exception as e: h e]; what [m] did before raising stays. *)
Definition try_ {A} (m : M A) (h : exn -> M A) : M A :=
  fun st =>
    match m st with
    | (Ok a, st') => (Ok a, st')
    | (Raise e, st') => h e st'
    end.

Definition lift {A} (r : Res A) : M A :=
  match r with
  | Ok a => ret a
  | Raise e => raise e
  end.

Notation "x <- c ;; k" := (bind c (fun x => k))
  (at level 61, c at next level, right associativity).
Notation "c ;; k" := (bind c (fun _ => k))
  (at level 61, right associativity).

Definition self : M Strategy := fun st => (Ok (fst st), st).
Definition update (f : Strategy -> Strategy) : M unit :=
  fun st => (Ok tt, (f (fst st), snd st)).
Definition pass : M unit := ret tt.

Definition log (p : Params) (m : LogMsg) : M unit :=
  fun st =>
    if printlog p
    then (Ok tt, (fst st, mkWorld (next_ref (snd st)) (faults (snd st))
                                  (requests (snd st)) (stdout (snd st) ++ [m])))
    else (Ok tt, st).

(** ** The engine's entry points used by the strategy *)

(** Log the request, then let the script decide whether the call raises. *)
Definition call (r : Request) : M unit :=
  fun st =>
    let w := snd st in
    let st' := (fst st, mkWorld (next_ref w) (tl (faults w))
                                (requests w ++ [r]) (stdout w)) in
    if hd false (faults w) then (Raise OrderError, st') else (Ok tt, st').

Definition fresh_order (t : OrdType) (n : Z) (e : ExecType) (pr : option Q)
  : M Order :=
  fun st =>
    let w := snd st in
    (Ok (mkOrder (next_ref w) t n e pr),
     (fst st, mkWorld (next_ref w + 1) (faults w) (requests w) (stdout w))).

Definition submit (t : OrdType) (n : Z) (e : ExecType) (pr : option Q)
  : M Order :=
  call (ReqOrder t n e pr) ;; fresh_order t n e pr.

Definition buy (n : Z) : M Order := submit Buy n Market None.
Definition sell (n : Z) (e : ExecType) (pr : option Q) : M Order :=
  submit Sell n e pr.
Definition cancel (o : Order) : M unit := call (ReqCancel o).

(** ** ProfessionalDoubleMAStrategy.notify_order (lines 93-126) *)

Definition terminal (st : Status) : bool :=
  match st with
  | Completed | Canceled | Margin | Rejected => true
  | _ => false
  end.

Definition notify_order (p : Params) (n : Notification) : M unit :=
  match status n with
  | Completed =>
      match ordtype (order n) with
      | Buy =>
          update (set_entry_price (executed_price n)) ;;
          log p (LogBuyFilled (executed_price n) (executed_size n))
      | Sell =>
          s <- self ;;
          let pnl := (executed_price n - entry_price s)
                     * inject_Z (Z.abs (executed_size n)) in
          log p (LogSellFilled (executed_price n)
                               (Z.abs (executed_size n)) pnl) ;;
          if (position_seen n =? 0)%Z then
            update (fun s => set_trade_count (trade_count s + 1) s) ;;
            if entry_price s <? executed_price n
            then update (fun s => set_win_count (win_count s + 1) s)
            else pass
          else pass
      end
  | _ => pass
  end ;;
  if terminal (status n) then
    s <- self ;;
    match stop_order s with
    | Some so =>
        if (ref (order n) =? ref so)%Z
        then update (set_stop_order None)
        else pass
    | None => pass
    end
  else pass.

(** ** ProfessionalDoubleMAStrategy.next (lines 171-311)

    The body of [next] is cut at its own section comments into [entry]
    (the flat branch), [break_even] (A), [trailing_stop] (B) and
    [partial_exit] (C); [next] below puts them back together. *)

(** Lines 214-230.  Flat and a buy signal: size the position, buy, place the
    initial stop.  The buy is outside any [try]; the stop sell is inside
    one. *)
Definition entry (p : Params) (b : Bar) : M unit :=
  n <- lift (calculate_risk_size p b) ;;
  if (0 <? n)%Z then
    log p (LogBuySignal (atr b) n) ;;
    _ <- buy n ;;
    let stop_price := close b - atr b * atr_stop_mult p in
    try_ (o <- sell n Stop (Some stop_price) ;;
          update (set_stop_order (Some o)) ;;
          update (set_last_stop_price stop_price) ;;
          update (set_initial_stop stop_price) ;;
          update (set_break_even_active false) ;;
          log p (LogInitialStop stop_price))
         (fun e => log p (LogInitialStopFailed e))
  else pass.

(** Lines 236-260.  A. Break-even stop. *)
Definition break_even (p : Params) (b : Bar) : M unit :=
  let cur_price := close b in
  s <- self ;;
  if negb (break_even_active s) && truthy (entry_price s)
     && truthy (initial_stop s) then
    try_
      (let initial_risk := entry_price s - initial_stop s in
       if (0 <? initial_risk)
          && (initial_risk * 0.6 <? cur_price - entry_price s) then
         let new_stop := entry_price s * 1.001 in
         if match stop_order s with None => true | Some _ => false end
            || (last_stop_price s <? new_stop) then
           match stop_order s with
           | Some so => try_ (cancel so) (fun _ => pass)
           | None => pass
           end ;;
           try_ (o <- sell (position_size b) Stop (Some new_stop) ;;
                 update (set_stop_order (Some o)) ;;
                 update (set_last_stop_price new_stop) ;;
                 update (set_break_even_active true) ;;
                 log p (LogBreakEven new_stop))
                (fun e => log p (LogBreakEvenFailed e))
         else pass
       else pass)
      (fun _ => pass)
  else pass.

(** Lines 262-283.  B. Trailing stop. *)
Definition trailing_stop (p : Params) (b : Bar) : M unit :=
  let cur_price := close b in
  let dynamic_stop := cur_price - atr b * atr_stop_mult p in
  if truthy dynamic_stop then
    try_
      (s <- self ;;
       if (0 <? position_size b)%Z then
         match stop_order s with
         | Some so =>
             if last_stop_price s * (1 + trail_trigger p) <? dynamic_stop then
               if last_stop_price s <? dynamic_stop then
                 try_ (log p (LogTrailing (last_stop_price s) dynamic_stop) ;;
                       cancel so ;;
                       o <- sell (position_size b) Stop (Some dynamic_stop) ;;
                       update (set_stop_order (Some o)) ;;
                       update (set_last_stop_price dynamic_stop))
                      (fun e => log p (LogTrailingFailed e))
               else pass
             else pass
         | None => pass
         end
       else pass)
      (fun _ => pass)
  else pass.

(** Lines 285-311.  C. Partial exit on a dead cross. *)
Definition partial_exit (p : Params) (b : Bar) : M unit :=
  let current_pos := position_size b in
  let retain_size := py_int (inject_Z current_pos * retain_pct p) in
  let sell_size := (current_pos - retain_size)%Z in
  if (0 <? sell_size)%Z then
    try_ (log p (LogReduce sell_size retain_size) ;;
          _ <- sell sell_size Market None ;;
          pass)
         (fun e => log p (LogReduceFailed e)) ;;
    s <- self ;;
    match stop_order s with
    | Some so => try_ (cancel so) (fun _ => pass)
    | None => pass
    end ;;
    if (0 <? retain_size)%Z then
      try_ (s <- self ;;
            let new_stop_price :=
              py_max (last_stop_price s) (low b - atr b) in
            o <- sell retain_size Stop (Some new_stop_price) ;;
            update (set_stop_order (Some o)) ;;
            update (set_last_stop_price new_stop_price))
           (fun e => log p (LogExitStopFailed e))
    else pass
  else pass.

Definition buy_signal (p : Params) (b : Bar) : bool :=
  let trend_ok := trend_ma b <? close b in
  let rsi_ok := if use_rsi_filter p then 50 <? rsi b else true in
  let vol_ok := if use_vol_filter p then vol_ma b * 0.8 <? volume b else true in
  let adx_ok := if use_adx_filter p then adx_threshold p <? adx b else true in
  (0 <? crossover b) && trend_ok && rsi_ok && vol_ok && adx_ok.

Definition sell_signal (b : Bar) : bool := crossover b <? 0.

Definition next (p : Params) (b : Bar) : M unit :=
  if (len_data b <? Z.max (trend_period p) (slow_period p) + 2)%Z then pass
  else if (position_size b =? 0)%Z then
    if buy_signal p b then entry p b else pass
  else
    break_even p b ;;
    trailing_stop p b ;;
    if sell_signal b then partial_exit p b else pass.

(** ** Runs: bars and order notifications in the order the engine delivers
    them *)

Inductive Event : Type :=
| OnBar (b : Bar)
| OnOrder (n : Notification).

Definition handle (p : Params) (e : Event) : M unit :=
  match e with
  | OnBar b => next p b
  | OnOrder n => notify_order p n
  end.

Fixpoint run (p : Params) (evs : list Event) : M unit :=
  match evs with
  | [] => pass
  | e :: evs' => handle p e ;; run p evs'
  end.

(** [last_stop_price] after each event of a run. *)
Fixpoint stop_prices (p : Params) (evs : list Event) (st : St) : list Q :=
  match evs with
  | [] => []
  | e :: evs' =>
      let st' := snd (handle p e st) in
      last_stop_price (fst st') :: stop_prices p evs' st'
  end.

(** ** AdvancedTrendFollowingStrategy.notify_order
    (Backtrader_Plus/trend_strategy.py, lines 65-85) *)

Module Trend.

(** The order a notification is about ([order] below is [self.order]). *)
Definition notified (n : Notification) : Order := order n.

Record Strategy : Type := mkStrategy {
  order : option Order;
  entry_price : Q;
  trade_count : Z;
  win_count : Z;
  entry_bar : Z
}.

(** [len_data] is [len(self.data)] when the handler runs.  The handler's
    print-outs are left out; the state is passed explicitly. *)
Definition notify_order (len_data : Z) (n : Notification) (s : Strategy)
  : Res unit * Strategy :=
  match status n with
  | Submitted | Accepted => (Ok tt, s)
  | Completed =>
      match ordtype (notified n) with
      | Buy =>
          (Ok tt,
           mkStrategy None (executed_price n) (trade_count s) (win_count s)
                      len_data)
      | Sell =>
          match py_div (executed_price n - entry_price s) (entry_price s) with
          | Raise e => (Raise e, s)
          | Ok q =>
              let profit_pct := q * 100 in
              let wins := if 0 <? profit_pct
                          then (win_count s + 1)%Z else win_count s in
              (Ok tt,
               mkStrategy None (entry_price s) (trade_count s + 1)%Z wins
                          (entry_bar s))
          end
      end
  | Canceled | Margin | Rejected =>
      (Ok tt,
       mkStrategy None (entry_price s) (trade_count s) (win_count s)
                  (entry_bar s))
  | _ => (Ok tt, s)
  end.

(** *** AdvancedTrendFollowingStrategy: parameters, [next] and
    [get_strategy_stats] (lines 20-32, 87-139) *)

Record Params : Type := mkParams {
  printlog : bool;
  ema_fast : Z;
  ema_slow : Z;
  trend_period : Z;
  rsi_period : Z;
  rsi_oversold : Q;
  rsi_overbought : Q;
  volume_threshold : Q;
  stop_loss : Q;
  take_profit : Q;
  position_size : Q
}.

Definition default_params : Params := {|
  printlog := true;
  ema_fast := 5;
  ema_slow := 20;
  trend_period := 50;
  rsi_period := 14;
  rsi_oversold := 30;
  rsi_overbought := 70;
  volume_threshold := 0.8;
  stop_loss := 0.03;
  take_profit := 0.08;
  position_size := 0.15
|}.

(** What one call of [next] reads: [len(self.data)], the close, the
    indicator lines at offset 0 ([ema_fast_line] is [self.ema_fast[0]],
    [macd_line] and [signal_line] are [self.macd.macd[0]] and
    [self.macd.signal[0]]), [self.broker.getcash()] and
    [self.position.size]. *)
Record Bar : Type := mkBar {
  len_data : Z;
  close : Q;
  ema_fast_line : Q;
  ema_slow_line : Q;
  trend_ma : Q;
  crossover : Q;
  rsi : Q;
  macd_line : Q;
  signal_line : Q;
  volume_ratio : Q;
  cash : Q;
  position : Z
}.

(** What [next] asks of the engine: [self.buy(size=n)] or [self.close()]. *)
Inductive Request : Type :=
| ReqBuy (n : Z)
| ReqClose.

Definition pending (s : Strategy) : bool :=
  match order s with
  | Some _ => true
  | None => false
  end.

Definition set_order (o : option Order) (s : Strategy) : Strategy :=
  mkStrategy o (entry_price s) (trade_count s) (win_count s) (entry_bar s).

(** [sell_condition]: the stop-loss quotient is evaluated only when the
    crossover is not negative and a position is held. *)
Definition sell_condition (p : Params) (b : Bar) (s : Strategy) : Res bool :=
  if crossover b <? 0 then Ok true
  else if (position b =? 0)%Z then Ok false
  else q <-? py_div (close b - entry_price s) (entry_price s) ;;
       Ok (q <? - stop_loss p).

Definition buy_condition (p : Params) (b : Bar) : bool :=
  let trend_up := (trend_ma b <? close b)
                  && (ema_slow_line b <? ema_fast_line b) in
  let momentum_ok := (40 <? rsi b) && (rsi b <? 80)
                     && (signal_line b <? macd_line b) in
  let volume_ok := volume_threshold p <? volume_ratio b in
  trend_up && momentum_ok && volume_ok && (0 <? crossover b).

(** [answer] is the order object the engine returns if this call submits
    one; the result lists the requests made.  Print-outs are left out. *)
Definition next (p : Params) (b : Bar) (answer : Order) (s : Strategy)
  : Res (list Request) * Strategy :=
  if pending s || (len_data b <? 50)%Z then (Ok [], s) else
  match sell_condition p b s with
  | Raise e => (Raise e, s)
  | Ok sell =>
      if (position b =? 0)%Z then
        if buy_condition p b then
          match py_div (cash b * position_size p) (close b) with
          | Raise e => (Raise e, s)
          | Ok q =>
              let size := py_int q in
              if (0 <? size)%Z
              then (Ok [ReqBuy size], set_order (Some answer) s)
              else (Ok [], s)
          end
        else (Ok [], s)
      else
        match py_div (close b - entry_price s) (entry_price s) with
        | Raise e => (Raise e, s)
        | Ok current_profit =>
            let take := take_profit p <? current_profit in
            if sell || take
            then (Ok [ReqClose], set_order (Some answer) s)
            else (Ok [], s)
        end
  end.

Record Stats : Type := mkStats {
  total_trades : Z;
  win_trades : Z;
  win_rate : Q;
  final_portfolio_value : Q
}.

(** [broker_value] is [self.broker.getvalue()]. *)
Definition get_strategy_stats (broker_value : Q) (s : Strategy) : Res Stats :=
  rate <-? (if (0 <? trade_count s)%Z
            then q <-? py_div (inject_Z (win_count s))
                              (inject_Z (trade_count s)) ;;
                 Ok (q * 100)
            else Ok 0) ;;
  Ok (mkStats (trade_count s) (win_count s) rate broker_value).

(** The handler run over the notifications the engine delivers, stopping at
    the first exception. *)
Fixpoint notify_all (len_data : Z) (ns : list Notification) (s : Strategy)
  : Res unit * Strategy :=
  match ns with
  | [] => (Ok tt, s)
  | n :: ns' =>
      match notify_order len_data n s with
      | (Ok _, s') => notify_all len_data ns' s'
      | (Raise e, s') => (Raise e, s')
      end
  end.

(** The state set by [__init__]. *)
Definition init : Strategy := mkStrategy None 0 0 0 0.

End Trend.

(** ** Vocabulary of the statements below *)

(** Position arithmetic of a complete fill. *)
Definition position_after_fill (pos : Z) (o : Order) : Z :=
  match ordtype o with
  | Buy => (pos + size o)%Z
  | Sell => (pos - size o)%Z
  end.

(** What [self.log] prints of [ms] under the [printlog] switch. *)
Definition printed (p : Params) (ms : list LogMsg) : list LogMsg :=
  if printlog p then ms else [].

(** A break-even promotion accepted while no stop order was referenced. *)
Definition fresh_promotion (s s' : Strategy) : bool :=
  match stop_order s with
  | None => negb (break_even_active s) && break_even_active s'
  | Some _ => false
  end.

(** A run that stays within one position's lifetime (every bar sees a
    non-zero position) and in which no promotion is a fresh one. *)
Fixpoint guarded (p : Params) (evs : list Event) (st : St) : bool :=
  match evs with
  | [] => true
  | e :: evs' =>
      let st' := snd (handle p e st) in
      match e with
      | OnBar b =>
          negb (position_size b =? 0)%Z
          && negb (fresh_promotion (fst st) (fst st'))
      | OnOrder _ => true
      end && guarded p evs' st'
  end.

(** ** Concrete runs used as examples *)

Definition world0 : World := mkWorld 1 [] [] [].

(** A bar after warm-up with every entry filter satisfied. *)
Definition signal_bar (cl at_ : Q) : Bar :=
  mkBar 100 cl (cl - 1) 1000 1 (cl - 10) at_ 60 1000 30 100000 0.

(** A bar seen while holding [pos] units; [cross] is the crossover line. *)
Definition holding_bar (cl lo at_ cross : Q) (pos : Z) : Bar :=
  mkBar 101 cl lo 1000 cross (cl - 10) at_ 60 1000 30 100000 pos.

(** Entry at close 100 with ATR 3 (333 units, stop at 94), fill at 100, a
    bar at 103 with ATR 0.5 (trailing stop moves to 102), the engine rejects
    that stop, then a bar at 104 with ATR 2. *)
Definition ratchet_run : list Event := [
  OnBar (signal_bar 100 3);
  OnOrder (mkNotification (mkOrder 1 Buy 333 Market None) Completed 100 333 333);
  OnBar (holding_bar 103 102 0.5 0 333);
  OnOrder (mkNotification (mkOrder 3 Sell 333 Stop (Some 102)) Rejected 0 0 333);
  OnBar (holding_bar 104 103 2 0 333)
].

(** When a break-even promotion is due, in the words of transition 2 as the
    code has it: not yet promoted, entry price and initial stop recorded
    (non-zero), positive initial risk, unrealized gain strictly above 0.6 of
    it, and either no stop order referenced or the new price strictly above
    [last_stop_price]. *)
Definition promotion_due (s : Strategy) (b : Bar) : Prop :=
  break_even_active s = false
  /\ ~ entry_price s == 0
  /\ ~ initial_stop s == 0
  /\ 0 < entry_price s - initial_stop s
  /\ (entry_price s - initial_stop s) * 0.6 < close b - entry_price s
  /\ (stop_order s = None \/ last_stop_price s < entry_price s * 1.001).

(** Scenario 2: entry at 100, initial stop 94 still outstanding. *)
Definition scenario2_stop : Order := mkOrder 2 Sell 1000 Stop (Some 94).
Definition scenario2_state : Strategy :=
  mkStrategy (Some scenario2_stop) 94 100 94 false 0 0.

(** Scenario 3: 1000 units held behind a stop for 1000 at 94, and a dead
    cross on a bar where neither promotion nor trailing is due. *)
Definition scenario3_stop : Order := mkOrder 2 Sell 1000 Stop (Some 94).
Definition scenario3_state : Strategy :=
  mkStrategy (Some scenario3_stop) 94 100 94 false 0 0.
Definition scenario3_bar : Bar := holding_bar 99 98 3 (-1) 1000.
Definition scenario3_world : World := mkWorld 3 [] [] [].

(** The default configuration with another retain fraction. *)
Definition with_retain_pct (r : Q) : Params :=
  mkParams (fast_period default_params) (slow_period default_params)
           (trend_period default_params) (risk_pct default_params)
           (atr_period default_params) (atr_stop_mult default_params)
           (max_pos_size default_params) r (trail_trigger default_params)
           (use_vol_filter default_params) (use_rsi_filter default_params)
           (use_adx_filter default_params) (adx_period default_params)
           (adx_threshold default_params) (printlog default_params).

(** A partial close: 850 of 1000 units sold at 110 (bought at 100), 150
    units still held when the handler runs. *)
Definition partial_close : Notification :=
  mkNotification (mkOrder 5 Sell 850 Market None) Completed 110 (-850) 150.
Definition holding_state : Strategy :=
  mkStrategy (Some (mkOrder 6 Sell 150 Stop (Some 95))) 95 100 94 false 0 0.

(** ** Further vocabulary: invariants of the strategy state *)

(** The tally is consistent: no more wins than trades, none negative. *)
Definition tally_ok (s : Strategy) : Prop :=
  (0 <= win_count s <= trade_count s)%Z.

(** The referenced order is a stop sell whose trigger is [last_stop_price]. *)
Definition mirrored (s : Strategy) : Prop :=
  match stop_order s with
  | Some o =>
      ordtype o = Sell /\ exectype o = Stop
      /\ price o = Some (last_stop_price s)
  | None => True
  end.

(** A request a long position of [pos] units may make: a cancellation, or a
    sell of at least one and at most [pos] units. *)
Definition reduces (pos : Z) (r : Request) : Prop :=
  match r with
  | ReqCancel _ => True
  | ReqOrder Sell n _ _ => (0 < n <= pos)%Z
  | ReqOrder Buy _ _ _ => False
  end.

(** Every bar of the run sees a non-zero position. *)
Fixpoint in_position (evs : list Event) : bool :=
  match evs with
  | [] => true
  | OnBar b :: evs' => negb (position_size b =? 0)%Z && in_position evs'
  | OnOrder _ :: evs' => in_position evs'
  end.

(** The attributes no stage of [next] writes. *)
Definition same_ledger (s s' : Strategy) : Prop :=
  entry_price s' = entry_price s
  /\ trade_count s' = trade_count s
  /\ win_count s' = win_count s.

(** Two round trips of 333 units.  Bought at 100 behind a stop at 94; a
    bar at 116 promotes the stop to 100.1 and then trails it to 110, where
    it fills and closes the position; bought again at 100 and stopped out
    at 94. *)
Definition round_trips : list Event := [
  OnBar (signal_bar 100 3);
  OnOrder (mkNotification (mkOrder 1 Buy 333 Market None) Completed 100 333 333);
  OnBar (holding_bar 116 115 3 0 333);
  OnOrder (mkNotification (mkOrder 2 Sell 333 Stop (Some 94)) Canceled 0 0 333);
  OnOrder (mkNotification (mkOrder 3 Sell 333 Stop (Some (100 * 1.001)))
                          Canceled 0 0 333);
  OnOrder (mkNotification (mkOrder 4 Sell 333 Stop (Some (116 - 3 * 2.0)))
                          Completed 110 (-333) 0);
  OnBar (signal_bar 100 3);
  OnOrder (mkNotification (mkOrder 5 Buy 333 Market None) Completed 100 333 333);
  OnOrder (mkNotification (mkOrder 6 Sell 333 Stop (Some (100 - 3 * 2.0)))
                          Completed 94 (-333) 0)
].

(** The same two trades as the trend strategy is told of them. *)
Definition trend_round_trips : list Notification := [
  mkNotification (mkOrder 1 Buy 100 Market None) Completed 100 100 100;
  mkNotification (mkOrder 2 Sell 100 Market None) Completed 110 (-100) 0;
  mkNotification (mkOrder 3 Buy 100 Market None) Completed 100 100 100;
  mkNotification (mkOrder 4 Sell 100 Market None) Completed 94 (-100) 0
].

(** ** The stop orders outstanding at the engine

    The engine's side of the request log; the engine itself is outside the
    repository, and this is the book-keeping its interface implies.  It
    answers each request as the script says ([answers], the world's
    [faults]) and hands out the order handles ([next_handle], the world's
    [next_ref]).  A stop order it accepted is outstanding, on its [book],
    until it accepts a cancellation of it or the order fills; a refused
    request changes nothing, and a market order never rests. *)

Record Gateway : Type := mkGateway {
  answers : list bool;
  next_handle : Z;
  book : list Order
}.

(** The book without the order [o]: after its cancellation or its fill. *)
Definition remove_order (o : Order) (bk : list Order) : list Order :=
  filter (fun x => negb (ref x =? ref o)%Z) bk.

Definition serve (g : Gateway) (rq : Request) : Gateway :=
  if hd false (answers g) then
    mkGateway (tl (answers g)) (next_handle g) (book g)
  else
    match rq with
    | ReqOrder t n Stop pr =>
        mkGateway (tl (answers g)) (next_handle g + 1)
                  (book g ++ [mkOrder (next_handle g) t n Stop pr])
    | ReqOrder t n Market pr =>
        mkGateway (tl (answers g)) (next_handle g + 1) (book g)
    | ReqCancel o =>
        mkGateway (tl (answers g)) (next_handle g) (remove_order o (book g))
    end.

Definition replay (g : Gateway) (rqs : list Request) : Gateway :=
  fold_left serve rqs g.

(** The engine as the world [w] has it, with the stops [bk] outstanding. *)
Definition gateway_of (w : World) (bk : list Order) : Gateway :=
  mkGateway (faults w) (next_ref w) bk.

(** The requests made between the worlds [w] and [w']. *)
Definition since (w w' : World) : list Request :=
  skipn (length (requests w)) (requests w').

(** The stops outstanding once the strategy has taken the world from [w],
    where [bk] were outstanding, to [w']. *)
Definition outstanding (w w' : World) (bk : list Order) : list Order :=
  book (replay (gateway_of w bk) (since w w')).

(** Size-sync on the engine's book: one outstanding stop, sized as the
    position, or none when the position is flat. *)
Definition covered (pos : Z) (bk : list Order) : Prop :=
  match bk with
  | [] => pos = 0%Z
  | [o] => size o = pos
  | _ :: _ :: _ => False
  end.

(** The controller holds the handle of every outstanding stop. *)
Definition held (s : Strategy) (bk : list Order) : Prop :=
  forall o : Order, In o bk -> stop_order s = Some o.

(** The strategy ran from [w] to [w'] while the book went from [bk] to
    [bk']. *)
Definition tracks (w w' : World) (bk bk' : list Order) : Prop :=
  exists l : list Request,
    requests w' = requests w ++ l
    /\ replay (gateway_of w bk) l = gateway_of w' bk'.

(** ** OptimizedBacktest (Backtrader/backtest_engine.py, lines 314-469)

    The candidate dictionaries of the grid all have the same five keys and
    are read as records; a strategy parameter dictionary applied to the
    strategy class is read as the [Params] it produces.  The engine is the
    function [backtest]: what [cerebro.run()] gives on the engine that
    [_setup_cerebro] built for the parameters, either an exception or the
    broker's final value with the strategy's two counters; setting the
    engine up is taken to succeed.  Print-outs and plotting are left
    out. *)

(** The strategy's parameter projections under names that the optimizer's
    candidate record does not shadow. *)
Definition fast_period_of : Params -> Z := fast_period.
Definition slow_period_of : Params -> Z := slow_period.
Definition trend_period_of : Params -> Z := trend_period.
Definition atr_period_of : Params -> Z := atr_period.
Definition atr_stop_mult_of : Params -> Q := atr_stop_mult.
Definition retain_pct_of : Params -> Q := retain_pct.

Module OptimizedBacktest.

Record Candidate : Type := mkCandidate {
  fast_period : Z;
  slow_period : Z;
  trend_period : Z;
  atr_stop_mult : Q;
  retain_pct : Q
}.

(** [self.base_strategy_params] applied over the class defaults. *)
Definition base_strategy_params : Params :=
  mkParams 10 30 60 0.02 (atr_period_of default_params) 2.0
           (max_pos_size default_params) 0.15 (trail_trigger default_params)
           (use_vol_filter default_params) (use_rsi_filter default_params)
           (use_adx_filter default_params) (adx_period default_params)
           (adx_threshold default_params) true.

Definition ma_combinations : list (Z * Z) := [(5, 20); (10, 30); (10, 60)]%Z.
Definition trend_periods : list Z := [60; 90]%Z.
Definition risk_profiles : list (Q * Q) := [(2.0, 0.15); (3.0, 0.20)].

Definition build_param_grid : list Candidate :=
  flat_map
    (fun ma =>
       flat_map
         (fun trend =>
            map (fun risk => mkCandidate (fst ma) (snd ma) trend
                                         (fst risk) (snd risk))
                risk_profiles)
         trend_periods)
    ma_combinations.

(** [strategy_params = dict(base); strategy_params.update(candidate);
    strategy_params['printlog'] = log]. *)
Definition strategy_params (base : Params) (c : Candidate) (log : bool)
  : Params :=
  mkParams (fast_period c) (slow_period c) (trend_period c)
           (risk_pct base) (atr_period_of base) (atr_stop_mult c)
           (max_pos_size base) (retain_pct c) (trail_trigger base)
           (use_vol_filter base) (use_rsi_filter base) (use_adx_filter base)
           (adx_period base) (adx_threshold base) log.

(** What a finished run is read for. *)
Record Outcome : Type := mkOutcome {
  final_value : Q;
  trade_count : Z;
  win_count : Z
}.

Record BestResult : Type := mkBestResult {
  params : Candidate;
  profit_pct : Q;
  win_rate : Q
}.

(** The body of the [for] loop of [optimize_strategy], [best_result] being
    the loop variable. *)
Fixpoint optimize_loop (backtest : Params -> Res Outcome) (base : Params)
         (initial_cash : Q) (grid : list Candidate)
         (best_result : option BestResult) : Res (option BestResult) :=
  match grid with
  | [] => Ok best_result
  | candidate :: rest =>
      match backtest (strategy_params base candidate false) with
      | Raise _ => optimize_loop backtest base initial_cash rest best_result
      | Ok strat =>
          q <-? py_div (final_value strat) initial_cash ;;
          let profit := (q - 1) * 100 in
          if (0 <? trade_count strat)%Z then
            if match best_result with
               | None => true
               | Some b => profit_pct b <? profit
               end
            then
              rate <-? (if (trade_count strat =? 0)%Z then Ok 0
                        else py_div (inject_Z (win_count strat))
                                    (inject_Z (trade_count strat))) ;;
              optimize_loop backtest base initial_cash rest
                            (Some (mkBestResult candidate profit rate))
            else optimize_loop backtest base initial_cash rest best_result
          else optimize_loop backtest base initial_cash rest best_result
      end
  end.

Definition optimize_strategy (backtest : Params -> Res Outcome)
           (base : Params) (initial_cash : Q) (param_grid : list Candidate)
  : Res (option BestResult) :=
  match param_grid with
  | [] => Ok None
  | _ => optimize_loop backtest base initial_cash param_grid None
  end.

(** [run_single_backtest] once the data frame is loaded: the result is
    [(total_return, final_value)]. *)
Definition run_single_backtest (backtest : Params -> Res Outcome)
           (base : Params) (param_grid : list Candidate)
           (initial_cash : Q) (optimize : bool) : Res (Q * Q) :=
  opt_res <-? (if optimize
               then optimize_strategy backtest base initial_cash param_grid
               else Ok None) ;;
  let chosen := match opt_res with
                | Some b => strategy_params base (params b) true
                | None =>
                    mkParams (fast_period_of base) (slow_period_of base)
                             (trend_period_of base) (risk_pct base)
                             (atr_period_of base) (atr_stop_mult_of base)
                             (max_pos_size base) (retain_pct_of base)
                             (trail_trigger base) (use_vol_filter base)
                             (use_rsi_filter base) (use_adx_filter base)
                             (adx_period base) (adx_threshold base) true
                end in
  strat <-? backtest chosen ;;
  q <-? py_div (final_value strat) initial_cash ;;
  Ok ((q - 1) * 100, final_value strat).

(** A candidate whose run returns with at least one counted trade. *)
Definition eligible (backtest : Params -> Res Outcome) (base : Params)
           (c : Candidate) (o : Outcome) : Prop :=
  backtest (strategy_params base c false) = Ok o /\ (0 < trade_count o)%Z.

(** The profit, in percent, that [optimize_strategy] computes for a run. *)
Definition profit_of (initial_cash : Q) (o : Outcome) : Q :=
  (final_value o / initial_cash - 1) * 100.

(** The candidate's run returns rather than raises. *)
Definition returns (backtest : Params -> Res Outcome) (base : Params)
           (c : Candidate) : bool :=
  match backtest (strategy_params base c false) with
  | Ok _ => true
  | Raise _ => false
  end.

(** An engine used as an example: runs with a fast period of 5 raise, the
    others end with three trades, two of them won, and a final value that
    grows with the trend period. *)
Definition sample_backtest (p : Params) : Res Outcome :=
  if (fast_period_of p =? 5)%Z then Raise OrderError
  else Ok (mkOutcome (100000 + inject_Z (trend_period_of p)) 3 2).

(** A candidate the strategy can run on: fast below slow, slow not above
    the trend period, a positive stop multiplier and a retain fraction in
    [0, 1). *)
Definition well_formed (c : Candidate) : Prop :=
  (0 < fast_period c < slow_period c)%Z
  /\ (slow_period c <= trend_period c)%Z
  /\ 0 < atr_stop_mult c
  /\ 0 <= retain_pct c /\ retain_pct c < 1.

End OptimizedBacktest.

(** ** Backtrader_Plus/optimize_params.py: [evaluate] and [grid_search]

    The engine's runs of one parameter set over the loaded data frames, in
    the order of [DATAFRAMES.values()], are a list of outcomes: a run
    either raises or yields the broker's final value and the two totals
    read from the trade analyzer.  Print-outs are left out. *)

Module OptimizeParams.

Definition INITIAL_CASH : Q := 100000.
Definition TARGET_RETURN : Q := 3.0.
Definition TARGET_WIN : Q := 50.0.

(** A grid value: an int or a float. *)
Inductive Value : Type :=
| VInt (z : Z)
| VFloat (q : Q).

(** A parameter dictionary, in insertion order. *)
Definition Dict : Type := list (String.string * Value).

(** A float that may be [float('-inf')]. *)
Inductive Score : Type :=
| NegInf
| Fin (q : Q).

Definition score_ge (s : Score) (q : Q) : bool :=
  match s with
  | NegInf => false
  | Fin x => q <=? x
  end.

Definition score_gt (s t : Score) : bool :=
  match s, t with
  | NegInf, _ => false
  | Fin _, NegInf => true
  | Fin x, Fin y => y <? x
  end.

Record RunResult : Type := mkRunResult {
  final_value : Q;
  trades : Z;
  wins : Z
}.

(** The [for df in DATAFRAMES.values()] loop; [None] is the early
    [return float('-inf'), 0.0, 0] of the [except] branch. *)
Fixpoint evaluate_loop (runs : list (Res RunResult)) (total_return : Q)
         (total_trades total_wins : Z) : Res (option (Q * Z * Z)) :=
  match runs with
  | [] => Ok (Some (total_return, total_trades, total_wins))
  | Raise _ :: _ => Ok None
  | Ok r :: rest =>
      q <-? py_div (final_value r) INITIAL_CASH ;;
      evaluate_loop rest (total_return + (q - 1) * 100)
                    (total_trades + trades r) (total_wins + wins r)
  end.

Definition evaluate (runs : list (Res RunResult)) : Res (Score * Q * Z) :=
  totals <-? evaluate_loop runs 0 0 0 ;;
  match totals with
  | None => Ok (NegInf, 0, 0%Z)
  | Some (total_return, total_trades, total_wins) =>
      avg_return <-? match runs with
                     | [] => Ok 0
                     | _ => py_div total_return
                                   (inject_Z (Z.of_nat (length runs)))
                     end ;;
      win_rate <-? (if (total_trades =? 0)%Z then Ok 0
                    else q <-? py_div (inject_Z total_wins)
                                      (inject_Z total_trades) ;;
                         Ok (q * 100)) ;;
      Ok (Fin avg_return, win_rate, total_trades)
  end.

(** [itertools.product] over the lists: the first list varies slowest. *)
Fixpoint product {A : Type} (lists : list (list A)) : list (list A) :=
  match lists with
  | [] => [[]]
  | l :: rest => flat_map (fun x => map (cons x) (product rest)) l
  end.

Record Result : Type := mkResult {
  params : Dict;
  avg_return : Score;
  win_rate : Q;
  total_trades : Z
}.

(** [constraint and not constraint(params)]. *)
Definition rejected (constraint : option (Dict -> bool)) (d : Dict) : bool :=
  match constraint with
  | Some f => negb (f d)
  | None => false
  end.

(** The loop of [grid_search] over the points of the product; [best] is
    [None] while it is still the initial [{'avg_return': float('-inf')}]. *)
Fixpoint search_loop (runs_for : Dict -> list (Res RunResult))
         (constraint : option (Dict -> bool)) (keys : list String.string)
         (points : list (list Value)) (satisfied : list Result)
         (best : option Result) : Res (list Result * option Result) :=
  match points with
  | [] => Ok (satisfied, best)
  | values :: rest =>
      let d := combine keys values in
      if rejected constraint d
      then search_loop runs_for constraint keys rest satisfied best
      else
        e <-? evaluate (runs_for d) ;;
        let result := mkResult d (fst (fst e)) (snd (fst e)) (snd e) in
        let satisfied' :=
          if score_ge (avg_return result) TARGET_RETURN
             && (TARGET_WIN <=? win_rate result)
          then satisfied ++ [result] else satisfied in
        let best' :=
          if score_gt (avg_return result)
                      (match best with
                       | Some b => avg_return b
                       | None => NegInf
                       end)
          then Some result else best in
        search_loop runs_for constraint keys rest satisfied' best'
  end.

Definition grid_search (runs_for : Dict -> list (Res RunResult))
           (grid : list (String.string * list Value))
           (constraint : option (Dict -> bool))
  : Res (list Result * option Result) :=
  let keys := map fst grid in
  search_loop runs_for constraint keys (product (map snd grid)) [] None.

(** The points [grid_search] evaluates. *)
Definition candidates (grid : list (String.string * list Value))
           (constraint : option (Dict -> bool)) : list Dict :=
  filter (fun d => negb (rejected constraint d))
         (map (combine (map fst grid)) (product (map snd grid))).

(** Vocabulary for the statements about [evaluate] and [grid_search]. *)

Definition run_return (r : RunResult) : Q :=
  (final_value r / INITIAL_CASH - 1) * 100.

Fixpoint sum_returns (rs : list RunResult) : Q :=
  match rs with
  | [] => 0
  | r :: rest => run_return r + sum_returns rest
  end.

Fixpoint sum_trades (rs : list RunResult) : Z :=
  match rs with
  | [] => 0%Z
  | r :: rest => (trades r + sum_trades rest)%Z
  end.

Fixpoint sum_wins (rs : list RunResult) : Z :=
  match rs with
  | [] => 0%Z
  | r :: rest => (wins r + sum_wins rest)%Z
  end.

Definition score_le (s t : Score) : Prop :=
  match s, t with
  | NegInf, _ => True
  | Fin _, NegInf => False
  | Fin x, Fin y => x <= y
  end.

Definition best_score (best : option Result) : Score :=
  match best with
  | Some b => avg_return b
  | None => NegInf
  end.

(** The result dictionary [grid_search] builds for a parameter set. *)
Definition result_for (runs_for : Dict -> list (Res RunResult)) (d : Dict)
  : Result :=
  match evaluate (runs_for d) with
  | Ok e => mkResult d (fst (fst e)) (snd (fst e)) (snd e)
  | Raise _ => mkResult d NegInf 0 0%Z
  end.

Definition meets_targets (r : Result) : bool :=
  score_ge (avg_return r) TARGET_RETURN && (TARGET_WIN <=? win_rate r).

(** Two keys of the trend grid of [main], for the examples. *)
Module Keys.
Import String.
Definition ema_fast : string := "ema_fast".
Definition ema_slow : string := "ema_slow".
End Keys.

End OptimizeParams.

(** * Properties *)

(** ** Numeric facts *)

Lemma Qlt_bool_iff (x y : Q) : (x <? y) = true <-> x < y.
Proof. unfold Qlt_bool, Qlt. apply Z.ltb_lt. Qed.

Lemma Qlt_bool_false_iff (x y : Q) : (x <? y) = false <-> y <= x.
Proof. unfold Qlt_bool, Qle. rewrite Z.ltb_ge. reflexivity. Qed.

Lemma Qle_bool_false_iff (x y : Q) : (x <=? y) = false <-> y < x.
Proof.
  rewrite <- not_true_iff_false, Qle_bool_iff. split.
  - apply Qnot_le_lt.
  - apply Qlt_not_le.
Qed.

Lemma Qeq_bool_false_iff (x y : Q) : Qeq_bool x y = false <-> ~ x == y.
Proof. rewrite <- not_true_iff_false, Qeq_bool_iff. reflexivity. Qed.

Lemma py_int_nonneg (x : Q) : 0 <= x -> py_int x = Qfloor x.
Proof.
  destruct x as [n d]. unfold Qle, py_int, Qfloor. simpl. intros H.
  apply Z.quot_div_nonneg; lia.
Qed.

Lemma py_int_neg (x : Q) : x < 0 -> (py_int x <= 0)%Z.
Proof.
  destruct x as [n d]. unfold Qlt, py_int. simpl. intros H.
  replace n with (- (- n))%Z by lia.
  rewrite Z.quot_opp_l by lia.
  assert (0 <= (- n) ÷ Z.pos d)%Z by (apply Z.quot_pos; lia). lia.
Qed.

Lemma py_int_nonpos (x : Q) : x <= 0 -> (py_int x <= 0)%Z.
Proof.
  intros H. destruct (Qlt_le_dec x 0) as [Hlt | Hge].
  - now apply py_int_neg.
  - rewrite py_int_nonneg by exact Hge.
    change 0%Z with (Qfloor 0). now apply Qfloor_resp_le.
Qed.

Lemma Qfloor_neg (x : Q) : x < 0 -> (Qfloor x < 0)%Z.
Proof.
  destruct x as [n d]. unfold Qlt, Qfloor. simpl. intros H.
  apply Z.div_lt_upper_bound; lia.
Qed.

Lemma Qfloor_nonpos (x : Q) : x <= 0 -> (Qfloor x <= 0)%Z.
Proof.
  intros H. change 0%Z with (Qfloor 0). now apply Qfloor_resp_le.
Qed.

Lemma Qdiv_nonneg_nonpos (a d : Q) : 0 <= a -> d <= 0 -> a / d <= 0.
Proof.
  intros Ha Hd. destruct (Qeq_dec d 0) as [E | N].
  - rewrite E. unfold Qdiv. assert (/ 0 == 0) by reflexivity. rewrite H. lra.
  - assert (Hneg : d < 0) by (destruct (Qlt_le_dec d 0); [assumption | exfalso; apply N; lra]).
    assert (Hq : 0 <= a / (- d)) by (apply Qle_shift_div_l; lra).
    assert (E : a / d == - (a / (- d))) by (field; lra).
    rewrite E. lra.
Qed.

Lemma Qdiv_nonpos_pos (a d : Q) : a <= 0 -> 0 < d -> a / d <= 0.
Proof. intros Ha Hd. apply Qle_shift_div_r; lra. Qed.

(** Truncation and floor agree once clipped at zero, as the sizer clips. *)
Lemma clip_trunc_floor (a c : Q) :
  (let m := py_int c in
   let m := if (m <? 0)%Z then 0 else m in
   let n := Z.min (py_int a) m in
   if (n <? 0)%Z then 0 else n)%Z
  = Z.max 0 (Z.min (Qfloor a) (Qfloor c)).
Proof.
  cbv zeta.
  destruct (Qlt_le_dec a 0) as [Ha | Ha]; destruct (Qlt_le_dec c 0) as [Hc | Hc].
  - pose proof (py_int_neg _ Ha). pose proof (py_int_neg _ Hc).
    pose proof (Qfloor_neg _ Ha). pose proof (Qfloor_neg _ Hc).
    destruct (Z.ltb_spec (py_int c) 0);
      destruct (Z.ltb_spec (Z.min (py_int a) 0) 0);
      destruct (Z.ltb_spec (Z.min (py_int a) (py_int c)) 0); lia.
  - pose proof (py_int_neg _ Ha). pose proof (Qfloor_neg _ Ha).
    rewrite (py_int_nonneg c) by exact Hc.
    destruct (Z.ltb_spec (Qfloor c) 0);
      destruct (Z.ltb_spec (Z.min (py_int a) 0) 0);
      destruct (Z.ltb_spec (Z.min (py_int a) (Qfloor c)) 0); lia.
  - pose proof (py_int_neg _ Hc). pose proof (Qfloor_neg _ Hc).
    rewrite (py_int_nonneg a) by exact Ha.
    assert (0 <= Qfloor a)%Z by (change 0%Z with (Qfloor 0); now apply Qfloor_resp_le).
    destruct (Z.ltb_spec (py_int c) 0);
      destruct (Z.ltb_spec (Z.min (Qfloor a) 0) 0);
      destruct (Z.ltb_spec (Z.min (Qfloor a) (py_int c)) 0); lia.
  - rewrite (py_int_nonneg a) by exact Ha. rewrite (py_int_nonneg c) by exact Hc.
    destruct (Z.ltb_spec (Qfloor c) 0);
      destruct (Z.ltb_spec (Z.min (Qfloor a) 0) 0);
      destruct (Z.ltb_spec (Z.min (Qfloor a) (Qfloor c)) 0); lia.
Qed.


(** ** The sizer on numbers *)

(** On a [Bar] the sizer's float operations are those of the rationals. *)
Lemma calculate_risk_size_numeric (p : Params) (b : Bar) :
  calculate_risk_size p b
  = (let account_value := broker_value b in
     if (atr b <=? 0) || (close b <=? 0) then Ok 0%Z else
     let risk_money := account_value * risk_pct p in
     let per_share_risk := atr b * atr_stop_mult p in
     if per_share_risk <=? 0 then Ok 0%Z else
     q1 <-? py_div risk_money per_share_risk ;;
     let target_size := py_int q1 in
     q2 <-? py_div (account_value * max_pos_size p) (close b) ;;
     let max_shares := py_int q2 in
     let max_shares := if (max_shares <? 0)%Z then 0%Z else max_shares in
     let size := Z.min target_size max_shares in
     let size := if (size <? 0)%Z then 0%Z else size in
     Ok size).
Proof.
  unfold calculate_risk_size, Sizer.calculate_risk_size. cbv zeta.
  cbn [le_zero fmul].
  destruct ((atr b <=? 0) || (close b <=? 0)); [reflexivity | ].
  destruct (atr b * atr_stop_mult p <=? 0); [reflexivity | ].
  unfold fdiv, py_div.
  destruct (Qeq_bool (atr b * atr_stop_mult p) 0); [reflexivity | ].
  cbn [Res_bind float_int].
  destruct (Qeq_bool (close b) 0); reflexivity.
Qed.

(** ** Stage lemmas *)

Ltac unfold_m :=
  cbv beta iota zeta delta
      [bind try_ ret pass self update log call sell buy submit cancel
       fresh_order lift raise fst snd] in *;
  cbn [next_ref faults requests stdout] in *.

Ltac case_if :=
  match goal with
  | |- context [if ?c then _ else _] => destruct c eqn:?
  | |- context [match stop_order ?s with _ => _ end] =>
      destruct (stop_order s) eqn:?
  end; unfold_m.

Ltac cases_m := unfold_m; repeat case_if.

Lemma bind_lift_ok {A B} (a : A) (k : A -> M B) (st : St) :
  bind (lift (Ok a)) k st = k a st.
Proof. reflexivity. Qed.

Lemma bind_ok {B} (m : M unit) (k : unit -> M B) (st : St) :
  fst (m st) = Ok tt -> bind m k st = k tt (snd (m st)).
Proof.
  unfold bind. destruct (m st) as [r st']. cbn [fst snd].
  intros ->. reflexivity.
Qed.

Lemma break_even_ok (p : Params) (b : Bar) (st : St) :
  fst (break_even p b st) = Ok tt.
Proof. destruct st as [s w]. unfold break_even. cases_m; reflexivity. Qed.

Lemma trailing_stop_ok (p : Params) (b : Bar) (st : St) :
  fst (trailing_stop p b st) = Ok tt.
Proof. destruct st as [s w]. unfold trailing_stop. cases_m; reflexivity. Qed.


(** In a position, [next] is the three stages in sequence. *)
Lemma next_in_position (p : Params) (b : Bar) (st : St) :
  (len_data b <? Z.max (trend_period p) (slow_period p) + 2)%Z = false ->
  position_size b <> 0%Z ->
  next p b st =
  (if sell_signal b then partial_exit p b else pass)
    (snd (trailing_stop p b (snd (break_even p b st)))).
Proof.
  intros Hlen Hpos. unfold next. rewrite Hlen.
  apply Z.eqb_neq in Hpos. rewrite Hpos.
  rewrite bind_ok by apply break_even_ok.
  rewrite bind_ok by apply trailing_stop_ok.
  reflexivity.
Qed.

Lemma py_max_lower (a c : Q) : a <= py_max a c.
Proof.
  unfold py_max. destruct (a <? c) eqn:E.
  - apply Qlt_bool_iff in E. now apply Qlt_le_weak.
  - apply Qle_refl.
Qed.

Lemma py_max_upper (a c : Q) : c <= py_max a c.
Proof.
  unfold py_max. destruct (a <? c) eqn:E.
  - apply Qle_refl.
  - now apply Qlt_bool_false_iff in E.
Qed.

Lemma py_max_cases (a c : Q) : py_max a c = a \/ py_max a c = c.
Proof. unfold py_max. destruct (a <? c); auto. Qed.

(** Break-even either leaves the strategy as it was or promotes; a promotion
    over an outstanding stop raises [last_stop_price] strictly. *)
Lemma break_even_ratchet (p : Params) (b : Bar) (s : Strategy) (w : World) :
  let s' := fst (snd (break_even p b (s, w))) in
  s' = s
  \/ (break_even_active s = false /\ break_even_active s' = true
      /\ (stop_order s <> None -> last_stop_price s < last_stop_price s')).
Proof.
  unfold break_even. cases_m; auto; right;
    repeat match goal with
           | H : _ && _ = true |- _ => apply andb_prop in H; destruct H
           | H : negb _ = true |- _ => apply negb_true_iff in H
           end;
    (split; [assumption | split; [reflexivity | ]]);
    cbn [stop_order last_stop_price set_stop_order set_last_stop_price
         set_break_even_active];
    intros Hs; try congruence;
    match goal with
    | H : false || _ = true |- _ => cbn [orb] in H; now apply Qlt_bool_iff in H
    end.
Qed.

Lemma trailing_stop_ratchet (p : Params) (b : Bar) (s : Strategy) (w : World) :
  let s' := fst (snd (trailing_stop p b (s, w))) in
  last_stop_price s <= last_stop_price s'
  /\ break_even_active s' = break_even_active s.
Proof.
  unfold trailing_stop. cases_m;
    cbn [last_stop_price break_even_active set_stop_order
         set_last_stop_price];
    (split; [ | reflexivity ]); try apply Qle_refl.
  all: match goal with
       | H : (last_stop_price _ <? _) = true |- _ =>
           apply Qlt_bool_iff in H; now apply Qlt_le_weak
       end.
Qed.

Lemma partial_exit_ratchet (p : Params) (b : Bar) (s : Strategy) (w : World) :
  let s' := fst (snd (partial_exit p b (s, w))) in
  last_stop_price s <= last_stop_price s'
  /\ break_even_active s' = break_even_active s.
Proof.
  unfold partial_exit. cases_m;
    cbn [last_stop_price break_even_active set_stop_order
         set_last_stop_price];
    (split; [ | reflexivity ]);
    first [ apply Qle_refl | apply py_max_lower ].
Qed.

Lemma notify_order_keeps_stop_price (p : Params) (n : Notification) (st : St) :
  last_stop_price (fst (snd (notify_order p n st))) = last_stop_price (fst st).
Proof.
  destruct st as [s w]. unfold notify_order.
  destruct (status n); cbn [terminal]; cases_m; try reflexivity;
    destruct (ordtype (order n)); cases_m; reflexivity.
Qed.

(** ** C1: the ratchet *)

Lemma next_ratchet (p : Params) (b : Bar) (s : Strategy) (w : World) :
  position_size b <> 0%Z ->
  let s' := fst (snd (next p b (s, w))) in
  fresh_promotion s s' = false ->
  last_stop_price s <= last_stop_price s'.
Proof.
  intros Hpos.
  destruct (len_data b <? Z.max (trend_period p) (slow_period p) + 2)%Z eqn:Hlen.
  - unfold next. rewrite Hlen. cbn. intros _. apply Qle_refl.
  - rewrite next_in_position by assumption.
    pose proof (break_even_ratchet p b s w) as HA. cbv zeta in HA.
    destruct (snd (break_even p b (s, w))) as [s1 w1]. cbn [fst] in HA.
    pose proof (trailing_stop_ratchet p b s1 w1) as HB. cbv zeta in HB.
    destruct (snd (trailing_stop p b (s1, w1))) as [s2 w2]. cbn [fst] in HB.
    destruct HB as [HB1 HB2].
    assert (HC : last_stop_price s2 <= last_stop_price
                   (fst (snd ((if sell_signal b then partial_exit p b else pass)
                                (s2, w2))))
                 /\ break_even_active
                      (fst (snd ((if sell_signal b then partial_exit p b else pass)
                                   (s2, w2))))
                    = break_even_active s2).
    { destruct (sell_signal b).
      - apply partial_exit_ratchet.
      - cbn. split; [apply Qle_refl | reflexivity]. }
    destruct HC as [HC1 HC2]. cbv zeta.
    set (s3 := fst (snd ((if sell_signal b then partial_exit p b else pass)
                           (s2, w2)))) in *.
    intros Hfresh.
    destruct HA as [-> | (Hoff & Hon & Hup)].
    + eapply Qle_trans; eassumption.
    + assert (Hs : stop_order s <> None).
      { unfold fresh_promotion in Hfresh.
        destruct (stop_order s); [discriminate | ].
        rewrite Hoff, HC2, HB2, Hon in Hfresh. discriminate. }
      apply Qlt_le_weak. eapply Qlt_le_trans; [exact (Hup Hs) | ].
      eapply Qle_trans; eassumption.
Qed.

(** C1 (as amended).  Within one position's lifetime, along every run in
    which no break-even promotion is accepted while the stop-order reference
    is empty, [last_stop_price] after each event never decreases. *)
Theorem ratchet_guarded_run (p : Params) (evs : list Event) (st : St) :
  guarded p evs st = true ->
  Sorted Qle (last_stop_price (fst st) :: stop_prices p evs st).
Proof.
  revert st. induction evs as [ | e evs IH]; intros st Hg.
  - cbn. constructor; constructor.
  - cbn [guarded] in Hg. apply andb_prop in Hg. destruct Hg as [He Hrest].
    cbn [stop_prices]. constructor.
    + apply IH. exact Hrest.
    + constructor. destruct e as [b | n]; cbn [handle] in *.
      * apply andb_prop in He. destruct He as [Hpos Hfresh].
        apply negb_true_iff in Hpos. apply Z.eqb_neq in Hpos.
        apply negb_true_iff in Hfresh.
        destruct st as [s w]. cbn [fst] in *.
        now apply next_ratchet.
      * rewrite notify_order_keeps_stop_price. apply Qle_refl.
Qed.

Lemma ratchet_guarded_run_witness :
  let st := snd (next default_params (signal_bar 100 3) (init, world0)) in
  let evs := [OnOrder (mkNotification (mkOrder 1 Buy 333 Market None)
                                      Completed 100 333 333);
              OnBar (holding_bar 103 102 0.5 0 333);
              OnBar (holding_bar 104 103 2 0 333)] in
  Sorted Qle (last_stop_price (fst st) :: stop_prices default_params evs st).
Proof.
  cbv zeta. apply (ratchet_guarded_run default_params).
  vm_compute. reflexivity.
Defined.

(** C1 as stated fails: in [ratchet_run] the accepted stop prices are 94,
    94, 102, 102 and then 100.1, the last one set by a break-even promotion
    made after the engine rejected the stop at 102. *)
Lemma ratchet_broken_by_fresh_promotion :
  let prices := stop_prices default_params ratchet_run (init, world0) in
  map Qred prices = [94; 94; 102; 102; 100.1]
  /\ nth 4 prices 0 < nth 3 prices 0
  /\ ~ Sorted Qle prices.
Proof.
  cbv zeta. split; [vm_compute; reflexivity | ]. split.
  - vm_compute. reflexivity.
  - intros H.
    let v := eval vm_compute in
               (stop_prices default_params ratchet_run (init, world0)) in
    change (stop_prices default_params ratchet_run (init, world0)) with v in H.
    repeat match goal with
           | H : Sorted _ (_ :: _) |- _ => inversion H; clear H; subst
           | H : HdRel _ _ (_ :: _) |- _ => inversion H; clear H; subst
           end.
    match goal with
    | H : _ <= 100100 # 1000 |- _ => vm_compute in H; apply H; reflexivity
    end.
Qed.

(** ** C2: the sizer's formula *)

(** C2.  For positive equity, price and ATR (and a configuration whose risk
    fraction is not negative or whose stop multiplier is positive) the sizer
    returns max(0, min(floor(equity * risk_pct / (atr * atr_stop_mult)),
    floor(equity * max_pos_size / price))); on scenario 1 it returns 500. *)
Theorem calculate_risk_size_formula :
  (forall (p : Params) (b : Bar),
      0 <= risk_pct p \/ 0 < atr_stop_mult p ->
      0 < broker_value b -> 0 < close b -> 0 < atr b ->
      calculate_risk_size p b
      = Ok (Z.max 0
              (Z.min (Qfloor (broker_value b * risk_pct p
                              / (atr b * atr_stop_mult p)))
                     (Qfloor (broker_value b * max_pos_size p / close b)))))
  /\ calculate_risk_size scenario1_params scenario1_bar = Ok 500%Z.
Proof.
  split; [ | reflexivity ].
  intros p b Hcfg Hv Hc Ha. rewrite calculate_risk_size_numeric. cbv zeta.
  assert (E1 : (atr b <=? 0) = false) by (apply Qle_bool_false_iff; exact Ha).
  assert (E2 : (close b <=? 0) = false) by (apply Qle_bool_false_iff; exact Hc).
  rewrite E1, E2. cbn [orb].
  destruct (atr b * atr_stop_mult p <=? 0) eqn:Epsr.
  - apply Qle_bool_iff in Epsr.
    assert (Hm : ~ 0 < atr_stop_mult p) by (intros Hm; nra).
    assert (Hr : 0 <= risk_pct p) by (destruct Hcfg; [assumption | contradiction]).
    assert (Hq : broker_value b * risk_pct p / (atr b * atr_stop_mult p) <= 0)
      by (apply Qdiv_nonneg_nonpos; nra).
    pose proof (Qfloor_nonpos _ Hq). f_equal. lia.
  - apply Qle_bool_false_iff in Epsr.
    unfold py_div.
    assert (N1 : Qeq_bool (atr b * atr_stop_mult p) 0 = false)
      by (apply Qeq_bool_false_iff; lra).
    assert (N2 : Qeq_bool (close b) 0 = false)
      by (apply Qeq_bool_false_iff; lra).
    rewrite N1, N2. cbn [Res_bind]. f_equal. apply clip_trunc_floor.
Qed.

Lemma calculate_risk_size_formula_witness :
  calculate_risk_size default_params scenario1_bar
  = Ok (Z.max 0
          (Z.min (Qfloor (broker_value scenario1_bar * risk_pct default_params
                          / (atr scenario1_bar * atr_stop_mult default_params)))
                 (Qfloor (broker_value scenario1_bar * max_pos_size default_params
                          / close scenario1_bar)))).
Proof.
  apply (proj1 calculate_risk_size_formula default_params scenario1_bar).
  - left. vm_compute. discriminate.
  - reflexivity.
  - reflexivity.
  - reflexivity.
Defined.

(** ** C3: the entry transition *)

(** What [next] does on a signal bar while flat, the buy being accepted. *)
Lemma next_entry (p : Params) (b : Bar) (s : Strategy) (w : World) (n : Z) :
  (len_data b <? Z.max (trend_period p) (slow_period p) + 2)%Z = false ->
  position_size b = 0%Z ->
  buy_signal p b = true ->
  calculate_risk_size p b = Ok n -> (0 < n)%Z ->
  hd false (faults w) = false ->
  let stop_price := close b - atr b * atr_stop_mult p in
  let reqs := requests w ++ [ReqOrder Buy n Market None;
                             ReqOrder Sell n Stop (Some stop_price)] in
  next p b (s, w) =
  if hd false (tl (faults w))
  then (Ok tt,
        (s, mkWorld (next_ref w + 1) (tl (tl (faults w))) reqs
                    (stdout w ++ printed p [LogBuySignal (atr b) n;
                                            LogInitialStopFailed OrderError])))
  else (Ok tt,
        (mkStrategy
           (Some (mkOrder (next_ref w + 1) Sell n Stop (Some stop_price)))
           stop_price (entry_price s) stop_price false
           (trade_count s) (win_count s),
         mkWorld (next_ref w + 2) (tl (tl (faults w))) reqs
                 (stdout w ++ printed p [LogBuySignal (atr b) n;
                                         LogInitialStop stop_price]))).
Proof.
  intros Hlen Hpos Hsig Hsize Hn Hfirst. cbv zeta.
  unfold next. rewrite Hlen, Hpos, Hsig. cbn [Z.eqb].
  unfold entry. rewrite Hsize, bind_lift_ok.
  apply Z.ltb_lt in Hn. rewrite Hn.
  unfold_m.
  assert (Hf1 : hd false (faults w) = false) by exact Hfirst.
  unfold printed.
  destruct (printlog p) eqn:Hlog; unfold_m; rewrite Hf1; unfold_m;
    destruct (hd false (tl (faults w))) eqn:Hf2; unfold_m;
    cbn [set_stop_order set_last_stop_price set_initial_stop
         set_break_even_active stop_order last_stop_price entry_price
         initial_stop break_even_active trade_count win_count];
    rewrite <- ?app_assoc, ?app_nil_r; cbn [app];
    rewrite <- ?Z.add_assoc; reflexivity.
Qed.

(** C3 (as amended).  A buy fill records [entry_price] from the fill.  The
    protective stop is not placed on the fill: on the signal bar, flat and
    with a positive size [n], [next] submits the market buy for [n] and, in
    the same call, a stop sell for [n] at close - atr * atr_stop_mult, which
    it records as [initial_stop] and [last_stop_price]; if that stop
    submission raises, the failure is printed, the call returns normally
    and the strategy's attributes are left as they were. *)
Theorem entry_transition :
  (forall (p : Params) (n : Notification) (s : Strategy) (w : World),
      status n = Completed -> ordtype (order n) = Buy ->
      entry_price (fst (snd (notify_order p n (s, w)))) = executed_price n)
  /\
  (forall (p : Params) (b : Bar) (s : Strategy) (w : World) (n : Z),
      (len_data b <? Z.max (trend_period p) (slow_period p) + 2)%Z = false ->
      position_size b = 0%Z ->
      buy_signal p b = true ->
      calculate_risk_size p b = Ok n -> (0 < n)%Z ->
      hd false (faults w) = false ->
      let stop_price := close b - atr b * atr_stop_mult p in
      let reqs := requests w ++ [ReqOrder Buy n Market None;
                                 ReqOrder Sell n Stop (Some stop_price)] in
      next p b (s, w) =
      if hd false (tl (faults w))
      then (Ok tt,
            (s, mkWorld (next_ref w + 1) (tl (tl (faults w))) reqs
                        (stdout w ++ printed p [LogBuySignal (atr b) n;
                                                LogInitialStopFailed OrderError])))
      else (Ok tt,
            (mkStrategy
               (Some (mkOrder (next_ref w + 1) Sell n Stop (Some stop_price)))
               stop_price (entry_price s) stop_price false
               (trade_count s) (win_count s),
             mkWorld (next_ref w + 2) (tl (tl (faults w))) reqs
                     (stdout w ++ printed p [LogBuySignal (atr b) n;
                                             LogInitialStop stop_price])))).
Proof.
  split.
  - intros p n s w Hst Hbuy. unfold notify_order. rewrite Hst, Hbuy.
    cbn [terminal]. cases_m; reflexivity.
  - intros p b s w n. apply next_entry.
Qed.

Lemma entry_transition_witness :
  entry_price
    (fst (snd (notify_order default_params
                 (mkNotification (mkOrder 1 Buy 333 Market None)
                                 Completed 101 333 333)
                 (init, world0)))) = 101
  /\ stop_order (fst (snd (next default_params (signal_bar 100 3)
                                (init, world0))))
     = Some (mkOrder 2 Sell 333 Stop (Some (100 - 3 * 2.0))).
Proof.
  split.
  - apply (proj1 entry_transition); reflexivity.
  - rewrite (proj2 entry_transition default_params (signal_bar 100 3)
               init world0 333%Z); reflexivity.
Defined.

(** C3 as stated fails: the stop is submitted on the signal bar from that
    bar's close (100 - 3 * 2 = 94); the buy then fills at 101, so
    [initial_stop] is not entry_price - atr * atr_stop_mult (95). *)
Lemma initial_stop_not_from_fill_price :
  let b := signal_bar 100 3 in
  let st1 := snd (next default_params b (init, world0)) in
  let fill := mkNotification (mkOrder 1 Buy 333 Market None)
                             Completed 101 333 333 in
  let s2 := fst (snd (notify_order default_params fill st1)) in
  requests (snd st1) = [ReqOrder Buy 333 Market None;
                        ReqOrder Sell 333 Stop (Some (100 - 3 * 2.0))]
  /\ entry_price s2 == 101
  /\ initial_stop s2 == 94
  /\ ~ initial_stop s2 == entry_price s2 - atr b * atr_stop_mult default_params.
Proof.
  cbv zeta. split; [vm_compute; reflexivity | ].
  split; [vm_compute; reflexivity | ].
  split; [vm_compute; reflexivity | ].
  vm_compute. discriminate.
Qed.

(** ** C4: break-even promotion *)

Lemma truthy_iff (x : Q) : truthy x = true <-> ~ x == 0.
Proof.
  unfold truthy. rewrite negb_true_iff. apply Qeq_bool_false_iff.
Qed.

Lemma promotion_due_iff (s : Strategy) (b : Bar) :
  (negb (break_even_active s) && truthy (entry_price s)
   && truthy (initial_stop s))
  && ((0 <? entry_price s - initial_stop s)
      && ((entry_price s - initial_stop s) * 0.6 <? close b - entry_price s))
  && (match stop_order s with None => true | Some _ => false end
      || (last_stop_price s <? entry_price s * 1.001)) = true
  <-> promotion_due s b.
Proof.
  unfold promotion_due.
  rewrite !andb_true_iff, orb_true_iff, negb_true_iff, !truthy_iff,
    !Qlt_bool_iff.
  assert (Hn : match stop_order s with None => true | Some _ => false end = true
               <-> stop_order s = None)
    by (destruct (stop_order s); split; congruence).
  rewrite Hn. tauto.
Qed.

(** C4 (as amended).  Break-even does nothing unless the promotion is due
    ([promotion_due]: the gain test is strict, and the price test applies
    only while a stop order is referenced).  When due it cancels the
    referenced stop, if any, and submits a stop sell for the position size at
    entry_price * 1.001; if that submission returns, the new order, the new
    [last_stop_price] and the promotion flag are recorded, otherwise the
    attributes stay.  With entry 100 and initial stop 94 outstanding the
    promotion is due exactly when the close is above 103.6, the new stop is
    100.1, and nothing happens if the outstanding stop is already at or above
    100.1. *)
Theorem break_even_promotion :
  (forall (p : Params) (b : Bar) (s : Strategy) (w : World),
      ~ promotion_due s b -> break_even p b (s, w) = (Ok tt, (s, w)))
  /\
  (forall (p : Params) (b : Bar) (s : Strategy) (w : World),
      promotion_due s b ->
      let new_stop := entry_price s * 1.001 in
      let cancels := match stop_order s with
                     | Some so => [ReqCancel so]
                     | None => []
                     end in
      let fs := match stop_order s with
                | Some _ => tl (faults w)
                | None => faults w
                end in
      let reqs := requests w ++ cancels
                  ++ [ReqOrder Sell (position_size b) Stop (Some new_stop)] in
      break_even p b (s, w) =
      if hd false fs
      then (Ok tt,
            (s, mkWorld (next_ref w) (tl fs) reqs
                        (stdout w ++ printed p [LogBreakEvenFailed OrderError])))
      else (Ok tt,
            (mkStrategy
               (Some (mkOrder (next_ref w) Sell (position_size b) Stop
                              (Some new_stop)))
               new_stop (entry_price s) (initial_stop s) true
               (trade_count s) (win_count s),
             mkWorld (next_ref w + 1) (tl fs) reqs
                     (stdout w ++ printed p [LogBreakEven new_stop]))))
  /\
  (forall (b : Bar) (s : Strategy) (so : Order),
      entry_price s = 100 -> initial_stop s = 94 ->
      break_even_active s = false -> stop_order s = Some so ->
      entry_price s * 1.001 == 100.1
      /\ (last_stop_price s < 100.1 ->
          (promotion_due s b <-> 103.6 < close b))
      /\ (100.1 <= last_stop_price s -> ~ promotion_due s b)).
Proof.
  split; [ | split].
  - intros p b s w Hnot. rewrite <- promotion_due_iff in Hnot.
    unfold break_even. unfold_m.
    destruct (negb (break_even_active s) && truthy (entry_price s)
              && truthy (initial_stop s)); [ | reflexivity].
    destruct ((0 <? entry_price s - initial_stop s)
              && ((entry_price s - initial_stop s) * 0.6
                  <? close b - entry_price s)); [ | reflexivity].
    destruct (match stop_order s with None => true | Some _ => false end
              || (last_stop_price s <? entry_price s * 1.001));
      [ | reflexivity].
    exfalso. apply Hnot. reflexivity.
  - intros p b s w Hdue. rewrite <- promotion_due_iff in Hdue.
    apply andb_prop in Hdue. destruct Hdue as [H12 H3].
    apply andb_prop in H12. destruct H12 as [H1 H2].
    cbv zeta. unfold break_even. unfold_m. rewrite H1, H2, H3.
    unfold printed.
    destruct (stop_order s) as [so | ]; unfold_m.
    + destruct (hd false (faults w)); unfold_m;
        destruct (hd false (tl (faults w))); unfold_m;
        destruct (printlog p);
        cbn [set_stop_order set_last_stop_price set_break_even_active
             stop_order last_stop_price entry_price initial_stop
             break_even_active trade_count win_count];
        rewrite <- ?app_assoc, ?app_nil_r; reflexivity.
    + destruct (hd false (faults w)); unfold_m;
        destruct (printlog p);
        cbn [set_stop_order set_last_stop_price set_break_even_active
             stop_order last_stop_price entry_price initial_stop
             break_even_active trade_count win_count];
        rewrite ?app_nil_r; reflexivity.
  - intros b s so He Hi Hoff Hso. unfold promotion_due.
    rewrite He, Hi, Hoff, Hso. split; [reflexivity | ]. split.
    + intros Hlast. split.
      * intros (_ & _ & _ & _ & Hgain & _). lra.
      * intros Hc. repeat split; try lra; intros E; lra.
    + intros Hlast (_ & _ & _ & _ & _ & [Hn | Hlt]); [discriminate | lra].
Qed.

Lemma break_even_promotion_witness :
  let b := holding_bar 104 103 2 0 1000 in
  promotion_due scenario2_state b
  /\ fst (snd (break_even default_params b (scenario2_state, world0)))
     = mkStrategy (Some (mkOrder 1 Sell 1000 Stop (Some (100 * 1.001))))
                  (100 * 1.001) 100 94 true 0 0.
Proof.
  cbv zeta.
  assert (Hdue : promotion_due scenario2_state (holding_bar 104 103 2 0 1000)).
  { unfold promotion_due. cbn [scenario2_state holding_bar break_even_active
      entry_price initial_stop close stop_order last_stop_price].
    repeat split; try lra; intros E; lra. }
  split; [exact Hdue | ].
  rewrite (proj1 (proj2 break_even_promotion) default_params _ _ world0 Hdue).
  reflexivity.
Defined.

(** C4 as stated fails twice: at a close of exactly 103.6 nothing is
    promoted, and with no stop order referenced the promotion goes through at
    100.1 although [last_stop_price] is 102. *)
Lemma promotion_strict_and_unchecked_without_stop :
  break_even default_params (holding_bar 103.6 103 2 0 1000)
             (scenario2_state, world0)
  = (Ok tt, (scenario2_state, world0))
  /\ (let s := mkStrategy None 102 100 94 false 0 0 in
      let s' := fst (snd (break_even default_params
                            (holding_bar 104 103 2 0 1000) (s, world0))) in
      break_even_active s' = true
      /\ last_stop_price s' == 100.1
      /\ last_stop_price s' < last_stop_price s).
Proof.
  split; [vm_compute; reflexivity | ].
  cbv zeta. split; [vm_compute; reflexivity | ].
  split; vm_compute; reflexivity.
Qed.

(** ** C5: partial exit *)

Lemma retain_size_floor (r : Q) (n : Z) :
  0 <= r -> (0 < n)%Z ->
  py_int (inject_Z n * r) = Qfloor (inject_Z n * r)
  /\ (0 <= Qfloor (inject_Z n * r))%Z.
Proof.
  intros Hr Hn.
  assert (Hq : 0 <= inject_Z n * r).
  { apply Qmult_le_0_compat; [ | exact Hr].
    change 0 with (inject_Z 0). rewrite <- Zle_Qle. lia. }
  split.
  - now apply py_int_nonneg.
  - change 0%Z with (Qfloor 0). now apply Qfloor_resp_le.
Qed.

Lemma retain_size_below (r : Q) (n : Z) :
  r < 1 -> (0 < n)%Z -> (Qfloor (inject_Z n * r) < n)%Z.
Proof.
  intros Hr Hn. rewrite Zlt_Qlt.
  apply Qle_lt_trans with (inject_Z n * r); [apply Qfloor_le | ].
  assert (Hpos : 0 < inject_Z n)
    by (change 0 with (inject_Z 0); rewrite <- Zlt_Qlt; exact Hn).
  nra.
Qed.

Lemma retain_size_above (r : Q) (n : Z) :
  1 <= r -> (0 < n)%Z -> (n <= Qfloor (inject_Z n * r))%Z.
Proof.
  intros Hr Hn. rewrite <- (Qfloor_Z n) at 1. apply Qfloor_resp_le.
  assert (Hpos : 0 < inject_Z n)
    by (change 0 with (inject_Z 0); rewrite <- Zlt_Qlt; exact Hn).
  nra.
Qed.

(** C5 (as amended).  On a dead cross while holding S the step is the
    partial-exit stage run after promotion and trailing.  The stage computes
    retain = int(S * retain_pct), truncated toward zero, and
    sell_now = S - retain; for S > 0 and a retain fraction that is not
    negative retain is floor(S * retain_pct), is not negative, and
    sell_now > 0 exactly when the fraction is below 1.  Only when
    sell_now > 0 does the stage act: it requests, in this order, a market
    sell for sell_now, the cancellation of the referenced stop, and, when
    retain > 0, a stop sell sized retain at max(last_stop_price, low - atr),
    which it records when the submission returns; with nothing retained the
    attributes stay as they were.  When sell_now <= 0 the stage makes no
    request and changes nothing.  With S = 1000 and retain_pct = 0.15: sell
    850, cancel the stop of size 1000, new stop of size 150. *)
Theorem partial_exit_orders :
  (forall (p : Params) (b : Bar) (st : St),
      (len_data b <? Z.max (trend_period p) (slow_period p) + 2)%Z = false ->
      position_size b <> 0%Z -> sell_signal b = true ->
      next p b st
      = partial_exit p b (snd (trailing_stop p b (snd (break_even p b st)))))
  /\
  (forall (p : Params) (b : Bar),
      0 <= retain_pct p -> (0 < position_size b)%Z ->
      let S := position_size b in
      let retain := py_int (inject_Z S * retain_pct p) in
      retain = Qfloor (inject_Z S * retain_pct p)
      /\ (0 <= retain)%Z
      /\ ((0 < S - retain)%Z <-> retain_pct p < 1))
  /\
  (forall (p : Params) (b : Bar) (s : Strategy) (w : World),
      let S := position_size b in
      let retain := py_int (inject_Z S * retain_pct p) in
      let sell_now := (S - retain)%Z in
      let cancels := match stop_order s with
                     | Some so => [ReqCancel so]
                     | None => []
                     end in
      let fs := match stop_order s with
                | Some _ => tl (tl (faults w))
                | None => tl (faults w)
                end in
      let stop_at := py_max (last_stop_price s) (low b - atr b) in
      let out := snd (partial_exit p b (s, w)) in
      (0 < sell_now)%Z ->
      requests (snd out)
      = requests w ++ [ReqOrder Sell sell_now Market None] ++ cancels
        ++ (if (0 <? retain)%Z
            then [ReqOrder Sell retain Stop (Some stop_at)] else [])
      /\ last_stop_price s <= stop_at /\ low b - atr b <= stop_at
      /\ (stop_at = last_stop_price s \/ stop_at = low b - atr b)
      /\ ((0 < retain)%Z -> hd false fs = false ->
          exists r : Z,
            stop_order (fst out) = Some (mkOrder r Sell retain Stop (Some stop_at))
            /\ last_stop_price (fst out) = stop_at)
      /\ ((retain <= 0)%Z -> fst out = s))
  /\
  (forall (p : Params) (b : Bar) (st : St),
      (position_size b
       - py_int (inject_Z (position_size b) * retain_pct p) <= 0)%Z ->
      partial_exit p b st = (Ok tt, st))
  /\
  (let out := snd (next default_params scenario3_bar
                        (scenario3_state, scenario3_world)) in
   requests (snd out)
   = [ReqOrder Sell 850 Market None; ReqCancel scenario3_stop;
      ReqOrder Sell 150 Stop (Some (py_max 94 (98 - 3)))]
   /\ stop_order (fst out)
      = Some (mkOrder 4 Sell 150 Stop (Some (py_max 94 (98 - 3))))).
Proof.
  split; [ | split; [ | split; [ | split]]].
  - intros p b st Hlen Hpos Hsig.
    rewrite next_in_position by assumption. now rewrite Hsig.
  - intros p b Hr0 HS. cbv zeta.
    destruct (retain_size_floor (retain_pct p) (position_size b) Hr0 HS)
      as [Hint Hge].
    split; [exact Hint | ]. rewrite Hint. split; [exact Hge | ].
    split.
    + intros Hsell. destruct (Qlt_le_dec (retain_pct p) 1) as [H | H];
        [exact H | ].
      pose proof (retain_size_above (retain_pct p) (position_size b) H HS).
      lia.
    + intros Hr1.
      pose proof (retain_size_below (retain_pct p) (position_size b) Hr1 HS).
      lia.
  - intros p b s w. cbv zeta. intros HS.
    assert (Hsell : (0 <? position_size b
                          - py_int (inject_Z (position_size b) * retain_pct p))%Z
                    = true) by (apply Z.ltb_lt; lia).
    unfold partial_exit. rewrite Hsell.
    split; [ | split; [apply py_max_lower | split; [apply py_max_upper | split;
                [apply py_max_cases | split]]]].
    + cases_m; rewrite <- ?app_assoc; reflexivity.
    + intros Hpos Hok. apply Z.ltb_lt in Hpos. rewrite Hpos.
      destruct (stop_order s) as [so | ] eqn:Hso; unfold_m.
      * destruct (printlog p); unfold_m;
          destruct (hd false (faults w)); unfold_m; rewrite ?Hso; unfold_m;
          destruct (hd false (tl (faults w))); unfold_m; rewrite Hok;
          cbn [set_stop_order set_last_stop_price stop_order last_stop_price];
          eexists; split; reflexivity.
      * destruct (printlog p); unfold_m;
          destruct (hd false (faults w)); unfold_m; rewrite ?Hso; unfold_m;
          rewrite Hok;
          cbn [set_stop_order set_last_stop_price stop_order last_stop_price];
          eexists; split; reflexivity.
    + intros Hnone. apply Z.ltb_ge in Hnone. rewrite Hnone.
      cases_m; reflexivity.
  - intros p b [s w] Hnone. apply Z.ltb_ge in Hnone.
    unfold partial_exit. rewrite Hnone. reflexivity.
  - cbv zeta. split; vm_compute; reflexivity.
Qed.

Lemma partial_exit_orders_witness :
  (let out := snd (partial_exit default_params scenario3_bar
                                (scenario3_state, scenario3_world)) in
   requests (snd out)
   = requests scenario3_world
     ++ [ReqOrder Sell (1000 - py_int (inject_Z 1000 * 0.15)) Market None]
     ++ [ReqCancel scenario3_stop]
     ++ [ReqOrder Sell (py_int (inject_Z 1000 * 0.15)) Stop
                  (Some (py_max 94 (98 - 3)))])
  /\ partial_exit (with_retain_pct 1) scenario3_bar
                  (scenario3_state, scenario3_world)
     = (Ok tt, (scenario3_state, scenario3_world))
  /\ py_int (inject_Z 1000 * 0.15) = Qfloor (inject_Z 1000 * 0.15).
Proof.
  split; [ | split].
  - destruct (proj1 (proj2 (proj2 partial_exit_orders)) default_params
                scenario3_bar scenario3_state scenario3_world)
      as (Hreq & _).
    + reflexivity.
    + exact Hreq.
  - apply (proj1 (proj2 (proj2 (proj2 partial_exit_orders)))).
    vm_compute. discriminate.
  - destruct (proj1 (proj2 partial_exit_orders) default_params scenario3_bar)
      as (Hfloor & _).
    + vm_compute. discriminate.
    + reflexivity.
    + exact Hfloor.
Defined.

(** C5 as stated fails.  With a retain fraction of 1, 1000 units held
    behind a stop of 1000 and a dead cross, retain is 1000 > 0 and a stop
    exists, yet the step requests nothing: the stop is neither cancelled
    nor re-issued.  With a retain fraction of -0.00015 the code's retain is
    int(-0.15) = 0 where the floor is -1, and it sells 1000 units, not
    1001. *)
Lemma exit_signal_without_sale :
  (let st := (scenario3_state, scenario3_world) in
   sell_signal scenario3_bar = true
   /\ position_size scenario3_bar = 1000%Z
   /\ Qfloor (inject_Z 1000 * retain_pct (with_retain_pct 1)) = 1000%Z
   /\ stop_order scenario3_state = Some scenario3_stop
   /\ next (with_retain_pct 1) scenario3_bar st = (Ok tt, st))
  /\
  (let p := with_retain_pct (-0.00015) in
   let out := snd (next p scenario3_bar (scenario3_state, scenario3_world)) in
   Qfloor (inject_Z 1000 * retain_pct p) = (-1)%Z
   /\ py_int (inject_Z 1000 * retain_pct p) = 0%Z
   /\ requests (snd out)
      = [ReqOrder Sell 1000 Market None; ReqCancel scenario3_stop]).
Proof.
  split; cbv zeta; repeat split; vm_compute; reflexivity.
Qed.

(** ** C6: no churn in trailing updates *)

Lemma notifications_keep_stop_price (p : Params) (ns : list Notification)
      (st : St) :
  last_stop_price (fst (snd (run p (map OnOrder ns) st)))
  = last_stop_price (fst st).
Proof.
  revert st. induction ns as [ | n ns IH]; intros st.
  - reflexivity.
  - cbn [map run handle]. unfold bind.
    pose proof (notify_order_keeps_stop_price p n st) as Hn.
    destruct (notify_order p n st) as [[[] | e] st1]; cbn [fst snd] in *.
    + now rewrite IH.
    + exact Hn.
Qed.

Lemma trailing_stop_cases (p : Params) (b : Bar) (s : Strategy) (w : World) :
  let dynamic_stop := close b - atr b * atr_stop_mult p in
  let out := trailing_stop p b (s, w) in
  out = (Ok tt, (s, w))
  \/ (last_stop_price s * (1 + trail_trigger p) < dynamic_stop
      /\ last_stop_price s < dynamic_stop
      /\ (0 < position_size b)%Z
      /\ (exists so, stop_order s = Some so
          /\ (requests (snd (snd out)) = requests w ++ [ReqCancel so]
              \/ requests (snd (snd out))
                 = requests w ++ [ReqCancel so;
                                  ReqOrder Sell (position_size b) Stop
                                           (Some dynamic_stop)]))
      /\ (fst (snd out) = s
          \/ last_stop_price (fst (snd out)) = dynamic_stop)).
Proof.
  cbv zeta. unfold trailing_stop. cases_m; try (left; reflexivity); right;
    repeat match goal with
           | H : (_ <? _) = true |- _ => apply Qlt_bool_iff in H
           | H : (0 <? _)%Z = true |- _ => apply Z.ltb_lt in H
           end;
    (split; [assumption | split; [assumption | split; [assumption | split]]]);
    try (eexists; split; [reflexivity | ];
         rewrite <- ?app_assoc; cbn [app]; auto);
    cbn [last_stop_price set_last_stop_price set_stop_order]; auto.
Qed.

(** C6.  The trailing stage either does nothing at all or finds
    dynamic_stop = close - atr * atr_stop_mult above both
    last_stop_price * (1 + trail_trigger) and last_stop_price, with a
    referenced stop and a long position; it then asks to cancel that stop
    and submits the replacement, and an accepted replacement makes
    dynamic_stop the new last_stop_price.  Hence an accepted trailing
    replacement that follows another trailing stage (order notifications in
    between) raises the stop price by more than trail_trigger times the
    previous one. *)
Theorem trailing_no_churn :
  (forall (p : Params) (b : Bar) (s : Strategy) (w : World),
      let dynamic_stop := close b - atr b * atr_stop_mult p in
      let out := trailing_stop p b (s, w) in
      out = (Ok tt, (s, w))
      \/ (last_stop_price s * (1 + trail_trigger p) < dynamic_stop
          /\ last_stop_price s < dynamic_stop
          /\ trail_trigger p * last_stop_price s
             < dynamic_stop - last_stop_price s
          /\ (fst (snd out) = s
              \/ last_stop_price (fst (snd out)) = dynamic_stop)))
  /\
  (forall (p : Params) (b1 b2 : Bar) (ns : list Notification) (st0 : St),
      let st1 := snd (trailing_stop p b1 st0) in
      let st1' := snd (run p (map OnOrder ns) st1) in
      let st2 := snd (trailing_stop p b2 st1') in
      last_stop_price (fst st2) <> last_stop_price (fst st1') ->
      trail_trigger p * last_stop_price (fst st1)
      < last_stop_price (fst st2) - last_stop_price (fst st1)).
Proof.
  split.
  - intros p b s w. cbv zeta.
    destruct (trailing_stop_cases p b s w) as [H | (H1 & H2 & _ & _ & H5)].
    + now left.
    + right. repeat split; try assumption. lra.
  - intros p b1 b2 ns st0. cbv zeta.
    set (st1 := snd (trailing_stop p b1 st0)).
    pose proof (notifications_keep_stop_price p ns st1) as Hkeep.
    destruct (snd (run p (map OnOrder ns) st1)) as [s1' w1'].
    cbn [fst] in Hkeep |- *.
    destruct (trailing_stop_cases p b2 s1' w1') as [H | (H1 & H2 & _ & _ & H5)].
    + rewrite H. cbn [fst snd]. congruence.
    + intros Hne. destruct H5 as [H5 | H5].
      * rewrite H5 in Hne. congruence.
      * rewrite H5, <- Hkeep. lra.
Qed.

Lemma trailing_no_churn_witness :
  let st0 := (scenario2_state, world0) in
  let b1 := holding_bar 103 102 0.5 0 1000 in
  let b2 := holding_bar 105 104 0.5 0 1000 in
  let st1 := snd (trailing_stop default_params b1 st0) in
  let st2 := snd (trailing_stop default_params b2 st1) in
  trail_trigger default_params * last_stop_price (fst st1)
  < last_stop_price (fst st2) - last_stop_price (fst st1).
Proof.
  cbv zeta.
  apply (proj2 trailing_no_churn default_params
               (holding_bar 103 102 0.5 0 1000)
               (holding_bar 105 104 0.5 0 1000) [] (scenario2_state, world0)).
  vm_compute. discriminate.
Defined.

(** ** C7: the outstanding stop follows the position size *)

Lemma notify_order_ok (p : Params) (n : Notification) (st : St) :
  fst (notify_order p n st) = Ok tt.
Proof.
  destruct st as [s w]. unfold notify_order.
  destruct (status n); cbn [terminal]; cases_m; try reflexivity;
    destruct (ordtype (order n)); cases_m; reflexivity.
Qed.

(** The handler clears the reference exactly on a terminal status of the
    referenced order. *)
Lemma notify_order_stop_order (p : Params) (n : Notification) (st : St) :
  stop_order (fst (snd (notify_order p n st)))
  = match stop_order (fst st) with
    | Some so =>
        if terminal (status n) && (ref (order n) =? ref so)%Z
        then None else Some so
    | None => None
    end.
Proof.
  destruct st as [s w]. unfold notify_order.
  destruct (status n); cbn [terminal andb]; cases_m;
    cbn [stop_order set_stop_order] in *; try congruence;
    destruct (ordtype (order n)); cases_m;
    cbn [stop_order set_stop_order set_entry_price set_trade_count
         set_win_count] in *; congruence.
Qed.

Ltac settle :=
  match goal with
  | H : faults ?w = [] |- _ => rewrite ?H in *; cbn [hd tl] in *
  end.

Lemma skipn_length_app {A} (l x : list A) : skipn (length l) (l ++ x) = x.
Proof. induction l as [ | a l IH]; [reflexivity | exact IH]. Qed.

Lemma tracks_outstanding (w w' : World) (bk bk' : list Order) :
  tracks w w' bk bk' -> outstanding w w' bk = bk'.
Proof.
  intros (l & Hl & Hg). unfold outstanding, since.
  rewrite Hl, skipn_length_app, Hg. reflexivity.
Qed.

Lemma tracks_refl (w : World) (bk : list Order) : tracks w w bk bk.
Proof. exists []. split; [symmetry; apply app_nil_r | reflexivity]. Qed.

Lemma tracks_trans (w1 w2 w3 : World) (b1 b2 b3 : list Order) :
  tracks w1 w2 b1 b2 -> tracks w2 w3 b2 b3 -> tracks w1 w3 b1 b3.
Proof.
  intros (l1 & H1 & G1) (l2 & H2 & G2). exists (l1 ++ l2). split.
  - rewrite H2, H1. now rewrite app_assoc.
  - unfold replay in *. now rewrite fold_left_app, G1.
Qed.

Lemma held_remove_order (s : Strategy) (so : Order) (bk : list Order) :
  stop_order s = Some so -> held s bk -> remove_order so bk = [].
Proof.
  intros Hso Hh. unfold remove_order.
  induction bk as [ | x bk IH]; [reflexivity | ].
  cbn [filter].
  assert (x = so) by (specialize (Hh x (or_introl eq_refl)); congruence).
  subst x. rewrite Z.eqb_refl. cbn [negb].
  apply IH. intros o Ho. apply Hh. now right.
Qed.

Lemma held_none (s : Strategy) (bk : list Order) :
  stop_order s = None -> held s bk -> bk = [].
Proof.
  intros Hn Hh. destruct bk as [ | x bk]; [reflexivity | ].
  specialize (Hh x (or_introl eq_refl)). congruence.
Qed.


Ltac replayed Hf :=
  unfold replay, gateway_of;
  cbn [fold_left serve answers next_handle book faults next_ref];
  rewrite ?Hf;
  cbn [fold_left serve answers next_handle book faults next_ref hd tl app].

Ltac one_stop :=
  unfold held;
  cbn [stop_order set_stop_order set_last_stop_price set_break_even_active
       covered size];
  first [ reflexivity
        | intros _; reflexivity
        | let o := fresh "o" in
          let H := fresh "H" in
          intros o H; cbn [In] in H; destruct H as [<- | []]; reflexivity ].

Ltac book_step Hf Hh :=
  lazymatch goal with
  | Hso : stop_order ?s = Some ?o |- _ =>
      let Hrm := fresh "Hrm" in
      pose proof (held_remove_order s o _ Hso Hh) as Hrm;
      eexists; split;
      [ eexists; split;
        [ rewrite <- ?app_assoc; reflexivity
        | replayed Hf; rewrite ?Hrm; cbn [app]; reflexivity ]
      | split; [reflexivity | split; one_stop ] ]
  | Hso : stop_order ?s = None |- _ =>
      let Hnil := fresh "Hnil" in
      pose proof (held_none s _ Hso Hh) as Hnil;
      rewrite Hnil in *;
      eexists; split;
      [ eexists; split;
        [ rewrite <- ?app_assoc; reflexivity
        | replayed Hf; reflexivity ]
      | split; [reflexivity | split; one_stop ] ]
  end.

Lemma break_even_tracks (p : Params) (b : Bar) (s : Strategy) (w : World)
      (bk : list Order) :
  faults w = [] -> held s bk ->
  let st' := snd (break_even p b (s, w)) in
  exists bk' : list Order,
    tracks w (snd st') bk bk'
    /\ faults (snd st') = []
    /\ held (fst st') bk'
    /\ (covered (position_size b) bk -> covered (position_size b) bk').
Proof.
  intros Hf Hh. cbv zeta. unfold break_even. cases_m.
  all: try (exists bk; split; [apply tracks_refl | auto]).
  all: settle; try discriminate.
  all: book_step Hf Hh.
Qed.

Lemma trailing_stop_tracks (p : Params) (b : Bar) (s : Strategy) (w : World)
      (bk : list Order) :
  faults w = [] -> held s bk ->
  let st' := snd (trailing_stop p b (s, w)) in
  exists bk' : list Order,
    tracks w (snd st') bk bk'
    /\ faults (snd st') = []
    /\ held (fst st') bk'
    /\ (covered (position_size b) bk -> covered (position_size b) bk').
Proof.
  intros Hf Hh. cbv zeta. unfold trailing_stop. cases_m.
  all: try (exists bk; split; [apply tracks_refl | auto]).
  all: settle; try discriminate.
  all: book_step Hf Hh.
Qed.

Ltac held_goal :=
  unfold held;
  cbn [stop_order set_stop_order set_last_stop_price set_break_even_active];
  let x := fresh "x" in
  let Hx := fresh "Hx" in
  intros x Hx; cbn [In] in Hx;
  first [ contradiction | destruct Hx as [<- | []]; reflexivity ].

Lemma partial_exit_tracks (p : Params) (b : Bar) (s : Strategy) (w : World)
      (bk : list Order) :
  let retain := py_int (inject_Z (position_size b) * retain_pct p) in
  faults w = [] -> held s bk ->
  (0 < position_size b - retain)%Z -> (0 <= retain)%Z ->
  let st' := snd (partial_exit p b (s, w)) in
  exists bk' : list Order,
    tracks w (snd st') bk bk'
    /\ faults (snd st') = []
    /\ held (fst st') bk'
    /\ covered retain bk'.
Proof.
  cbv zeta. intros Hf Hh Hsell Hkeep.
  apply Z.ltb_lt in Hsell. unfold partial_exit. rewrite Hsell.
  cases_m.
  all: settle; try discriminate.
  all: lazymatch goal with
       | Hso : stop_order ?s = Some ?o |- _ =>
           pose proof (held_remove_order s o _ Hso Hh) as Hbk;
           eexists; split;
           [ eexists; split;
             [ rewrite <- ?app_assoc; reflexivity
             | replayed Hf; rewrite Hbk; cbn [app]; reflexivity ]
           | split; [reflexivity | split; [held_goal | ] ] ]
       | Hso : stop_order ?s = None |- _ =>
           pose proof (held_none s _ Hso Hh) as Hbk; rewrite Hbk in *;
           eexists; split;
           [ eexists; split;
             [ rewrite <- ?app_assoc; reflexivity
             | replayed Hf; reflexivity ]
           | split; [reflexivity | split; [held_goal | ] ] ]
       end.
  all: cbn [covered size]; try reflexivity.
  all: match goal with
       | H : (0 <? _)%Z = false |- _ => apply Z.ltb_ge in H; lia
       end.
Qed.

Lemma next_tracks (p : Params) (b : Bar) (s : Strategy) (w : World)
      (bk : list Order) :
  (len_data b <? Z.max (trend_period p) (slow_period p) + 2)%Z = false ->
  position_size b <> 0%Z -> sell_signal b = false ->
  faults w = [] -> held s bk ->
  let st' := snd (next p b (s, w)) in
  exists bk' : list Order,
    tracks w (snd st') bk bk'
    /\ faults (snd st') = []
    /\ held (fst st') bk'
    /\ (covered (position_size b) bk -> covered (position_size b) bk').
Proof.
  intros Hlen Hpos Hsig Hf Hh. cbv zeta.
  rewrite next_in_position by assumption. rewrite Hsig.
  destruct (break_even_tracks p b s w bk Hf Hh) as (bk1 & T1 & F1 & H1 & C1).
  destruct (snd (break_even p b (s, w))) as [s1 w1]. cbn [fst snd] in *.
  destruct (trailing_stop_tracks p b s1 w1 bk1 F1 H1)
    as (bk2 & T2 & F2 & H2 & C2).
  destruct (snd (trailing_stop p b (s1, w1))) as [s2 w2]. cbn [fst snd] in *.
  exists bk2. split; [exact (tracks_trans _ _ _ _ _ _ T1 T2) | ].
  split; [exact F2 | ]. split; [exact H2 | auto].
Qed.

Lemma next_exit_tracks (p : Params) (b : Bar) (s : Strategy) (w : World)
      (bk : list Order) :
  let retain := py_int (inject_Z (position_size b) * retain_pct p) in
  (len_data b <? Z.max (trend_period p) (slow_period p) + 2)%Z = false ->
  sell_signal b = true ->
  (0 < position_size b - retain)%Z -> (0 <= retain)%Z ->
  faults w = [] -> held s bk ->
  let st' := snd (next p b (s, w)) in
  exists bk' : list Order,
    tracks w (snd st') bk bk'
    /\ faults (snd st') = []
    /\ held (fst st') bk'
    /\ covered retain bk'.
Proof.
  cbv zeta. intros Hlen Hsig Hsell Hkeep Hf Hh.
  rewrite next_in_position by (try assumption; lia). rewrite Hsig.
  destruct (break_even_tracks p b s w bk Hf Hh) as (bk1 & T1 & F1 & H1 & _).
  destruct (snd (break_even p b (s, w))) as [s1 w1]. cbn [fst snd] in *.
  destruct (trailing_stop_tracks p b s1 w1 bk1 F1 H1)
    as (bk2 & T2 & F2 & H2 & _).
  destruct (snd (trailing_stop p b (s1, w1))) as [s2 w2]. cbn [fst snd] in *.
  destruct (partial_exit_tracks p b s2 w2 bk2 F2 H2 Hsell Hkeep)
    as (bk3 & T3 & F3 & H3 & C3).
  exists bk3. split; [ | auto].
  exact (tracks_trans _ _ _ _ _ _ (tracks_trans _ _ _ _ _ _ T1 T2) T3).
Qed.

Lemma covered_member (pos : Z) (so : Order) (bk : list Order) :
  covered pos bk -> In so bk -> bk = [so] /\ size so = pos.
Proof.
  destruct bk as [ | x [ | y bk]]; cbn [covered In]; intros Hc Hi;
    try contradiction.
  destruct Hi as [-> | []]. now split.
Qed.

Lemma remove_order_self (so : Order) : remove_order so [so] = [].
Proof. unfold remove_order. cbn [filter]. now rewrite Z.eqb_refl. Qed.

(** A terminal status takes the notified order off the book; the handler
    clears the reference only if that order is the referenced one. *)
Lemma notify_order_held (p : Params) (n : Notification) (s : Strategy)
      (w : World) (bk : list Order) :
  held s bk ->
  held (fst (snd (notify_order p n (s, w))))
       (if terminal (status n) then remove_order (order n) bk else bk).
Proof.
  intros Hh x Hx. rewrite notify_order_stop_order. cbn [fst].
  destruct (terminal (status n)); cbn [andb].
  - unfold remove_order in Hx. apply filter_In in Hx. destruct Hx as [Hin Hne].
    rewrite (Hh x Hin). apply negb_true_iff in Hne.
    rewrite Z.eqb_sym, Hne. reflexivity.
  - rewrite (Hh x Hx). reflexivity.
Qed.

(** C7 (as amended).  Size-sync on the engine's book of outstanding stop
    orders: the stop sells it accepted and that were since neither
    cancelled by an accepted cancellation nor filled.  Provided the engine
    accepts every submission and cancellation, no stop is outstanding when
    the step begins other than the one the controller references, the
    retained size is not negative and the event's order fills in full:
    - after an entry (flat, nothing outstanding) the one outstanding stop
      has the bought size;
    - after a partial exit that sells sell_now > 0 of S the one outstanding
      stop has the retained size S - sell_now, and none is outstanding when
      nothing is retained;
    - after the fill of the outstanding stop, sized as the position, the
      position is 0, no stop is outstanding and none is referenced;
    - a step in a position without an exit signal keeps the outstanding stop
      sized as the position.
    After each of these, and after every order notification, the controller
    again references every outstanding stop. *)
Theorem size_sync_on_the_book :
  (forall (p : Params) (b : Bar) (s : Strategy) (w : World) (n : Z),
      (len_data b <? Z.max (trend_period p) (slow_period p) + 2)%Z = false ->
      position_size b = 0%Z ->
      buy_signal p b = true ->
      calculate_risk_size p b = Ok n -> (0 < n)%Z ->
      faults w = [] ->
      let st1 := snd (next p b (s, w)) in
      let bk' := outstanding w (snd st1) [] in
      let pos' := position_after_fill 0 (mkOrder (next_ref w) Buy n Market
                                                 None) in
      covered pos' bk' /\ held (fst st1) bk')
  /\
  (forall (p : Params) (b : Bar) (s : Strategy) (w : World)
          (bk : list Order),
      (len_data b <? Z.max (trend_period p) (slow_period p) + 2)%Z = false ->
      sell_signal b = true ->
      let S := position_size b in
      let retain := py_int (inject_Z S * retain_pct p) in
      let sell_now := (S - retain)%Z in
      (0 < sell_now)%Z -> (0 <= retain)%Z ->
      faults w = [] -> held s bk ->
      let st1 := snd (next p b (s, w)) in
      let bk' := outstanding w (snd st1) bk in
      let pos' := (S - sell_now)%Z in
      covered pos' bk' /\ held (fst st1) bk')
  /\
  (forall (p : Params) (s : Strategy) (w : World) (so : Order) (px : Q)
          (pos : Z) (bk : list Order),
      In so bk -> held s bk -> covered pos bk -> ordtype so = Sell ->
      let pos' := position_after_fill pos so in
      let bk' := remove_order so bk in
      let st2 := snd (notify_order p (mkNotification so Completed px
                                                     (- size so) pos')
                                   (s, w)) in
      pos' = 0%Z /\ bk' = [] /\ covered pos' bk'
      /\ stop_order (fst st2) = None)
  /\
  (forall (p : Params) (b : Bar) (s : Strategy) (w : World)
          (bk : list Order),
      (len_data b <? Z.max (trend_period p) (slow_period p) + 2)%Z = false ->
      position_size b <> 0%Z -> sell_signal b = false ->
      faults w = [] -> held s bk -> covered (position_size b) bk ->
      let st1 := snd (next p b (s, w)) in
      let bk' := outstanding w (snd st1) bk in
      covered (position_size b) bk' /\ held (fst st1) bk')
  /\
  (forall (p : Params) (n : Notification) (s : Strategy) (w : World)
          (bk : list Order),
      held s bk ->
      let bk' := if terminal (status n)
                 then remove_order (order n) bk else bk in
      held (fst (snd (notify_order p n (s, w)))) bk').
Proof.
  split; [ | split; [ | split; [ | split]]].
  - intros p b s w n Hlen Hpos Hsig Hsize Hn Hf. cbv zeta.
    rewrite (next_entry p b s w n) by (try assumption; now rewrite Hf).
    rewrite Hf. cbn [hd tl snd fst].
    assert (T : tracks w
                  (mkWorld (next_ref w + 2) []
                     (requests w
                      ++ [ReqOrder Buy n Market None;
                          ReqOrder Sell n Stop
                            (Some (close b - atr b * atr_stop_mult p))])
                     (stdout w
                      ++ printed p
                           [LogBuySignal (atr b) n;
                            LogInitialStop
                              (close b - atr b * atr_stop_mult p)]))
                  []
                  [mkOrder (next_ref w + 1) Sell n Stop
                     (Some (close b - atr b * atr_stop_mult p))]).
    { eexists. split; [reflexivity | ]. replayed Hf.
      rewrite <- Z.add_assoc. reflexivity. }
    rewrite (tracks_outstanding _ _ _ _ T).
    split.
    + unfold position_after_fill. cbn [covered size ordtype]. lia.
    + held_goal.
  - intros p b s w bk Hlen Hsig. cbv zeta. intros Hsell Hkeep Hf Hh.
    destruct (next_exit_tracks p b s w bk Hlen Hsig Hsell Hkeep Hf Hh)
      as (bk' & T & _ & H' & C').
    rewrite (tracks_outstanding _ _ _ _ T).
    split; [ | exact H'].
    replace (position_size b
             - (position_size b
                - py_int (inject_Z (position_size b) * retain_pct p)))%Z
      with (py_int (inject_Z (position_size b) * retain_pct p)) by lia.
    exact C'.
  - intros p s w so px pos bk Hin Hh Hc Hsell. cbv zeta.
    destruct (covered_member pos so bk Hc Hin) as [-> Hsize].
    rewrite remove_order_self.
    assert (Hpos : position_after_fill pos so = 0%Z)
      by (unfold position_after_fill; rewrite Hsell; lia).
    rewrite Hpos. split; [reflexivity | ]. split; [reflexivity | ].
    split; [reflexivity | ].
    rewrite notify_order_stop_order.
    cbn [fst stop_order status terminal order andb].
    rewrite (Hh so (or_introl eq_refl)), Z.eqb_refl. reflexivity.
  - intros p b s w bk Hlen Hpos Hsig Hf Hh Hc. cbv zeta.
    destruct (next_tracks p b s w bk Hlen Hpos Hsig Hf Hh)
      as (bk' & T & _ & H' & C').
    rewrite (tracks_outstanding _ _ _ _ T). split; auto.
  - intros p n s w bk Hh. cbv zeta. now apply notify_order_held.
Qed.

Lemma size_sync_on_the_book_witness :
  (let st1 := snd (next default_params scenario3_bar
                        (scenario3_state, scenario3_world)) in
   let bk' := outstanding scenario3_world (snd st1) [scenario3_stop] in
   covered 150 bk' /\ held (fst st1) bk')
  /\
  (let st1 := snd (next default_params (signal_bar 100 3) (init, world0)) in
   covered 333 (outstanding world0 (snd st1) []))
  /\
  (let st2 := snd (notify_order default_params
                     (mkNotification scenario3_stop Completed 94 (-1000) 0)
                     (scenario3_state, scenario3_world)) in
   remove_order scenario3_stop [scenario3_stop] = []
   /\ stop_order (fst st2) = None).
Proof.
  split; [ | split].
  - cbv zeta.
    apply (proj1 (proj2 size_sync_on_the_book) default_params scenario3_bar
                 scenario3_state scenario3_world [scenario3_stop]).
    + reflexivity.
    + reflexivity.
    + reflexivity.
    + vm_compute. discriminate.
    + reflexivity.
    + intros o [<- | []]. reflexivity.
  - cbv zeta.
    apply (proj1 size_sync_on_the_book default_params (signal_bar 100 3)
                 init world0 333%Z); reflexivity.
  - cbv zeta.
    destruct (proj1 (proj2 (proj2 size_sync_on_the_book)) default_params
                scenario3_state scenario3_world scenario3_stop 94 1000%Z
                [scenario3_stop])
      as (_ & Hbk & _ & Href).
    + left. reflexivity.
    + intros o [<- | []]. reflexivity.
    + reflexivity.
    + reflexivity.
    + split; [exact Hbk | exact Href].
Defined.

(** C7 as stated fails, in a way of its own for each proviso.
    - The engine refuses the initial stop: the buy of 333 units fills and
      no stop is outstanding.
    - The engine refuses the cancellation at a partial exit of 1000 units:
      the old stop of 1000 and the new stop of 150 are both outstanding
      over a position of 150.
    - The engine refused the cancellation at an earlier break-even
      promotion, so a stop of 1000 is outstanding that the controller does
      not reference; a later partial exit, every call accepted, leaves it
      outstanding beside the new stop of 150.
    - The market sell of 850 fills 200 units only: the position is 800
      behind a stop of 150.
    - With a retain fraction of -0.15 the market sell is for 1150 units;
      filled in full it leaves a position of -150 and no stop. *)
Lemma size_sync_broken :
  (let w := mkWorld 1 [false; true] [] [] in
   let st1 := snd (next default_params (signal_bar 100 3) (init, w)) in
   let pos' := position_after_fill 0 (mkOrder 1 Buy 333 Market None) in
   requests (snd st1) = [ReqOrder Buy 333 Market None;
                         ReqOrder Sell 333 Stop (Some (100 - 3 * 2.0))]
   /\ pos' = 333%Z
   /\ outstanding w (snd st1) [] = []
   /\ ~ covered pos' (outstanding w (snd st1) []))
  /\
  (let w := mkWorld 3 [false; true; false] [] [] in
   let st1 := snd (next default_params scenario3_bar (scenario3_state, w)) in
   let bk' := outstanding w (snd st1) [scenario3_stop] in
   bk' = [scenario3_stop;
          mkOrder 4 Sell 150 Stop (Some (py_max 94 (98 - 3)))]
   /\ ~ covered (1000 - 850) bk')
  /\
  (let w := mkWorld 3 [true] [] [] in
   let st1 := snd (next default_params (holding_bar 104 103 3 0 1000)
                        (scenario2_state, w)) in
   let bk1 := outstanding w (snd st1) [scenario2_stop] in
   let st2 := snd (next default_params scenario3_bar st1) in
   let bk2 := outstanding (snd st1) (snd st2) bk1 in
   faults (snd st1) = []
   /\ bk1 = [scenario2_stop; mkOrder 3 Sell 1000 Stop (Some (100 * 1.001))]
   /\ ~ held (fst st1) bk1
   /\ bk2 = [scenario2_stop;
             mkOrder 5 Sell 150 Stop (Some (py_max (100 * 1.001) (98 - 3)))]
   /\ ~ covered (1000 - 850) bk2)
  /\
  (let st1 := snd (next default_params scenario3_bar
                        (scenario3_state, scenario3_world)) in
   let bk' := outstanding scenario3_world (snd st1) [scenario3_stop] in
   bk' = [mkOrder 4 Sell 150 Stop (Some (py_max 94 (98 - 3)))]
   /\ ~ covered (1000 - 200) bk')
  /\
  (let p := with_retain_pct (-0.15) in
   let st1 := snd (next p scenario3_bar (scenario3_state, scenario3_world)) in
   let bk' := outstanding scenario3_world (snd st1) [scenario3_stop] in
   since scenario3_world (snd st1)
   = [ReqOrder Sell 1150 Market None; ReqCancel scenario3_stop]
   /\ bk' = []
   /\ ~ covered (1000 - 1150) bk').
Proof.
  split; [ | split; [ | split; [ | split]]]; cbv zeta.
  - split; [vm_compute; reflexivity | ]. split; [reflexivity | ].
    split; [vm_compute; reflexivity | ]. vm_compute. discriminate.
  - split; [vm_compute; reflexivity | ]. vm_compute. tauto.
  - split; [vm_compute; reflexivity | ].
    split; [vm_compute; reflexivity | ]. split.
    + intros H. specialize (H scenario2_stop).
      assert (E : stop_order
                    (fst (snd (next default_params
                                 (holding_bar 104 103 3 0 1000)
                                 (scenario2_state, mkWorld 3 [true] [] []))))
                  = Some (mkOrder 3 Sell 1000 Stop (Some (100 * 1.001))))
        by (vm_compute; reflexivity).
      rewrite E in H.
      assert (F : Some (mkOrder 3 Sell 1000 Stop (Some (100 * 1.001)))
                  = Some scenario2_stop).
      { apply H. vm_compute. left. reflexivity. }
      discriminate F.
    + split; [vm_compute; reflexivity | ]. vm_compute. tauto.
  - split; [vm_compute; reflexivity | ]. vm_compute. discriminate.
  - split; [vm_compute; reflexivity | ].
    split; [vm_compute; reflexivity | ]. vm_compute. discriminate.
Qed.

(** ** C8: invalid inputs to the sizer *)

(** Either guard of line 147 returns 0 whatever the other reads are. *)
Lemma sizer_guard (p : Params) (account_value close atr : Float) :
  le_zero atr = true \/ le_zero close = true ->
  Sizer.calculate_risk_size p account_value close atr = Ok 0%Z.
Proof.
  intros [H | H]; unfold Sizer.calculate_risk_size; rewrite H.
  - reflexivity.
  - now rewrite orb_true_r.
Qed.

(** A NaN ATR passes both guards and reaches [int] at line 159. *)
Lemma sizer_nan_atr (p : Params) (account_value close : Float) :
  le_zero close = false ->
  Sizer.calculate_risk_size p account_value close NaN = Raise ValueError.
Proof.
  intros Hc. unfold Sizer.calculate_risk_size.
  cbn [le_zero orb]. rewrite Hc.
  assert (E : fmul NaN (Num (atr_stop_mult p)) = NaN) by reflexivity.
  rewrite E. cbn [le_zero fdiv Res_bind float_int]. reflexivity.
Qed.

(** A NaN close passes its guard and reaches [int] at line 162. *)
Lemma sizer_nan_close (p : Params) (account_value atr : Q) :
  0 < atr -> 0 < atr_stop_mult p ->
  Sizer.calculate_risk_size p (Num account_value) NaN (Num atr)
  = Raise ValueError.
Proof.
  intros Ha Hm. unfold Sizer.calculate_risk_size. cbn [le_zero fmul].
  assert (Hpsr : 0 < atr * atr_stop_mult p) by nra.
  assert (G1 : (atr <=? 0) = false) by (apply Qle_bool_false_iff; exact Ha).
  assert (G2 : (atr * atr_stop_mult p <=? 0) = false)
    by (apply Qle_bool_false_iff; exact Hpsr).
  assert (N : Qeq_bool (atr * atr_stop_mult p) 0 = false)
    by (apply Qeq_bool_false_iff; lra).
  rewrite G1, G2. cbn [orb fdiv]. rewrite N.
  cbn [Res_bind float_int fdiv]. reflexivity.
Qed.

Lemma calculate_risk_size_bad_indicator (p : Params) (b : Bar) :
  atr b <= 0 \/ close b <= 0 -> calculate_risk_size p b = Ok 0%Z.
Proof.
  intros H. apply sizer_guard. cbn [le_zero].
  destruct H as [H | H]; apply Qle_bool_iff in H; auto.
Qed.

Lemma calculate_risk_size_bad_equity (p : Params) (b : Bar) :
  0 <= risk_pct p \/ 0 <= max_pos_size p ->
  broker_value b <= 0 -> calculate_risk_size p b = Ok 0%Z.
Proof.
  intros Hcfg Hv. rewrite calculate_risk_size_numeric. cbv zeta.
  destruct ((atr b <=? 0) || (close b <=? 0)) eqn:E; [reflexivity | ].
  apply orb_false_iff in E. destruct E as [Ea Ec].
  apply Qle_bool_false_iff in Ea. apply Qle_bool_false_iff in Ec.
  destruct (atr b * atr_stop_mult p <=? 0) eqn:Epsr; [reflexivity | ].
  apply Qle_bool_false_iff in Epsr. unfold py_div.
  assert (N1 : Qeq_bool (atr b * atr_stop_mult p) 0 = false)
    by (apply Qeq_bool_false_iff; lra).
  assert (N2 : Qeq_bool (close b) 0 = false)
    by (apply Qeq_bool_false_iff; lra).
  rewrite N1, N2. cbn [Res_bind]. f_equal.
  set (t := py_int (broker_value b * risk_pct p / (atr b * atr_stop_mult p))).
  set (m := py_int (broker_value b * max_pos_size p / close b)).
  assert (Hor : (t <= 0 \/ m <= 0)%Z).
  { destruct Hcfg as [Hr | Hm].
    - left. apply py_int_nonpos. apply Qdiv_nonpos_pos; [nra | exact Epsr].
    - right. apply py_int_nonpos. apply Qdiv_nonpos_pos; [nra | exact Ec]. }
  destruct (Z.ltb_spec m 0);
    [ destruct (Z.ltb_spec (Z.min t 0) 0)
    | destruct (Z.ltb_spec (Z.min t m) 0) ]; lia.
Qed.

(** C8.  Where the claim holds and where the code breaks it.

    It holds when a guard fires or the reads are numbers: with ATR <= 0 or
    price <= 0 the sizer returns 0 whatever the other reads are; on numeric
    reads with equity <= 0 (risk fraction or exposure cap not negative) it
    returns 0 as well; and then [next] on a flat position returns normally,
    submits nothing and changes nothing.  Scenario 4 (ATR exactly 0, valid
    price and equity, buy signal present) is an instance.

    It fails on NaN, which no [<= 0] test catches: with a NaN ATR and a
    price past its guard the sizer raises [ValueError] for every equity,
    non-positive ones included, and so it does with a NaN price on numeric
    equity and a positive ATR.  At equity 0, price 50 and a NaN ATR the
    sizer raises instead of returning 0. *)
Theorem invalid_input_sizing :
  (forall (p : Params) (account_value close atr : Float),
      le_zero atr = true \/ le_zero close = true ->
      Sizer.calculate_risk_size p account_value close atr = Ok 0%Z)
  /\
  (forall (p : Params) (b : Bar),
      atr b <= 0 \/ close b <= 0
      \/ (broker_value b <= 0 /\ (0 <= risk_pct p \/ 0 <= max_pos_size p)) ->
      calculate_risk_size p b = Ok 0%Z
      /\ (position_size b = 0%Z ->
          forall st : St, next p b st = (Ok tt, st)))
  /\ (let b := mkBar 100 50 49 1000 1 45 0 60 1000 30 100000 0 in
      buy_signal default_params b = true
      /\ calculate_risk_size default_params b = Ok 0%Z
      /\ forall st : St, next default_params b st = (Ok tt, st))
  /\
  (forall (p : Params) (account_value close : Float),
      le_zero close = false ->
      Sizer.calculate_risk_size p account_value close NaN = Raise ValueError)
  /\
  (forall (p : Params) (account_value atr : Q),
      0 < atr -> 0 < atr_stop_mult p ->
      Sizer.calculate_risk_size p (Num account_value) NaN (Num atr)
      = Raise ValueError)
  /\ Sizer.calculate_risk_size default_params (Num 0) (Num 50) NaN
     = Raise ValueError.
Proof.
  assert (G : forall (p : Params) (b : Bar),
             calculate_risk_size p b = Ok 0%Z ->
             position_size b = 0%Z ->
             forall st : St, next p b st = (Ok tt, st)).
  { intros p b Hz Hpos st. unfold next.
    destruct (len_data b <? Z.max (trend_period p) (slow_period p) + 2)%Z;
      [reflexivity | ].
    rewrite Hpos. cbn [Z.eqb].
    destruct (buy_signal p b); [ | reflexivity ].
    unfold entry. rewrite Hz, bind_lift_ok. reflexivity. }
  split; [exact sizer_guard | ]. split; [ | split; [ | split; [ | split]]].
  - intros p b H.
    assert (Hz : calculate_risk_size p b = Ok 0%Z).
    { destruct H as [H | [H | [Hv Hcfg]]].
      - apply calculate_risk_size_bad_indicator. now left.
      - apply calculate_risk_size_bad_indicator. now right.
      - now apply calculate_risk_size_bad_equity. }
    split; [exact Hz | now apply G].
  - cbv zeta. split; [reflexivity | ]. split; [reflexivity | ].
    intros st. apply G; reflexivity.
  - exact sizer_nan_atr.
  - exact sizer_nan_close.
  - apply sizer_nan_atr. reflexivity.
Qed.

Lemma invalid_input_sizing_witness :
  Sizer.calculate_risk_size default_params (Num (-5)) (Num 50) NaN
  = Raise ValueError
  /\ calculate_risk_size default_params
       (mkBar 100 50 49 1000 1 45 2 60 1000 30 (-5) 0) = Ok 0%Z
  /\ next default_params (mkBar 100 50 49 1000 1 45 2 60 1000 30 (-5) 0)
          (init, mkWorld 1 [] [] [])
     = (Ok tt, (init, mkWorld 1 [] [] [])).
Proof.
  split.
  - apply (proj1 (proj2 (proj2 (proj2 invalid_input_sizing)))).
    reflexivity.
  - destruct (proj1 (proj2 invalid_input_sizing) default_params
                (mkBar 100 50 49 1000 1 45 2 60 1000 30 (-5) 0)) as [H1 H2].
    + right. right. split.
      * vm_compute. discriminate.
      * left. vm_compute. discriminate.
    + split; [exact H1 | apply H2; reflexivity].
Defined.

(** ** C9: the trade tally *)

Lemma profit_pct_sign (px en : Q) :
  0 < en -> ((0 <? (px - en) / en * 100) = true <-> en < px).
Proof.
  intros Hen. rewrite Qlt_bool_iff.
  assert (E : (px - en) / en * 100 == (px - en) * (100 / en))
    by (field; lra).
  rewrite E.
  assert (Hk : 0 < 100 / en) by (apply Qlt_shift_div_l; lra).
  split; intros H; nra.
Qed.

(** C9 (as amended).  In the double-moving-average strategy a completed
    sell is tallied only when the handler sees a flat position: then the
    trade counter goes up by one, and the win counter goes up exactly when
    the fill price exceeds the recorded entry price; a sell that leaves a
    position open changes neither counter.  In the trend strategy, with a
    positive entry price, every completed sell raises the trade counter by
    one and the win counter exactly when the fill price exceeds the entry
    price. *)
Theorem ledger_tally :
  (forall (p : Params) (n : Notification) (s : Strategy) (w : World),
      status n = Completed -> ordtype (order n) = Sell ->
      let s' := fst (snd (notify_order p n (s, w))) in
      (position_seen n = 0%Z ->
       trade_count s' = (trade_count s + 1)%Z
       /\ (entry_price s < executed_price n ->
           win_count s' = (win_count s + 1)%Z)
       /\ (executed_price n <= entry_price s -> win_count s' = win_count s))
      /\ (position_seen n <> 0%Z ->
          trade_count s' = trade_count s /\ win_count s' = win_count s))
  /\
  (forall (len : Z) (n : Notification) (s : Trend.Strategy),
      status n = Completed -> ordtype (order n) = Sell ->
      0 < Trend.entry_price s ->
      let out := Trend.notify_order len n s in
      fst out = Ok tt
      /\ Trend.trade_count (snd out) = (Trend.trade_count s + 1)%Z
      /\ (Trend.entry_price s < executed_price n ->
          Trend.win_count (snd out) = (Trend.win_count s + 1)%Z)
      /\ (executed_price n <= Trend.entry_price s ->
          Trend.win_count (snd out) = Trend.win_count s)).
Proof.
  split.
  - intros p n s w Hst Hsell. cbv zeta. unfold notify_order.
    rewrite Hst, Hsell. cbn [terminal]. unfold_m.
    destruct (printlog p); unfold_m; (split; [intros Hflat | intros Hopen]).
    1, 3: rewrite Hflat; cbn [Z.eqb]; unfold_m;
      destruct (entry_price s <? executed_price n) eqn:Hwin; unfold_m;
      [ apply Qlt_bool_iff in Hwin | apply Qlt_bool_false_iff in Hwin ];
      repeat case_if;
      cbn [trade_count win_count set_trade_count set_win_count
           set_stop_order];
      (split; [reflexivity | split]);
      intros Hcmp; first [reflexivity | exfalso; lra].
    all: apply Z.eqb_neq in Hopen; rewrite Hopen; unfold_m;
      repeat case_if; cbn [trade_count win_count set_stop_order];
      split; reflexivity.
  - intros len n s Hst Hsell Hen. cbv zeta. unfold Trend.notify_order.
    rewrite Hst. unfold Trend.notified. rewrite Hsell. unfold py_div.
    assert (N : Qeq_bool (Trend.entry_price s) 0 = false)
      by (apply Qeq_bool_false_iff; lra).
    rewrite N. cbn [fst snd Trend.trade_count Trend.win_count].
    split; [reflexivity | ]. split; [reflexivity | ].
    pose proof (profit_pct_sign (executed_price n) (Trend.entry_price s) Hen)
      as Hsign.
    destruct (0 <? (executed_price n - Trend.entry_price s)
                   / Trend.entry_price s * 100) eqn:Hp.
    + split; [reflexivity | ].
      intros Hle. assert (Trend.entry_price s < executed_price n)
        by (now apply Hsign). lra.
    + split; [ | reflexivity].
      intros Hlt. apply Hsign in Hlt. discriminate.
Qed.

Lemma ledger_tally_witness :
  let full_close :=
    mkNotification (mkOrder 6 Sell 150 Stop (Some 95)) Completed 95 (-150) 0 in
  let s' := fst (snd (notify_order default_params full_close
                                   (holding_state, world0))) in
  trade_count s' = (trade_count holding_state + 1)%Z
  /\ win_count s' = win_count holding_state.
Proof.
  cbv zeta.
  destruct (proj1 ledger_tally default_params
              (mkNotification (mkOrder 6 Sell 150 Stop (Some 95))
                              Completed 95 (-150) 0)
              holding_state world0 eq_refl eq_refl) as [Hflat _].
  destruct (Hflat eq_refl) as (Ht & _ & Hw).
  split; [exact Ht | apply Hw].
  vm_compute. discriminate.
Defined.

(** C9 as stated fails: the fill that sells 850 of 1000 units at 110,
    above the entry price of 100, leaves 150 units, and neither counter
    moves. *)
Lemma partial_close_not_tallied :
  let s' := fst (snd (notify_order default_params partial_close
                                   (holding_state, world0))) in
  entry_price holding_state < executed_price partial_close
  /\ trade_count s' = trade_count holding_state
  /\ win_count s' = win_count holding_state.
Proof. cbv zeta. repeat split. Qed.

(** ** C10: trailing with an empty stop-order reference *)

Lemma trailing_stop_without_reference (p : Params) (b : Bar) (s : Strategy)
      (w : World) :
  stop_order s = None -> trailing_stop p b (s, w) = (Ok tt, (s, w)).
Proof.
  intros Hnone. unfold trailing_stop.
  destruct (truthy (close b - atr b * atr_stop_mult p)); [ | reflexivity].
  unfold_m. rewrite Hnone. repeat case_if; reflexivity.
Qed.

(** C10.  With no stop order referenced, the trailing stage returns with
    the strategy and the world (request log included) exactly as they were;
    and if a call of [next] in a position ends with a stop order referenced,
    then either break-even promoted in that call (the flag went from unset
    to set) or the bar carried the exit signal. *)
Theorem trailing_needs_stop_reference :
  (forall (p : Params) (b : Bar) (s : Strategy) (w : World),
      stop_order s = None -> trailing_stop p b (s, w) = (Ok tt, (s, w)))
  /\
  (forall (p : Params) (b : Bar) (s : Strategy) (w : World),
      stop_order s = None -> position_size b <> 0%Z ->
      let s' := fst (snd (next p b (s, w))) in
      stop_order s' <> None ->
      (break_even_active s = false /\ break_even_active s' = true)
      \/ sell_signal b = true).
Proof.
  split; [exact trailing_stop_without_reference | ].
  intros p b s w Hnone Hpos. cbv zeta.
  destruct (len_data b <? Z.max (trend_period p) (slow_period p) + 2)%Z eqn:Hlen.
  - unfold next. rewrite Hlen. cbn. congruence.
  - rewrite next_in_position by assumption.
    destruct (sell_signal b) eqn:Hsig; [intros _; now right | ].
    pose proof (break_even_ratchet p b s w) as HA. cbv zeta in HA.
    destruct (snd (break_even p b (s, w))) as [s1 w1]. cbn [fst] in HA.
    destruct HA as [-> | (Hoff & Hon & _)].
    + rewrite trailing_stop_without_reference by exact Hnone.
      cbn. congruence.
    + intros _. left. split; [exact Hoff | ].
      pose proof (trailing_stop_ratchet p b s1 w1) as HB. cbv zeta in HB.
      destruct HB as [_ HB]. cbn. now rewrite HB.
Qed.

Lemma trailing_needs_stop_reference_witness :
  let s := mkStrategy None 102 100 94 false 0 0 in
  trailing_stop default_params (holding_bar 110 109 0.5 0 333) (s, world0)
  = (Ok tt, (s, world0))
  /\ ((break_even_active s = false
       /\ break_even_active
            (fst (snd (next default_params (holding_bar 110 109 0.5 0 333)
                            (s, world0)))) = true)
      \/ sell_signal (holding_bar 110 109 0.5 0 333) = true).
Proof.
  cbv zeta. split.
  - apply (proj1 trailing_needs_stop_reference). reflexivity.
  - apply (proj2 trailing_needs_stop_reference default_params
                 (holding_bar 110 109 0.5 0 333)
                 (mkStrategy None 102 100 94 false 0 0) world0).
    + reflexivity.
    + discriminate.
    + vm_compute. discriminate.
Defined.

(** * Further properties of ProfessionalDoubleMAStrategy *)

(** ** The sizer: budgets on numbers, exceptions on floats *)

Lemma py_int_positive (x : Q) : (0 < py_int x)%Z -> inject_Z (py_int x) <= x.
Proof.
  intros Hpos. destruct (Qlt_le_dec x 0) as [Hneg | Hge].
  - pose proof (py_int_neg _ Hneg). lia.
  - rewrite py_int_nonneg by exact Hge. apply Qfloor_le.
Qed.

Lemma sizer_numeric_within_budgets (p : Params) (b : Bar) :
  exists n : Z,
    calculate_risk_size p b = Ok n /\ (0 <= n)%Z
    /\ ((0 < n)%Z ->
        0 < atr b /\ 0 < close b
        /\ inject_Z n * close b <= broker_value b * max_pos_size p
        /\ inject_Z n * (atr b * atr_stop_mult p)
           <= broker_value b * risk_pct p).
Proof.
  rewrite calculate_risk_size_numeric. cbv zeta.
  destruct ((atr b <=? 0) || (close b <=? 0)) eqn:E;
    [exists 0%Z; split; [reflexivity | split; lia] | ].
  apply orb_false_iff in E. destruct E as [Ea Ec].
  apply Qle_bool_false_iff in Ea. apply Qle_bool_false_iff in Ec.
  destruct (atr b * atr_stop_mult p <=? 0) eqn:Epsr;
    [exists 0%Z; split; [reflexivity | split; lia] | ].
  apply Qle_bool_false_iff in Epsr. unfold py_div.
  assert (N1 : Qeq_bool (atr b * atr_stop_mult p) 0 = false)
    by (apply Qeq_bool_false_iff; lra).
  assert (N2 : Qeq_bool (close b) 0 = false)
    by (apply Qeq_bool_false_iff; lra).
  rewrite N1, N2. cbn [Res_bind].
  set (q1 := broker_value b * risk_pct p / (atr b * atr_stop_mult p)).
  set (q2 := broker_value b * max_pos_size p / close b).
  eexists. split; [reflexivity | ].
  destruct (Z.ltb_spec (py_int q2) 0) as [Hm | Hm];
    [ destruct (Z.ltb_spec (Z.min (py_int q1) 0) 0)
    | destruct (Z.ltb_spec (Z.min (py_int q1) (py_int q2)) 0) ];
    (split; [lia | ]); intros Hpos; try lia.
  assert (H1 : (0 < py_int q1)%Z) by lia.
  assert (H2 : (0 < py_int q2)%Z) by lia.
  apply py_int_positive in H1. apply py_int_positive in H2.
  assert (Hn1 : inject_Z (Z.min (py_int q1) (py_int q2)) <= q1).
  { eapply Qle_trans; [ | exact H1]. rewrite <- Zle_Qle. lia. }
  assert (Hn2 : inject_Z (Z.min (py_int q1) (py_int q2)) <= q2).
  { eapply Qle_trans; [ | exact H2]. rewrite <- Zle_Qle. lia. }
  split; [exact Ea | ]. split; [exact Ec | ]. split.
  - apply (Qmult_le_compat_r _ _ (close b)) in Hn2; [ | lra].
    eapply Qle_trans; [exact Hn2 | ]. unfold q2.
    assert (E : broker_value b * max_pos_size p / close b * close b
                == broker_value b * max_pos_size p) by (field; lra).
    rewrite E. apply Qle_refl.
  - apply (Qmult_le_compat_r _ _ (atr b * atr_stop_mult p)) in Hn1; [ | lra].
    eapply Qle_trans; [exact Hn1 | ]. unfold q1.
    assert (E : broker_value b * risk_pct p / (atr b * atr_stop_mult p)
                * (atr b * atr_stop_mult p)
                == broker_value b * risk_pct p)
      by (assert (0 < atr_stop_mult p) by nra; field; split; lra).
    rewrite E. apply Qle_refl.
Qed.

(** Past a [<= 0] test the divisor is not zero, so the division returns. *)
Lemma fdiv_returns (x y : Float) :
  le_zero y = false -> exists r : Float, fdiv x y = Ok r.
Proof.
  destruct y as [d | | | ]; cbn [le_zero fdiv]; intros H;
    try discriminate; try (eexists; reflexivity).
  apply Qle_bool_false_iff in H.
  assert (N : Qeq_bool d 0 = false) by (apply Qeq_bool_false_iff; lra).
  rewrite N. eexists. reflexivity.
Qed.

Lemma float_int_cases (x : Float) :
  (exists n : Z, float_int x = Ok n)
  \/ float_int x = Raise ValueError \/ float_int x = Raise OverflowError.
Proof. destruct x; cbn [float_int]; eauto. Qed.

Lemma sizer_outcomes (p : Params) (account_value close atr : Float) :
  (exists n : Z,
      Sizer.calculate_risk_size p account_value close atr = Ok n
      /\ (0 <= n)%Z)
  \/ Sizer.calculate_risk_size p account_value close atr = Raise ValueError
  \/ Sizer.calculate_risk_size p account_value close atr
     = Raise OverflowError.
Proof.
  unfold Sizer.calculate_risk_size.
  destruct (le_zero atr || le_zero close) eqn:G;
    [left; exists 0%Z; split; [reflexivity | lia] | ].
  apply orb_false_iff in G. destruct G as [_ Gc].
  destruct (le_zero (fmul atr (Num (atr_stop_mult p)))) eqn:Gp;
    [left; exists 0%Z; split; [reflexivity | lia] | ].
  destruct (fdiv_returns (fmul account_value (Num (risk_pct p))) _ Gp)
    as [q1 ->].
  destruct (fdiv_returns (fmul account_value (Num (max_pos_size p))) _ Gc)
    as [q2 ->].
  cbn [Res_bind].
  destruct (float_int_cases q1) as [[t ->] | [-> | ->]]; cbn [Res_bind];
    [ | now right; left | now right; right].
  destruct (float_int_cases q2) as [[m ->] | [-> | ->]]; cbn [Res_bind];
    [ | now right; left | now right; right].
  left. eexists. split; [reflexivity | ].
  destruct (Z.ltb_spec m 0);
    [ destruct (Z.ltb_spec (Z.min t 0) 0)
    | destruct (Z.ltb_spec (Z.min t m) 0) ]; lia.
Qed.

(** X1.  On numeric reads the sizer returns a size without raising, the
    size is never negative, and a positive size n keeps within both
    budgets: n * close <= equity * max_pos_size and
    n * (atr * atr_stop_mult) <= equity * risk_pct.  On any floats, NaN and
    the infinities included, it never divides by zero: it returns a size
    that is not negative, or one of its two [int] calls raises
    [ValueError] or [OverflowError]. *)
Theorem calculate_risk_size_within_budgets :
  (forall (p : Params) (account_value close atr : Q),
      exists n : Z,
        Sizer.calculate_risk_size p (Num account_value) (Num close) (Num atr)
        = Ok n
        /\ (0 <= n)%Z
        /\ ((0 < n)%Z ->
            0 < atr /\ 0 < close
            /\ inject_Z n * close <= account_value * max_pos_size p
            /\ inject_Z n * (atr * atr_stop_mult p)
               <= account_value * risk_pct p))
  /\
  (forall (p : Params) (account_value close atr : Float),
      (exists n : Z,
          Sizer.calculate_risk_size p account_value close atr = Ok n
          /\ (0 <= n)%Z)
      \/ Sizer.calculate_risk_size p account_value close atr
         = Raise ValueError
      \/ Sizer.calculate_risk_size p account_value close atr
         = Raise OverflowError).
Proof.
  split; [ | exact sizer_outcomes].
  intros p account_value close atr.
  exact (sizer_numeric_within_budgets p
           (mkBar 0 close 0 0 0 0 atr 0 0 0 account_value 0)).
Qed.

Lemma calculate_risk_size_within_budgets_witness :
  Sizer.calculate_risk_size default_params (Num 100000) (Num 50) (Num 2)
  = Ok 500%Z
  /\ inject_Z 500 * 50 <= 100000 * max_pos_size default_params
  /\ inject_Z 500 * (2 * atr_stop_mult default_params)
     <= 100000 * risk_pct default_params.
Proof.
  destruct (proj1 calculate_risk_size_within_budgets default_params
              100000 50 2) as (n & Hn & _ & Hb).
  assert (E : n = 500%Z) by (vm_compute in Hn; congruence).
  subst n. destruct (Hb ltac:(lia)) as (_ & _ & H1 & H2).
  split; [exact Hn | now split].
Defined.

(** ** What the handlers leave alone *)

Ltac fields :=
  cbn [stop_order last_stop_price entry_price initial_stop break_even_active
       trade_count win_count set_stop_order set_last_stop_price
       set_entry_price set_initial_stop set_break_even_active
       set_trade_count set_win_count] in *.

Lemma break_even_ledger (p : Params) (b : Bar) (s : Strategy) (w : World) :
  same_ledger s (fst (snd (break_even p b (s, w)))).
Proof.
  unfold same_ledger, break_even. cases_m; fields; repeat split.
Qed.

Lemma trailing_stop_ledger (p : Params) (b : Bar) (s : Strategy) (w : World) :
  same_ledger s (fst (snd (trailing_stop p b (s, w)))).
Proof.
  unfold same_ledger, trailing_stop. cases_m; fields; repeat split.
Qed.

Lemma partial_exit_ledger (p : Params) (b : Bar) (s : Strategy) (w : World) :
  same_ledger s (fst (snd (partial_exit p b (s, w)))).
Proof.
  unfold same_ledger, partial_exit. cases_m; fields; repeat split.
Qed.

Lemma entry_ledger (p : Params) (b : Bar) (s : Strategy) (w : World) :
  same_ledger s (fst (snd (entry p b (s, w)))).
Proof.
  unfold same_ledger, entry.
  destruct (calculate_risk_size p b) as [n | e]; cases_m; fields;
    repeat split.
Qed.

Lemma same_ledger_trans (s1 s2 s3 : Strategy) :
  same_ledger s1 s2 -> same_ledger s2 s3 -> same_ledger s1 s3.
Proof. unfold same_ledger. intuition congruence. Qed.

Lemma next_ledger (p : Params) (b : Bar) (s : Strategy) (w : World) :
  same_ledger s (fst (snd (next p b (s, w)))).
Proof.
  destruct (len_data b <? Z.max (trend_period p) (slow_period p) + 2)%Z eqn:Hlen.
  - unfold next. rewrite Hlen. cbn. repeat split.
  - destruct (position_size b =? 0)%Z eqn:Hpos.
    + unfold next. rewrite Hlen, Hpos.
      destruct (buy_signal p b); [apply entry_ledger | cbn; repeat split].
    + apply Z.eqb_neq in Hpos. rewrite next_in_position by assumption.
      pose proof (break_even_ledger p b s w) as HA.
      destruct (snd (break_even p b (s, w))) as [s1 w1]. cbn [fst] in HA.
      pose proof (trailing_stop_ledger p b s1 w1) as HB.
      destruct (snd (trailing_stop p b (s1, w1))) as [s2 w2]. cbn [fst] in HB.
      eapply same_ledger_trans; [exact HA | ].
      eapply same_ledger_trans; [exact HB | ].
      destruct (sell_signal b); [apply partial_exit_ledger | ].
      cbn. repeat split.
Qed.

Lemma notify_order_stops (p : Params) (n : Notification) (s : Strategy)
      (w : World) :
  let s' := fst (snd (notify_order p n (s, w))) in
  last_stop_price s' = last_stop_price s
  /\ initial_stop s' = initial_stop s
  /\ break_even_active s' = break_even_active s
  /\ (stop_order s' = stop_order s \/ stop_order s' = None).
Proof.
  cbv zeta. unfold notify_order.
  destruct (status n); cbn [terminal]; cases_m; fields; auto;
    destruct (ordtype (order n)); cases_m; fields; auto.
Qed.

(** X2.  [next] writes neither [entry_price] nor the two counters, whether
    it returns or raises; [notify_order] writes neither [last_stop_price],
    [initial_stop] nor the promotion flag, and can only keep or clear the
    stop-order reference. *)
Theorem handlers_write_disjoint_attributes :
  (forall (p : Params) (b : Bar) (s : Strategy) (w : World),
      let s' := fst (snd (next p b (s, w))) in
      entry_price s' = entry_price s
      /\ trade_count s' = trade_count s
      /\ win_count s' = win_count s)
  /\
  (forall (p : Params) (n : Notification) (s : Strategy) (w : World),
      let s' := fst (snd (notify_order p n (s, w))) in
      last_stop_price s' = last_stop_price s
      /\ initial_stop s' = initial_stop s
      /\ break_even_active s' = break_even_active s
      /\ (stop_order s' = stop_order s \/ stop_order s' = None)).
Proof.
  split.
  - intros p b s w. exact (next_ledger p b s w).
  - exact notify_order_stops.
Qed.

(** ** When [next] raises *)




(** ** The tally along a run *)

Lemma notify_order_tally (p : Params) (n : Notification) (s : Strategy)
      (w : World) :
  let s' := fst (snd (notify_order p n (s, w))) in
  (win_count s <= win_count s' <= win_count s + 1)%Z
  /\ (trade_count s <= trade_count s' <= trade_count s + 1)%Z
  /\ (win_count s' - win_count s <= trade_count s' - trade_count s)%Z.
Proof.
  cbv zeta. unfold notify_order.
  destruct (status n); cbn [terminal]; cases_m; fields; try lia;
    destruct (ordtype (order n)); cases_m; fields; lia.
Qed.

Lemma handle_tally (p : Params) (e : Event) (st : St) :
  let s := fst st in
  let s' := fst (snd (handle p e st)) in
  (win_count s <= win_count s')%Z
  /\ (trade_count s <= trade_count s')%Z
  /\ (win_count s' - win_count s <= trade_count s' - trade_count s)%Z.
Proof.
  destruct st as [s w]. cbv zeta. cbn [fst]. destruct e as [b | n]; cbn [handle].
  - destruct (next_ledger p b s w) as (_ & Ht & Hw). rewrite Ht, Hw. lia.
  - pose proof (notify_order_tally p n s w) as H. cbv zeta in H. lia.
Qed.

(** X4.  Along every run of bars and order notifications, whether or not it
    ends in an exception, neither counter ever decreases, the win counter
    grows by no more than the trade counter does, and so a consistent tally
    (0 <= wins <= trades) stays consistent. *)
Theorem tally_consistent_along_runs (p : Params) (evs : list Event) (st : St) :
  let s := fst st in
  let s' := fst (snd (run p evs st)) in
  (win_count s <= win_count s')%Z
  /\ (trade_count s <= trade_count s')%Z
  /\ (win_count s' - win_count s <= trade_count s' - trade_count s)%Z
  /\ (tally_ok s -> tally_ok s').
Proof.
  cbv zeta. unfold tally_ok. revert st.
  induction evs as [ | e evs IH]; intros st.
  - cbn. lia.
  - cbn [run]. unfold bind.
    pose proof (handle_tally p e st) as He. cbv zeta in He.
    destruct (handle p e st) as [[[] | x] st1]; cbn [fst snd] in *.
    + specialize (IH st1). lia.
    + lia.
Qed.

Lemma tally_consistent_along_runs_witness :
  let s' := fst (snd (run default_params round_trips (init, world0))) in
  trade_count s' = 2%Z /\ win_count s' = 1%Z /\ tally_ok s'.
Proof.
  cbv zeta. split; [reflexivity | ]. split; [reflexivity | ].
  apply (tally_consistent_along_runs default_params round_trips
                                     (init, world0)).
  unfold tally_ok. cbn. lia.
Defined.

(** ** One promotion per position *)

Lemma break_even_once (p : Params) (b : Bar) (s : Strategy) (w : World) :
  break_even_active s = true -> break_even p b (s, w) = (Ok tt, (s, w)).
Proof.
  intros Hon. unfold break_even. unfold_m. rewrite Hon. reflexivity.
Qed.

Lemma next_keeps_promotion (p : Params) (b : Bar) (s : Strategy) (w : World) :
  position_size b <> 0%Z -> break_even_active s = true ->
  break_even_active (fst (snd (next p b (s, w)))) = true.
Proof.
  intros Hpos Hon.
  destruct (len_data b <? Z.max (trend_period p) (slow_period p) + 2)%Z eqn:Hlen.
  - unfold next. rewrite Hlen. exact Hon.
  - rewrite next_in_position by assumption.
    rewrite break_even_once by exact Hon. cbn [snd].
    pose proof (trailing_stop_ratchet p b s w) as HB. cbv zeta in HB.
    destruct (snd (trailing_stop p b (s, w))) as [s2 w2]. cbn [fst] in HB.
    destruct HB as [_ HB].
    destruct (sell_signal b).
    + pose proof (partial_exit_ratchet p b s2 w2) as HC. cbv zeta in HC.
      destruct HC as [_ HC]. congruence.
    + cbn. congruence.
Qed.

(** X5.  Once the promotion flag is set, the break-even stage does nothing
    at all, and the flag stays set along every run whose bars all see an
    open position: a position is promoted at most once. *)
Theorem promotion_is_one_shot :
  (forall (p : Params) (b : Bar) (s : Strategy) (w : World),
      break_even_active s = true -> break_even p b (s, w) = (Ok tt, (s, w)))
  /\
  (forall (p : Params) (evs : list Event) (st : St),
      in_position evs = true -> break_even_active (fst st) = true ->
      break_even_active (fst (snd (run p evs st))) = true).
Proof.
  split; [exact break_even_once | ].
  intros p evs. induction evs as [ | e evs IH]; intros st Hin Hon.
  - exact Hon.
  - cbn [run]. unfold bind.
    assert (Hstep : break_even_active (fst (snd (handle p e st))) = true
                    /\ in_position evs = true).
    { destruct st as [s w]. destruct e as [b | n]; cbn [in_position handle] in *.
      - apply andb_prop in Hin. destruct Hin as [Hpos Hin].
        apply negb_true_iff in Hpos. apply Z.eqb_neq in Hpos.
        split; [now apply next_keeps_promotion | exact Hin].
      - split; [ | exact Hin].
        destruct (notify_order_stops p n s w) as (_ & _ & Hb & _).
        cbn [fst] in Hon. congruence. }
    destruct Hstep as [Hon1 Hin1].
    destruct (handle p e st) as [[[] | x] st1]; cbn [fst snd] in *.
    + now apply IH.
    + exact Hon1.
Qed.

Lemma promotion_is_one_shot_witness :
  let st := (mkStrategy None 100.1 100 94 true 0 0, world0) in
  break_even_active
    (fst (snd (run default_params
                   [OnBar (holding_bar 104 103 2 0 333);
                    OnBar (holding_bar 120 119 2 (-1) 333)] st))) = true.
Proof.
  cbv zeta. apply (proj2 promotion_is_one_shot); reflexivity.
Defined.

(** ** The stop reference mirrors [last_stop_price] *)

Ltac close_mirror Hm :=
  fields;
  repeat match goal with
         | H : Some _ = Some _ |- _ => injection H as H; subst
         | H : None = Some _ |- _ => discriminate H
         | H : Some _ = None |- _ => discriminate H
         | H1 : stop_order ?s = Some ?a, H2 : stop_order ?s = Some ?b |- _ =>
             rewrite H1 in H2
         | H1 : stop_order ?s = Some _, H2 : stop_order ?s = None |- _ =>
             rewrite H1 in H2
         | H1 : stop_order ?s = None, H2 : stop_order ?s = Some _ |- _ =>
             rewrite H1 in H2
         end;
  cbn [ordtype exectype price];
  first [ exact I | exact Hm | repeat split ].

Lemma break_even_mirrored (p : Params) (b : Bar) (s : Strategy) (w : World) :
  mirrored s -> mirrored (fst (snd (break_even p b (s, w)))).
Proof.
  unfold mirrored, break_even. intros Hm. cases_m; close_mirror Hm.
Qed.

Lemma trailing_stop_mirrored (p : Params) (b : Bar) (s : Strategy) (w : World) :
  mirrored s -> mirrored (fst (snd (trailing_stop p b (s, w)))).
Proof.
  unfold mirrored, trailing_stop. intros Hm. cases_m; close_mirror Hm.
Qed.

Lemma partial_exit_mirrored (p : Params) (b : Bar) (s : Strategy) (w : World) :
  mirrored s -> mirrored (fst (snd (partial_exit p b (s, w)))).
Proof.
  unfold mirrored, partial_exit. intros Hm. cases_m; close_mirror Hm.
Qed.

Lemma entry_mirrored (p : Params) (b : Bar) (s : Strategy) (w : World) :
  mirrored s -> mirrored (fst (snd (entry p b (s, w)))).
Proof.
  unfold mirrored, entry. intros Hm.
  destruct (calculate_risk_size p b) as [n | e]; cases_m; close_mirror Hm.
Qed.

Lemma handle_mirrored (p : Params) (e : Event) (st : St) :
  mirrored (fst st) -> mirrored (fst (snd (handle p e st))).
Proof.
  destruct st as [s w]. cbn [fst]. intros Hm.
  destruct e as [b | n]; cbn [handle].
  - destruct (len_data b <? Z.max (trend_period p) (slow_period p) + 2)%Z
      eqn:Hlen.
    + unfold next. rewrite Hlen. exact Hm.
    + destruct (position_size b =? 0)%Z eqn:Hpos.
      * unfold next. rewrite Hlen, Hpos.
        destruct (buy_signal p b); [now apply entry_mirrored | exact Hm].
      * apply Z.eqb_neq in Hpos. rewrite next_in_position by assumption.
        pose proof (break_even_mirrored p b s w Hm) as HA.
        destruct (snd (break_even p b (s, w))) as [s1 w1]. cbn [fst] in HA.
        pose proof (trailing_stop_mirrored p b s1 w1 HA) as HB.
        destruct (snd (trailing_stop p b (s1, w1))) as [s2 w2].
        cbn [fst] in HB.
        destruct (sell_signal b); [now apply partial_exit_mirrored | exact HB].
  - destruct (notify_order_stops p n s w) as (Hl & _ & _ & [Hs | Hs]);
      unfold mirrored in *; rewrite Hs; [ | exact I].
    destruct (stop_order s); [ | exact I]. now rewrite Hl.
Qed.

(** X6.  Along every run, a referenced stop order is a stop sell whose
    trigger price is exactly [last_stop_price]: the price the controller
    compares against is the price of the order it holds.  It holds from the
    initial state on. *)
Theorem stop_reference_mirrors_last_stop_price :
  mirrored init
  /\ forall (p : Params) (evs : list Event) (st : St),
       mirrored (fst st) -> mirrored (fst (snd (run p evs st))).
Proof.
  split; [exact I | ].
  intros p evs. induction evs as [ | e evs IH]; intros st Hm.
  - exact Hm.
  - cbn [run]. unfold bind.
    pose proof (handle_mirrored p e st Hm) as H1.
    destruct (handle p e st) as [[[] | x] st1]; cbn [fst snd] in *.
    + now apply IH.
    + exact H1.
Qed.

Lemma stop_reference_mirrors_last_stop_price_witness :
  mirrored (fst (snd (run default_params ratchet_run (init, world0)))).
Proof.
  apply (proj2 stop_reference_mirrors_last_stop_price). exact I.
Defined.

(** ** What a long position may request *)

Ltac new_requests :=
  eexists; split;
  [ rewrite <- ?app_assoc; cbn [app];
    first [reflexivity | symmetry; apply app_nil_r]
  | repeat constructor; cbn [reduces]; try lia ].

Lemma break_even_reduces (p : Params) (b : Bar) (s : Strategy) (w : World) :
  (0 < position_size b)%Z ->
  exists new,
    requests (snd (snd (break_even p b (s, w)))) = requests w ++ new
    /\ Forall (reduces (position_size b)) new.
Proof.
  intros Hpos. unfold break_even. cases_m; new_requests.
Qed.

Lemma trailing_stop_reduces (p : Params) (b : Bar) (s : Strategy) (w : World) :
  (0 < position_size b)%Z ->
  exists new,
    requests (snd (snd (trailing_stop p b (s, w)))) = requests w ++ new
    /\ Forall (reduces (position_size b)) new.
Proof.
  intros Hpos. unfold trailing_stop. cases_m; new_requests.
Qed.

Lemma partial_exit_reduces (p : Params) (b : Bar) (s : Strategy) (w : World) :
  0 <= retain_pct p -> (0 < position_size b)%Z ->
  exists new,
    requests (snd (snd (partial_exit p b (s, w)))) = requests w ++ new
    /\ Forall (reduces (position_size b)) new.
Proof.
  intros Hr Hpos.
  destruct (retain_size_floor (retain_pct p) (position_size b) Hr Hpos)
    as [Hint Hge].
  unfold partial_exit. rewrite Hint.
  cases_m;
    repeat match goal with
           | H : (_ <? _)%Z = true |- _ => apply Z.ltb_lt in H
           end;
    new_requests.
Qed.

(** X7.  While long (position > 0, retain fraction not negative), whatever
    the engine answers, every request one call of [next] adds to the log is
    a cancellation or a sell of at least one and at most the held number of
    units; it never buys and never sells more than it holds in one order. *)
Theorem long_position_only_reduces (p : Params) (b : Bar) (s : Strategy)
        (w : World) :
  0 <= retain_pct p -> (0 < position_size b)%Z ->
  exists new,
    requests (snd (snd (next p b (s, w)))) = requests w ++ new
    /\ Forall (reduces (position_size b)) new.
Proof.
  intros Hr Hpos.
  destruct (len_data b <? Z.max (trend_period p) (slow_period p) + 2)%Z eqn:Hlen.
  - unfold next. rewrite Hlen. exists []. split; [ | constructor].
    cbn. now rewrite app_nil_r.
  - rewrite next_in_position by (try assumption; lia).
    destruct (break_even_reduces p b s w Hpos) as (n1 & E1 & F1).
    destruct (snd (break_even p b (s, w))) as [s1 w1]. cbn [snd] in E1.
    destruct (trailing_stop_reduces p b s1 w1 Hpos) as (n2 & E2 & F2).
    destruct (snd (trailing_stop p b (s1, w1))) as [s2 w2]. cbn [snd] in E2.
    destruct (sell_signal b).
    + destruct (partial_exit_reduces p b s2 w2 Hr Hpos) as (n3 & E3 & F3).
      exists (n1 ++ n2 ++ n3). split.
      * rewrite E3, E2, E1. now rewrite <- !app_assoc.
      * apply Forall_app. split; [exact F1 | ].
        apply Forall_app. split; assumption.
    + exists (n1 ++ n2). split.
      * cbn. rewrite E2, E1. now rewrite <- app_assoc.
      * apply Forall_app. split; assumption.
Qed.

Lemma long_position_only_reduces_witness :
  exists new,
    requests (snd (snd (next default_params scenario3_bar
                             (scenario3_state, scenario3_world))))
    = requests scenario3_world ++ new
    /\ Forall (reduces 1000) new.
Proof.
  apply (long_position_only_reduces default_params scenario3_bar
           scenario3_state scenario3_world).
  - vm_compute. discriminate.
  - reflexivity.
Defined.

(** * Further properties of AdvancedTrendFollowingStrategy *)

Lemma Qdiv_lt_iff (a b c : Q) : 0 < c -> (a / c < b <-> a < b * c).
Proof.
  intros Hc. assert (E : a == a / c * c) by (field; lra).
  set (q := a / c) in *. split; intros H; nra.
Qed.

Lemma Qlt_div_iff (a b c : Q) : 0 < c -> (b < a / c <-> b * c < a).
Proof.
  intros Hc. assert (E : a == a / c * c) by (field; lra).
  set (q := a / c) in *. split; intros H; nra.
Qed.

Lemma py_div_ok (a c : Q) : ~ c == 0 -> py_div a c = Ok (a / c).
Proof.
  intros Hc. unfold py_div.
  apply Qeq_bool_false_iff in Hc. now rewrite Hc.
Qed.

Lemma py_div_zero (a c : Q) : c == 0 -> py_div a c = Raise ZeroDivisionError.
Proof.
  intros Hc. unfold py_div. apply Qeq_bool_iff in Hc. now rewrite Hc.
Qed.

(** ** The order handler *)

(** X8.  The trend strategy's order handler raises only on a completed sell
    while the recorded entry price is zero (ZeroDivisionError, every
    attribute left as it was, the pending order included), and it does
    raise then.  When it returns on a terminal status the pending order is
    cleared.  Each call raises either counter by at most one and the win
    counter by no more than the trade counter. *)
Theorem trend_notify_order_outcome (len : Z) (n : Notification)
        (s : Trend.Strategy) :
  let out := Trend.notify_order len n s in
  (forall e : exn,
      fst out = Raise e ->
      e = ZeroDivisionError /\ snd out = s /\ status n = Completed
      /\ ordtype (order n) = Sell /\ Trend.entry_price s == 0)
  /\ (status n = Completed -> ordtype (order n) = Sell ->
      Trend.entry_price s == 0 ->
      out = (Raise ZeroDivisionError, s))
  /\ (fst out = Ok tt -> terminal (status n) = true ->
      Trend.order (snd out) = None)
  /\ (Trend.win_count s <= Trend.win_count (snd out)
      <= Trend.win_count s + 1)%Z
  /\ (Trend.trade_count s <= Trend.trade_count (snd out)
      <= Trend.trade_count s + 1)%Z
  /\ (Trend.win_count (snd out) - Trend.win_count s
      <= Trend.trade_count (snd out) - Trend.trade_count s)%Z.
Proof.
  cbv zeta. unfold Trend.notify_order, Trend.notified.
  destruct (status n) eqn:Hst;
    try (cbn [fst snd terminal Trend.order Trend.win_count Trend.trade_count];
         repeat split; intros; try discriminate; try reflexivity; lia).
  destruct (ordtype (order n)) eqn:Hty.
  - cbn [fst snd terminal Trend.order Trend.win_count Trend.trade_count].
    repeat split; intros; try discriminate; try reflexivity; lia.
  - unfold py_div.
    destruct (Qeq_bool (Trend.entry_price s) 0) eqn:Hz.
    + apply Qeq_bool_iff in Hz.
      cbn [fst snd]. repeat split; intros; try discriminate; try lia;
        try assumption; try reflexivity.
      congruence.
    + apply Qeq_bool_false_iff in Hz.
      cbn [fst snd terminal Trend.order Trend.win_count Trend.trade_count].
      destruct (0 <? (executed_price n - Trend.entry_price s)
                     / Trend.entry_price s * 100);
        repeat split; intros; try discriminate; try reflexivity;
        try contradiction; lia.
Qed.

Lemma trend_notify_order_outcome_witness :
  Trend.notify_order 60
    (mkNotification (mkOrder 1 Sell 10 Market None) Completed 50 (-10) 0)
    Trend.init
  = (Raise ZeroDivisionError, Trend.init).
Proof.
  apply (proj1 (proj2 (trend_notify_order_outcome 60
           (mkNotification (mkOrder 1 Sell 10 Market None) Completed 50 (-10) 0)
           Trend.init))); reflexivity.
Defined.

(** ** Statistics *)

Lemma trend_notify_all_tally (len : Z) (ns : list Notification)
      (s : Trend.Strategy) :
  (0 <= Trend.win_count s <= Trend.trade_count s)%Z ->
  (0 <= Trend.win_count (snd (Trend.notify_all len ns s))
   <= Trend.trade_count (snd (Trend.notify_all len ns s)))%Z.
Proof.
  revert s. induction ns as [ | n ns IH]; intros s Hs.
  - exact Hs.
  - cbn [Trend.notify_all].
    pose proof (trend_notify_order_outcome len n s) as H. cbv zeta in H.
    destruct H as (_ & _ & _ & Hw & Ht & Hd).
    destruct (Trend.notify_order len n s) as [[[] | e] s1]; cbn [snd] in *.
    + apply IH. lia.
    + lia.
Qed.

(** X9.  Starting from a consistent tally (0 <= wins <= trades, as after
    [__init__]) and after any sequence of order notifications,
    [get_strategy_stats] returns without dividing by zero, reports the two
    counters, and its win rate is a percentage between 0 and 100, equal to
    0 when no trade was counted. *)
Theorem trend_stats_win_rate_is_percentage (len : Z) (ns : list Notification)
        (s : Trend.Strategy) (v : Q) :
  (0 <= Trend.win_count s <= Trend.trade_count s)%Z ->
  let s' := snd (Trend.notify_all len ns s) in
  exists st : Trend.Stats,
    Trend.get_strategy_stats v s' = Ok st
    /\ Trend.total_trades st = Trend.trade_count s'
    /\ Trend.win_trades st = Trend.win_count s'
    /\ Trend.final_portfolio_value st = v
    /\ 0 <= Trend.win_rate st /\ Trend.win_rate st <= 100
    /\ (Trend.trade_count s' = 0%Z -> Trend.win_rate st == 0).
Proof.
  intros Hs. cbv zeta.
  pose proof (trend_notify_all_tally len ns s Hs) as Hinv.
  set (s' := snd (Trend.notify_all len ns s)) in *.
  unfold Trend.get_strategy_stats.
  destruct (Z.ltb_spec 0 (Trend.trade_count s')) as [Hpos | Hzero].
  - assert (Ht : 0 < inject_Z (Trend.trade_count s'))
      by (change 0 with (inject_Z 0); rewrite <- Zlt_Qlt; exact Hpos).
    assert (Hw0 : 0 <= inject_Z (Trend.win_count s'))
      by (change 0 with (inject_Z 0); rewrite <- Zle_Qle; lia).
    assert (Hwt : inject_Z (Trend.win_count s')
                  <= inject_Z (Trend.trade_count s'))
      by (rewrite <- Zle_Qle; lia).
    rewrite py_div_ok by lra. cbn [Res_bind].
    eexists. split; [reflexivity | ].
    cbn [Trend.total_trades Trend.win_trades Trend.final_portfolio_value
         Trend.win_rate].
    repeat split.
    + assert (0 <= inject_Z (Trend.win_count s')
                   / inject_Z (Trend.trade_count s'))
        by (apply Qle_shift_div_l; lra). lra.
    + assert (inject_Z (Trend.win_count s')
              / inject_Z (Trend.trade_count s') <= 1)
        by (apply Qle_shift_div_r; lra). lra.
    + intros Hz. lia.
  - cbn [Res_bind]. eexists. split; [reflexivity | ].
    cbn [Trend.total_trades Trend.win_trades Trend.final_portfolio_value
         Trend.win_rate].
    repeat split; lra.
Qed.

Lemma trend_stats_win_rate_is_percentage_witness :
  exists st : Trend.Stats,
    Trend.get_strategy_stats 100000
      (snd (Trend.notify_all 60 trend_round_trips Trend.init)) = Ok st
    /\ Trend.total_trades st = 2%Z
    /\ Trend.win_trades st = 1%Z
    /\ Trend.win_rate st == 50.
Proof.
  destruct (trend_stats_win_rate_is_percentage 60 trend_round_trips
              Trend.init 100000)
    as (st & Hst & Ht & Hw & _).
  - cbn. lia.
  - exists st. split; [exact Hst | ].
    split; [rewrite Ht; reflexivity | ].
    split; [rewrite Hw; reflexivity | ].
    vm_compute in Hst. injection Hst as <-. reflexivity.
Defined.

(** ** [next] of the trend strategy *)

Lemma trend_next_pending (p : Trend.Params) (b : Trend.Bar) (a : Order)
      (s : Trend.Strategy) :
  Trend.pending s = true -> Trend.next p b a s = (Ok [], s).
Proof. intros H. unfold Trend.next. now rewrite H. Qed.

(** X10.  One call of the trend strategy's [next] makes at most one
    request.  When it makes none, or raises (only ZeroDivisionError is
    possible), no attribute changes.  When it makes one, no order was
    pending, the engine's handle is recorded as the pending order, and every
    later call of [next] makes no request until the handler clears it. *)
Theorem trend_next_one_order_at_a_time (p : Trend.Params) (b : Trend.Bar)
        (a : Order) (s : Trend.Strategy) :
  let out := Trend.next p b a s in
  (forall e : exn, fst out = Raise e -> e = ZeroDivisionError /\ snd out = s)
  /\ (forall reqs : list Trend.Request,
         fst out = Ok reqs ->
         (reqs = [] /\ snd out = s)
         \/ (exists r, reqs = [r]
             /\ Trend.order s = None /\ (50 <= Trend.len_data b)%Z
             /\ snd out = Trend.set_order (Some a) s
             /\ forall (p' : Trend.Params) (b' : Trend.Bar) (a' : Order),
                 Trend.next p' b' a' (snd out) = (Ok [], snd out))).
Proof.
  cbv zeta. unfold Trend.next.
  destruct (Trend.pending s) eqn:Hpend; cbn [orb].
  { split; [intros e He; discriminate | ].
    intros reqs Hr. left. cbn in *. split; congruence. }
  destruct (Z.ltb_spec (Trend.len_data b) 50) as [Hlen | Hlen].
  { split; [intros e He; discriminate | ].
    intros reqs Hr. left. cbn in *. split; congruence. }
  assert (Hnone : Trend.order s = None)
    by (unfold Trend.pending in Hpend; destruct (Trend.order s);
        [discriminate | reflexivity]).
  assert (Hafter : forall (p' : Trend.Params) (b' : Trend.Bar) (a' : Order),
             Trend.next p' b' a' (Trend.set_order (Some a) s)
             = (Ok [], Trend.set_order (Some a) s))
    by (intros; apply trend_next_pending; reflexivity).
  assert (Hdiv : forall x y e, py_div x y = Raise e -> e = ZeroDivisionError)
    by (intros x y e; unfold py_div; destruct (Qeq_bool y 0);
        [congruence | discriminate]).
  unfold Trend.sell_condition.
  destruct (Trend.crossover b <? 0);
    destruct (Trend.position b =? 0)%Z; cbn [Res_bind];
    repeat match goal with
      | |- context [py_div ?x ?y] =>
          let E := fresh "E" in
          destruct (py_div x y) eqn:E; cbn [Res_bind]
      | |- context [if ?c then _ else _] => destruct c
      end;
    cbn [fst snd];
    (split;
     [ intros e0 He; first [discriminate He
                           | injection He as <-; split; [eauto | reflexivity]]
     | intros reqs Hr; first [discriminate Hr | injection Hr as <-];
       first [ left; split; reflexivity
             | right; eexists; repeat split; eauto; lia ] ]).
Qed.

Lemma trend_next_one_order_at_a_time_witness :
  let b := Trend.mkBar 60 50 52 51 48 1 60 1 0 1 100000 0 in
  let a := mkOrder 1 Buy 300 Market None in
  let s' := snd (Trend.next Trend.default_params b a Trend.init) in
  Trend.next Trend.default_params b a s' = (Ok [], s').
Proof.
  cbv zeta.
  destruct (proj2 (trend_next_one_order_at_a_time Trend.default_params
                     (Trend.mkBar 60 50 52 51 48 1 60 1 0 1 100000 0)
                     (mkOrder 1 Buy 300 Market None) Trend.init)
                  [Trend.ReqBuy 300] eq_refl)
    as [[H _] | (r & _ & _ & _ & _ & Hafter)].
  - discriminate H.
  - apply Hafter.
Defined.

(** X11.  What the trend strategy requests and when: a buy only while flat
    and under the buy condition, for int(cash * position_size / close) > 0
    units, which for a positive close cost no more than the
    cash * position_size budget; a close only while a position is held. *)
Theorem trend_next_requests (p : Trend.Params) (b : Trend.Bar) (a : Order)
        (s : Trend.Strategy) (reqs : list Trend.Request) :
  fst (Trend.next p b a s) = Ok reqs ->
  (forall n : Z,
      In (Trend.ReqBuy n) reqs ->
      Trend.position b = 0%Z /\ Trend.buy_condition p b = true
      /\ (0 < n)%Z
      /\ n = py_int (Trend.cash b * Trend.position_size p / Trend.close b)
      /\ (0 < Trend.close b ->
          inject_Z n * Trend.close b <= Trend.cash b * Trend.position_size p))
  /\ (In Trend.ReqClose reqs -> Trend.position b <> 0%Z).
Proof.
  unfold Trend.next.
  destruct (Trend.pending s || (Trend.len_data b <? 50)%Z).
  { cbn. intros [= <-]. split; [intros n [] | intros []]. }
  destruct (Trend.sell_condition p b s) as [sell | e]; [ | discriminate].
  destruct (Z.eqb_spec (Trend.position b) 0) as [Hflat | Hheld].
  - destruct (Trend.buy_condition p b) eqn:Hbuy.
    2:{ cbn. intros [= <-]. split; [intros n [] | intros []]. }
    unfold py_div. destruct (Qeq_bool (Trend.close b) 0) eqn:Hc;
      [discriminate | ].
    apply Qeq_bool_false_iff in Hc.
    destruct (Z.ltb_spec 0
                (py_int (Trend.cash b * Trend.position_size p / Trend.close b)))
      as [Hpos | Hle].
    2:{ cbn. intros [= <-]. split; [intros n [] | intros []]. }
    cbn. intros [= <-]. split.
    + intros n [[= <-] | []]. repeat split; try assumption.
      intros Hclose. apply py_int_positive in Hpos.
      apply (Qmult_le_compat_r _ _ (Trend.close b)) in Hpos; [ | lra].
      eapply Qle_trans; [exact Hpos | ].
      assert (E : Trend.cash b * Trend.position_size p / Trend.close b
                  * Trend.close b
                  == Trend.cash b * Trend.position_size p) by (field; lra).
      rewrite E. apply Qle_refl.
    + intros [H | []]. discriminate H.
  - destruct (py_div (Trend.close b - Trend.entry_price s)
                     (Trend.entry_price s)); [ | discriminate].
    destruct (sell || (Trend.take_profit p <? a0)); cbn; intros [= <-].
    + split; [intros n [H | []]; discriminate H | intros _; exact Hheld].
    + split; [intros n [] | intros []].
Qed.

Lemma trend_next_requests_witness :
  let b := Trend.mkBar 60 50 52 51 48 1 60 1 0 1 100000 0 in
  Trend.position b = 0%Z /\ Trend.buy_condition Trend.default_params b = true
  /\ (0 < 300)%Z
  /\ 300%Z = py_int (Trend.cash b * Trend.position_size Trend.default_params
                     / Trend.close b)
  /\ (0 < Trend.close b ->
      inject_Z 300 * Trend.close b
      <= Trend.cash b * Trend.position_size Trend.default_params).
Proof.
  cbv zeta.
  apply (proj1 (trend_next_requests Trend.default_params
                  (Trend.mkBar 60 50 52 51 48 1 60 1 0 1 100000 0)
                  (mkOrder 1 Buy 300 Market None) Trend.init
                  [Trend.ReqBuy 300] eq_refl)).
  left. reflexivity.
Defined.

(** X12.  The trend strategy's exit rule.  With no order pending, the
    warm-up over, a position held and a positive entry price, [next] asks to
    close exactly when the crossover is negative, or the close is below
    entry_price * (1 - stop_loss), or above
    entry_price * (1 + take_profit); otherwise it does nothing.  With an
    entry price of zero it raises ZeroDivisionError instead. *)
Theorem trend_exit_rule (p : Trend.Params) (b : Trend.Bar) (a : Order)
        (s : Trend.Strategy) :
  Trend.pending s = false -> (50 <= Trend.len_data b)%Z ->
  Trend.position b <> 0%Z ->
  (0 < Trend.entry_price s ->
   (Trend.crossover b < 0
    \/ Trend.close b < Trend.entry_price s * (1 - Trend.stop_loss p)
    \/ Trend.entry_price s * (1 + Trend.take_profit p) < Trend.close b ->
    Trend.next p b a s = (Ok [Trend.ReqClose], Trend.set_order (Some a) s))
   /\ (~ (Trend.crossover b < 0
          \/ Trend.close b < Trend.entry_price s * (1 - Trend.stop_loss p)
          \/ Trend.entry_price s * (1 + Trend.take_profit p) < Trend.close b) ->
       Trend.next p b a s = (Ok [], s)))
  /\ (Trend.entry_price s == 0 ->
      Trend.next p b a s = (Raise ZeroDivisionError, s)).
Proof.
  intros Hpend Hlen Hheld. unfold Trend.next, Trend.sell_condition.
  rewrite Hpend. cbn [orb].
  apply Z.ltb_ge in Hlen. rewrite Hlen.
  apply Z.eqb_neq in Hheld. rewrite Hheld.
  split.
  - intros Hen.
    rewrite py_div_ok by lra. cbn [Res_bind].
    pose proof (Qdiv_lt_iff (Trend.close b - Trend.entry_price s)
                  (- Trend.stop_loss p) (Trend.entry_price s) Hen) as Hsl.
    pose proof (Qlt_div_iff (Trend.close b - Trend.entry_price s)
                  (Trend.take_profit p) (Trend.entry_price s) Hen) as Htp.
    destruct (Trend.crossover b <? 0) eqn:Hx; cbn [Res_bind orb].
    + apply Qlt_bool_iff in Hx. split; [reflexivity | ].
      intros Hno. exfalso. apply Hno. now left.
    + apply Qlt_bool_false_iff in Hx.
      destruct ((Trend.close b - Trend.entry_price s) / Trend.entry_price s
                <? - Trend.stop_loss p) eqn:Hs; cbn [orb].
      * apply Qlt_bool_iff in Hs. split; [reflexivity | ].
        intros Hno. exfalso. apply Hno. right. left.
        apply Hsl in Hs. lra.
      * apply Qlt_bool_false_iff in Hs.
        destruct (Trend.take_profit p
                  <? (Trend.close b - Trend.entry_price s)
                     / Trend.entry_price s) eqn:Ht.
        -- apply Qlt_bool_iff in Ht. split; [reflexivity | ].
           intros Hno. exfalso. apply Hno. right. right.
           apply Htp in Ht. lra.
        -- apply Qlt_bool_false_iff in Ht. split; [ | reflexivity].
           intros [H | [H | H]]; exfalso.
           ++ lra.
           ++ assert ((Trend.close b - Trend.entry_price s)
                      / Trend.entry_price s < - Trend.stop_loss p)
                by (apply Hsl; lra). lra.
           ++ assert (Trend.take_profit p
                      < (Trend.close b - Trend.entry_price s)
                        / Trend.entry_price s)
                by (apply Htp; lra). lra.
  - intros Hz. rewrite py_div_zero by exact Hz.
    destruct (Trend.crossover b <? 0); reflexivity.
Qed.

Lemma trend_exit_rule_witness :
  let s := Trend.mkStrategy None 100 0 0 55 in
  let b := Trend.mkBar 60 96 99 100 98 0 45 0 0 1 50000 150 in
  Trend.next Trend.default_params b (mkOrder 7 Sell 150 Market None) s
  = (Ok [Trend.ReqClose],
     Trend.set_order (Some (mkOrder 7 Sell 150 Market None)) s).
Proof.
  cbv zeta.
  apply (proj1 (proj1 (trend_exit_rule Trend.default_params
                  (Trend.mkBar 60 96 99 100 98 0 45 0 0 1 50000 150)
                  (mkOrder 7 Sell 150 Market None)
                  (Trend.mkStrategy None 100 0 0 55)
                  eq_refl ltac:(cbn; lia) ltac:(cbn; discriminate))
                ltac:(reflexivity))).
  right. left. reflexivity.
Defined.

(** * Properties of OptimizedBacktest *)

Module OptimizedBacktestFacts.
Import OptimizedBacktest.

Section Selection.

Variable backtest : Params -> Res Outcome.
Variable base : Params.
Variable initial_cash : Q.

Lemma optimize_loop_spec :
  ~ initial_cash == 0 ->
  forall (grid : list Candidate) (acc : option BestResult),
  exists r : option BestResult,
    optimize_loop backtest base initial_cash grid acc = Ok r
    /\ (forall b, r = Some b ->
        acc = Some b
        \/ (In (params b) grid
            /\ exists o, eligible backtest base (params b) o
                         /\ profit_pct b = profit_of initial_cash o
                         /\ win_rate b = inject_Z (win_count o)
                                         / inject_Z (trade_count o)))
    /\ (forall a, acc = Some a ->
        exists b, r = Some b /\ profit_pct a <= profit_pct b)
    /\ (forall c o, In c grid -> eligible backtest base c o ->
        exists b, r = Some b /\ profit_of initial_cash o <= profit_pct b).
Proof.
  intros Hcash. induction grid as [ | c grid IH]; intros acc.
  - exists acc. cbn. split; [reflexivity | ]. split; [auto | ]. split.
    + intros a ->. exists a. split; [reflexivity | apply Qle_refl].
    + intros c o [].
  - cbn [optimize_loop].
    destruct (backtest (strategy_params base c false)) as [strat | e] eqn:Hrun.
    2:{ destruct (IH acc) as (r & Hr & Hfrom & Hacc & Hgrid).
        exists r. split; [exact Hr | ]. split; [ | split; [exact Hacc | ]].
        - intros b Hb. destruct (Hfrom b Hb) as [H | (Hin & H)]; [now left | ].
          right. split; [now right | exact H].
        - intros c' o [<- | Hin] [Hok Htr]; [congruence | ].
          apply (Hgrid c' o Hin). now split. }
    rewrite py_div_ok by exact Hcash. cbn [Res_bind].
    fold (profit_of initial_cash strat).
    destruct (Z.ltb_spec 0 (trade_count strat)) as [Htr | Htr].
    2:{ destruct (IH acc) as (r & Hr & Hfrom & Hacc & Hgrid).
        exists r. split; [exact Hr | ]. split; [ | split; [exact Hacc | ]].
        - intros b Hb. destruct (Hfrom b Hb) as [H | (Hin & H)]; [now left | ].
          right. split; [now right | exact H].
        - intros c' o [<- | Hin] [Hok Htr']; [ | apply (Hgrid c' o Hin); now split].
          rewrite Hrun in Hok. injection Hok as <-. lia. }
    assert (Hnew : forall r,
               optimize_loop backtest base initial_cash grid
                 (Some (mkBestResult c (profit_of initial_cash strat)
                          (inject_Z (win_count strat)
                           / inject_Z (trade_count strat)))) = Ok r ->
               (forall b, r = Some b ->
                 Some (mkBestResult c (profit_of initial_cash strat)
                         (inject_Z (win_count strat)
                          / inject_Z (trade_count strat))) = Some b
                 \/ (In (params b) grid
                     /\ exists o, eligible backtest base (params b) o
                                  /\ profit_pct b = profit_of initial_cash o
                                  /\ win_rate b = inject_Z (win_count o)
                                                  / inject_Z (trade_count o))) ->
               forall b, r = Some b ->
                 In (params b) (c :: grid)
                 /\ exists o, eligible backtest base (params b) o
                              /\ profit_pct b = profit_of initial_cash o
                              /\ win_rate b = inject_Z (win_count o)
                                              / inject_Z (trade_count o)).
    { intros r _ Hfrom b Hb.
      destruct (Hfrom b Hb) as [[= <-] | (Hin & H)].
      - cbn [params profit_pct win_rate]. split; [now left | ].
        exists strat. repeat split; assumption.
      - split; [now right | exact H]. }
    assert (Hrate : (if (trade_count strat =? 0)%Z
                     then Ok 0
                     else py_div (inject_Z (win_count strat))
                                 (inject_Z (trade_count strat)))
                    = Ok (inject_Z (win_count strat)
                          / inject_Z (trade_count strat))).
    { destruct (Z.eqb_spec (trade_count strat) 0) as [E | _]; [lia | ].
      apply py_div_ok. intros E.
      assert (0 < inject_Z (trade_count strat))
        by (change 0 with (inject_Z 0); rewrite <- Zlt_Qlt; exact Htr).
      lra. }
    destruct acc as [a | ].
    + destruct (profit_pct a <? profit_of initial_cash strat) eqn:Hcmp.
      * apply Qlt_bool_iff in Hcmp. rewrite Hrate. cbn [Res_bind].
        destruct (IH (Some (mkBestResult c (profit_of initial_cash strat)
                              (inject_Z (win_count strat)
                               / inject_Z (trade_count strat)))))
          as (r & Hr & Hfrom & Hacc & Hgrid).
        exists r. split; [exact Hr | ].
        destruct (Hacc _ eq_refl) as (b0 & Hb0 & Hle0).
        cbn [profit_pct] in Hle0.
        split; [ | split].
        -- intros b Hb. right. exact (Hnew r Hr Hfrom b Hb).
        -- intros a' [= <-]. exists b0. split; [exact Hb0 | lra].
        -- intros c' o [<- | Hin] [Hok Htr'].
           ++ rewrite Hrun in Hok. injection Hok as <-.
              exists b0. split; [exact Hb0 | exact Hle0].
           ++ apply (Hgrid c' o Hin). now split.
      * apply Qlt_bool_false_iff in Hcmp.
        destruct (IH (Some a)) as (r & Hr & Hfrom & Hacc & Hgrid).
        exists r. split; [exact Hr | ].
        destruct (Hacc _ eq_refl) as (b0 & Hb0 & Hle0).
        split; [ | split; [exact Hacc | ]].
        -- intros b Hb.
           destruct (Hfrom b Hb) as [H | (Hin & H)]; [now left | ].
           right. split; [now right | exact H].
        -- intros c' o [<- | Hin] [Hok Htr'].
           ++ rewrite Hrun in Hok. injection Hok as <-.
              exists b0. split; [exact Hb0 | lra].
           ++ apply (Hgrid c' o Hin). now split.
    + rewrite Hrate. cbn [Res_bind].
      destruct (IH (Some (mkBestResult c (profit_of initial_cash strat)
                            (inject_Z (win_count strat)
                             / inject_Z (trade_count strat)))))
        as (r & Hr & Hfrom & Hacc & Hgrid).
      exists r. split; [exact Hr | ].
      destruct (Hacc _ eq_refl) as (b0 & Hb0 & Hle0).
      cbn [profit_pct] in Hle0.
      split; [ | split].
      * intros b Hb. right. exact (Hnew r Hr Hfrom b Hb).
      * intros a' [=].
      * intros c' o [<- | Hin] [Hok Htr'].
        -- rewrite Hrun in Hok. injection Hok as <-.
           exists b0. split; [exact Hb0 | exact Hle0].
        -- apply (Hgrid c' o Hin). now split.
Qed.

Lemma optimize_strategy_spec :
  ~ initial_cash == 0 ->
  forall grid : list Candidate,
  exists r : option BestResult,
    optimize_strategy backtest base initial_cash grid = Ok r
    /\ (forall b, r = Some b ->
        In (params b) grid
        /\ exists o, eligible backtest base (params b) o
                     /\ profit_pct b = profit_of initial_cash o
                     /\ win_rate b = inject_Z (win_count o)
                                     / inject_Z (trade_count o))
    /\ (forall c o, In c grid -> eligible backtest base c o ->
        exists b, r = Some b /\ profit_of initial_cash o <= profit_pct b).
Proof.
  intros Hcash grid.
  destruct (optimize_loop_spec Hcash grid None) as (r & Hr & Hfrom & _ & Hgrid).
  exists r. split.
  - unfold optimize_strategy. destruct grid; [ | exact Hr].
    cbn in Hr. exact Hr.
  - split; [ | exact Hgrid].
    intros b Hb. destruct (Hfrom b Hb) as [H | H]; [discriminate | exact H].
Qed.

(** X13.  With a non-zero initial cash [optimize_strategy] returns without
    raising.  It returns None exactly when no candidate of the grid both
    runs to the end and counts a trade.  Otherwise the result is a candidate
    of the grid that ran with at least one trade, carries that run's profit
    percentage and win_count / trade_count, and no other such candidate of
    the grid has a higher profit. *)
Theorem optimize_strategy_selects_best :
  ~ initial_cash == 0 ->
  forall grid : list Candidate,
  exists r : option BestResult,
    optimize_strategy backtest base initial_cash grid = Ok r
    /\ (r = None <->
        forall c o, In c grid -> ~ eligible backtest base c o)
    /\ (forall b, r = Some b ->
        In (params b) grid
        /\ exists o, eligible backtest base (params b) o
                     /\ profit_pct b = profit_of initial_cash o
                     /\ win_rate b = inject_Z (win_count o)
                                     / inject_Z (trade_count o)
                     /\ forall c o', In c grid ->
                                     eligible backtest base c o' ->
                                     profit_of initial_cash o' <= profit_pct b).
Proof.
  intros Hcash grid.
  destruct (optimize_strategy_spec Hcash grid) as (r & Hr & Hfrom & Hgrid).
  exists r. split; [exact Hr | ]. split.
  - split.
    + intros -> c o Hin Hel.
      destruct (Hgrid c o Hin Hel) as (b & Hb & _). discriminate.
    + intros Hnone. destruct r as [b | ]; [ | reflexivity].
      destruct (Hfrom b eq_refl) as (Hin & o & Hel & _).
      exfalso. exact (Hnone _ _ Hin Hel).
  - intros b ->. destruct (Hfrom b eq_refl) as (Hin & o & Hel & Hp & Hw).
    split; [exact Hin | ]. exists o. repeat split; try assumption.
    + apply Hel.
    + apply Hel.
    + intros c o' Hin' Hel'.
      destruct (Hgrid c o' Hin' Hel') as (b' & [= <-] & Hle). exact Hle.
Qed.

Lemma optimize_loop_skips_failures (grid : list Candidate)
      (acc : option BestResult) :
  optimize_loop backtest base initial_cash grid acc
  = optimize_loop backtest base initial_cash
                  (filter (returns backtest base) grid) acc.
Proof.
  revert acc. induction grid as [ | c grid IH]; intros acc; [reflexivity | ].
  cbn [filter]. unfold returns at 1. cbn [optimize_loop].
  destruct (backtest (strategy_params base c false)) as [strat | e] eqn:Hrun.
  - cbn [optimize_loop]. rewrite Hrun.
    destruct (py_div (final_value strat) initial_cash); cbn [Res_bind];
      [ | reflexivity].
    destruct (0 <? trade_count strat)%Z; [ | apply IH].
    destruct (match acc with
              | Some b => profit_pct b <? (a - 1) * 100
              | None => true
              end); [ | apply IH].
    destruct (if (trade_count strat =? 0)%Z
              then Ok 0
              else py_div (inject_Z (win_count strat))
                          (inject_Z (trade_count strat)));
      cbn [Res_bind]; [apply IH | reflexivity].
  - apply IH.
Qed.

Lemma optimize_loop_zero_cash (grid : list Candidate)
      (acc : option BestResult) :
  initial_cash == 0 ->
  (exists c, In c grid /\ returns backtest base c = true) ->
  optimize_loop backtest base initial_cash grid acc
  = Raise ZeroDivisionError.
Proof.
  intros Hz. induction grid as [ | c grid IH]; intros (c0 & Hin & Hret).
  - destruct Hin.
  - cbn [optimize_loop].
    destruct (backtest (strategy_params base c false)) as [strat | e] eqn:Hrun.
    + now rewrite py_div_zero by exact Hz.
    + apply IH. exists c0. split; [ | exact Hret].
      destruct Hin as [<- | Hin]; [ | exact Hin].
      unfold returns in Hret. rewrite Hrun in Hret. discriminate.
Qed.

(** X14.  Candidates whose run raises are skipped: the result is the one
    obtained from the grid without them.  The only exception
    [optimize_strategy] can raise is ZeroDivisionError, it does so only
    when the initial cash is zero, and with zero cash it does so as soon as
    one candidate's run returns. *)
Theorem optimize_strategy_errors :
  (forall grid : list Candidate,
      optimize_strategy backtest base initial_cash grid
      = optimize_strategy backtest base initial_cash
                          (filter (returns backtest base) grid))
  /\ (forall (grid : list Candidate) (e : exn),
         optimize_strategy backtest base initial_cash grid = Raise e ->
         e = ZeroDivisionError /\ initial_cash == 0
         /\ exists c, In c grid /\ returns backtest base c = true)
  /\ (initial_cash == 0 ->
      forall grid : list Candidate,
        (exists c, In c grid /\ returns backtest base c = true) ->
        optimize_strategy backtest base initial_cash grid
        = Raise ZeroDivisionError).
Proof.
  split; [ | split].
  - intros grid.
    assert (E : optimize_strategy backtest base initial_cash grid
                = optimize_loop backtest base initial_cash grid None)
      by (destruct grid; reflexivity).
    rewrite E, optimize_loop_skips_failures.
    destruct (filter (returns backtest base) grid); reflexivity.
  - intros grid e He.
    destruct (Qeq_dec initial_cash 0) as [Hz | Hnz].
    2:{ destruct (optimize_strategy_spec Hnz grid) as (r & Hr & _).
        congruence. }
    assert (Hsome : exists c, In c grid /\ returns backtest base c = true).
    { destruct (existsb (returns backtest base) grid) eqn:Hex.
      - apply existsb_exists in Hex. exact Hex.
      - exfalso.
        assert (E : optimize_strategy backtest base initial_cash grid
                    = optimize_loop backtest base initial_cash grid None)
          by (destruct grid; reflexivity).
        rewrite E, optimize_loop_skips_failures in He.
        assert (Hnil : filter (returns backtest base) grid = []).
        { clear He E. induction grid as [ | c g IH]; [reflexivity | ].
          cbn [existsb] in Hex. apply orb_false_iff in Hex.
          destruct Hex as [H1 H2]. cbn [filter]. rewrite H1. now apply IH. }
        rewrite Hnil in He. discriminate. }
    split; [ | split; [exact Hz | exact Hsome]].
    assert (E : optimize_strategy backtest base initial_cash grid
                = optimize_loop backtest base initial_cash grid None)
      by (destruct grid; reflexivity).
    rewrite E, (optimize_loop_zero_cash grid None Hz Hsome) in He.
    congruence.
  - intros Hz grid Hsome.
    assert (E : optimize_strategy backtest base initial_cash grid
                = optimize_loop backtest base initial_cash grid None)
      by (destruct grid; reflexivity).
    rewrite E. now apply optimize_loop_zero_cash.
Qed.

(** X15.  When a run's outcome does not depend on the [printlog] switch and
    the initial cash is not zero, [run_single_backtest] with optimisation
    on, over a grid in which some candidate runs with a trade, returns the
    final value and the profit percentage of such a candidate of the grid,
    and that profit is not below the profit of any other. *)
Theorem run_single_backtest_reports_best :
  ~ initial_cash == 0 ->
  (forall c, backtest (strategy_params base c true)
             = backtest (strategy_params base c false)) ->
  forall grid : list Candidate,
    (exists c o, In c grid /\ eligible backtest base c o) ->
    exists c o,
      In c grid /\ eligible backtest base c o
      /\ run_single_backtest backtest base grid initial_cash true
         = Ok (profit_of initial_cash o, final_value o)
      /\ forall c' o', In c' grid -> eligible backtest base c' o' ->
                       profit_of initial_cash o' <= profit_of initial_cash o.
Proof.
  intros Hcash Hlog grid (c0 & o0 & Hin0 & Hel0).
  destruct (optimize_strategy_spec Hcash grid) as (r & Hr & Hfrom & Hgrid).
  destruct (Hgrid c0 o0 Hin0 Hel0) as (b & -> & _).
  destruct (Hfrom b eq_refl) as (Hin & o & Hel & Hp & _).
  exists (params b), o. split; [exact Hin | ]. split; [exact Hel | ]. split.
  - unfold run_single_backtest. rewrite Hr. cbn [Res_bind].
    rewrite Hlog. destruct Hel as [Hrun _]. rewrite Hrun. cbn [Res_bind].
    rewrite py_div_ok by exact Hcash. reflexivity.
  - intros c' o' Hin' Hel'.
    destruct (Hgrid c' o' Hin' Hel') as (b' & [= <-] & Hle).
    now rewrite <- Hp.
Qed.

End Selection.

Lemma optimize_strategy_selects_best_witness :
  exists r : option BestResult,
    optimize_strategy sample_backtest base_strategy_params 100000
                      build_param_grid = Ok r.
Proof.
  destruct (optimize_strategy_selects_best sample_backtest
              base_strategy_params 100000) with (grid := build_param_grid)
    as (r & Hr & _).
  - vm_compute. discriminate.
  - exists r. exact Hr.
Defined.

Lemma optimize_strategy_errors_witness :
  optimize_strategy sample_backtest base_strategy_params 0 build_param_grid
  = Raise ZeroDivisionError.
Proof.
  apply (proj2 (proj2 (optimize_strategy_errors sample_backtest
                         base_strategy_params 0))).
  - reflexivity.
  - exists (mkCandidate 10 30 60 2.0 0.15). split; [ | reflexivity].
    unfold build_param_grid. cbn. do 4 right. left. reflexivity.
Defined.

Lemma run_single_backtest_reports_best_witness :
  exists c o,
    In c build_param_grid
    /\ eligible sample_backtest base_strategy_params c o
    /\ run_single_backtest sample_backtest base_strategy_params
                           build_param_grid 100000 true
       = Ok (profit_of 100000 o, final_value o).
Proof.
  destruct (run_single_backtest_reports_best sample_backtest
              base_strategy_params 100000)
    with (grid := build_param_grid) as (c & o & Hin & Hel & Hrun & _).
  - vm_compute. discriminate.
  - intros c. reflexivity.
  - exists (mkCandidate 10 30 60 2.0 0.15), (mkOutcome (100000 + 60) 3 2).
    split.
    + unfold build_param_grid. cbn. do 4 right. left. reflexivity.
    + split; reflexivity.
  - exists c, o. repeat split; try assumption; apply Hel.
Defined.

(** ** The parameter grid *)

(** X16.  [build_param_grid] is the full product of its three lists: a
    candidate is in the grid exactly when its (fast, slow) pair is one of
    the moving-average combinations, its trend period one of the trend
    periods and its (stop multiplier, retain fraction) pair one of the risk
    profiles; there are 12 of them, and each is well formed, so that the
    strategy's warm-up is its trend period plus 2 bars. *)
Theorem build_param_grid_is_product :
  (forall c : Candidate,
      In c build_param_grid <->
      In (fast_period c, slow_period c) ma_combinations
      /\ In (trend_period c) trend_periods
      /\ In (atr_stop_mult c, retain_pct c) risk_profiles)
  /\ length build_param_grid = 12%nat
  /\ (forall c : Candidate,
         In c build_param_grid ->
         well_formed c
         /\ forall log,
             (Z.max (trend_period_of (strategy_params base_strategy_params c log))
                    (slow_period_of (strategy_params base_strategy_params c log))
              + 2 = trend_period c + 2)%Z).
Proof.
  assert (Hiff : forall c : Candidate,
             In c build_param_grid <->
             In (fast_period c, slow_period c) ma_combinations
             /\ In (trend_period c) trend_periods
             /\ In (atr_stop_mult c, retain_pct c) risk_profiles).
  { intros c. unfold build_param_grid. rewrite in_flat_map. split.
    - intros (ma & Hma & Hc). apply in_flat_map in Hc.
      destruct Hc as (trend & Htrend & Hc). apply in_map_iff in Hc.
      destruct Hc as (risk & <- & Hrisk).
      cbn [fast_period slow_period trend_period atr_stop_mult retain_pct].
      rewrite <- !surjective_pairing. auto.
    - intros (Hma & Htrend & Hrisk).
      exists (fast_period c, slow_period c). split; [exact Hma | ].
      apply in_flat_map. exists (trend_period c). split; [exact Htrend | ].
      apply in_map_iff. exists (atr_stop_mult c, retain_pct c).
      split; [destruct c; reflexivity | exact Hrisk]. }
  split; [exact Hiff | ]. split; [reflexivity | ].
  intros c Hc. apply Hiff in Hc. destruct Hc as (Hma & Htrend & Hrisk).
  unfold ma_combinations, trend_periods, risk_profiles in *.
  cbn [In] in Hma, Htrend, Hrisk.
  unfold well_formed, trend_period_of, slow_period_of.
  unfold strategy_params; cbn -[Z.max Z.add Qlt Qle].
  destruct Hma as [[= Hf Hs] | [[= Hf Hs] | [[= Hf Hs] | []]]];
    destruct Htrend as [Ht | [Ht | []]];
    destruct Hrisk as [[= Hm Hr] | [[= Hm Hr] | []]];
    rewrite <- Hf, <- Hs, <- Ht, <- Hm, <- Hr;
    (split; [repeat split; try lia; try reflexivity; try discriminate
            | intros log; lia]).
Qed.

Lemma build_param_grid_is_product_witness :
  well_formed (mkCandidate 10 60 90 3.0 0.20).
Proof.
  apply (proj2 (proj2 build_param_grid_is_product)).
  apply (proj1 build_param_grid_is_product).
  cbn. repeat split; auto 10.
Defined.

End OptimizedBacktestFacts.

(** * Properties of optimize_params.py *)

Module OptimizeParamsFacts.
Import OptimizeParams.

(** ** [evaluate] *)

Lemma initial_cash_nonzero : ~ INITIAL_CASH == 0.
Proof. unfold INITIAL_CASH. intros H. discriminate H. Qed.

Lemma evaluate_loop_raises (runs : list (Res RunResult)) (tr : Q)
      (tt tw : Z) :
  (exists e, In (Raise e) runs) -> evaluate_loop runs tr tt tw = Ok None.
Proof.
  revert tr tt tw. induction runs as [ | r runs IH]; intros tr tt tw (e & Hin).
  - destruct Hin.
  - destruct r as [x | e']; cbn [evaluate_loop]; [ | reflexivity].
    rewrite py_div_ok by exact initial_cash_nonzero. cbn [Res_bind].
    apply IH. exists e. destruct Hin as [H | H]; [discriminate | exact H].
Qed.

Lemma evaluate_loop_returns (rs : list RunResult) (tr : Q) (tt tw : Z) :
  exists total : Q,
    evaluate_loop (map Ok rs) tr tt tw
    = Ok (Some (total, (tt + sum_trades rs)%Z, (tw + sum_wins rs)%Z))
    /\ total == tr + sum_returns rs.
Proof.
  revert tr tt tw. induction rs as [ | r rs IH]; intros tr tt tw.
  - exists tr. cbn. rewrite !Z.add_0_r. split; [reflexivity | ring].
  - cbn [map evaluate_loop].
    rewrite py_div_ok by exact initial_cash_nonzero. cbn [Res_bind].
    destruct (IH (tr + (final_value r / INITIAL_CASH - 1) * 100)
                 (tt + trades r)%Z (tw + wins r)%Z) as (total & Hrun & Htot).
    exists total. split.
    + rewrite Hrun. cbn [sum_trades sum_wins]. now rewrite !Z.add_assoc.
    + rewrite Htot. cbn [sum_returns]. unfold run_return. ring.
Qed.

Lemma runs_split (runs : list (Res RunResult)) :
  (exists e, In (Raise e) runs) \/ (exists rs, runs = map Ok rs).
Proof.
  induction runs as [ | r runs IH].
  - right. now exists [].
  - destruct r as [x | e].
    + destruct IH as [(e & Hin) | (rs & ->)].
      * left. exists e. now right.
      * right. now exists (x :: rs).
    + left. exists e. now left.
Qed.

Lemma sum_wins_le_trades (rs : list RunResult) :
  Forall (fun r => (0 <= wins r <= trades r)%Z) rs ->
  (0 <= sum_wins rs <= sum_trades rs)%Z.
Proof.
  induction 1 as [ | r rs Hr _ IH]; cbn [sum_wins sum_trades]; lia.
Qed.

Lemma evaluate_returns (rs : list RunResult) :
  exists avg rate : Q,
    evaluate (map Ok rs) = Ok (Fin avg, rate, sum_trades rs)
    /\ avg * inject_Z (Z.of_nat (length rs)) == sum_returns rs
    /\ (Forall (fun r => (0 <= wins r <= trades r)%Z) rs ->
        0 <= rate /\ rate <= 100).
Proof.
  unfold evaluate.
  destruct (evaluate_loop_returns rs 0 0 0) as (total & Hrun & Htot).
  rewrite Hrun. cbn [Res_bind]. rewrite !Z.add_0_l.
  assert (Hrate : exists rate,
             (if (sum_trades rs =? 0)%Z
              then Ok 0
              else q <-? py_div (inject_Z (sum_wins rs))
                                (inject_Z (sum_trades rs)) ;; Ok (q * 100))
             = Ok rate
             /\ (Forall (fun r => (0 <= wins r <= trades r)%Z) rs ->
                 0 <= rate /\ rate <= 100)).
  { destruct (Z.eqb_spec (sum_trades rs) 0) as [Hz | Hnz].
    - exists 0. split; [reflexivity | intros _; split; lra].
    - assert (Hq : ~ inject_Z (sum_trades rs) == 0).
      { intros E. apply Hnz. unfold Qeq in E. cbn in E. lia. }
      rewrite py_div_ok by exact Hq. cbn [Res_bind].
      eexists. split; [reflexivity | ].
      intros Hall. apply sum_wins_le_trades in Hall.
      assert (Ht : 0 < inject_Z (sum_trades rs))
        by (change 0 with (inject_Z 0); rewrite <- Zlt_Qlt; lia).
      assert (Hw0 : 0 <= inject_Z (sum_wins rs))
        by (change 0 with (inject_Z 0); rewrite <- Zle_Qle; lia).
      assert (Hwt : inject_Z (sum_wins rs) <= inject_Z (sum_trades rs))
        by (rewrite <- Zle_Qle; lia).
      assert (0 <= inject_Z (sum_wins rs) / inject_Z (sum_trades rs))
        by (apply Qle_shift_div_l; lra).
      assert (inject_Z (sum_wins rs) / inject_Z (sum_trades rs) <= 1)
        by (apply Qle_shift_div_r; lra).
      split; lra. }
  destruct Hrate as (rate & Hrate & Hbounds).
  destruct rs as [ | r rs].
  - cbn [map]. cbn [Res_bind]. cbn [sum_trades] in *. cbn [Z.eqb] in *.
    exists 0, 0. split; [reflexivity | ]. split; [reflexivity | ].
    intros _. split; lra.
  - assert (Hlen : ~ inject_Z (Z.of_nat (length (map Ok (r :: rs)))) == 0).
    { intros E. unfold Qeq in E. cbn in E. lia. }
    change (match map Ok (r :: rs) with
            | [] => Ok 0
            | _ :: _ => py_div total
                          (inject_Z (Z.of_nat (length (map Ok (r :: rs)))))
            end)
      with (py_div total (inject_Z (Z.of_nat (length (map (@Ok RunResult)
                                                        (r :: rs)))))).
    rewrite py_div_ok by exact Hlen. cbn [Res_bind].
    rewrite Hrate. cbn [Res_bind].
    eexists. exists rate. split; [reflexivity | ]. split; [ | exact Hbounds].
    rewrite length_map in *. rewrite Htot.
    field. exact Hlen.
Qed.

Lemma evaluate_total (runs : list (Res RunResult)) :
  exists v, evaluate runs = Ok v.
Proof.
  destruct (runs_split runs) as [Hraise | (rs & ->)].
  - eexists. unfold evaluate.
    now rewrite (evaluate_loop_raises runs 0 0 0 Hraise).
  - destruct (evaluate_returns rs) as (avg & rate & H & _).
    eexists. exact H.
Qed.

(** X17.  [evaluate] never raises.  If the engine raises on any data frame
    the result is (-inf, 0, 0), whatever the other runs gave.  Otherwise
    the result carries the total of the trades, an average return that
    times the number of data frames is the sum of the runs' returns (0 for
    no data frame), and, when no run reports more wins than trades or a
    negative count, a win rate between 0 and 100. *)
Theorem evaluate_outcome :
  (forall runs : list (Res RunResult),
      (exists e, In (Raise e) runs) -> evaluate runs = Ok (NegInf, 0, 0%Z))
  /\ (forall rs : list RunResult,
         exists avg rate : Q,
           evaluate (map Ok rs) = Ok (Fin avg, rate, sum_trades rs)
           /\ avg * inject_Z (Z.of_nat (length rs)) == sum_returns rs
           /\ (Forall (fun r => (0 <= wins r <= trades r)%Z) rs ->
               0 <= rate /\ rate <= 100))
  /\ (forall runs : list (Res RunResult),
         exists v, evaluate runs = Ok v).
Proof.
  split; [ | split].
  - intros runs Hraise. unfold evaluate.
    now rewrite (evaluate_loop_raises runs 0 0 0 Hraise).
  - exact evaluate_returns.
  - exact evaluate_total.
Qed.

Lemma evaluate_outcome_witness :
  evaluate [Ok (mkRunResult 101000 4 3); Raise OrderError;
            Ok (mkRunResult 99000 2 0)]
  = Ok (NegInf, 0, 0%Z).
Proof.
  apply (proj1 evaluate_outcome). exists OrderError. right. left. reflexivity.
Defined.

(** ** [itertools.product] and the points of the grid *)

Lemma in_product {A : Type} (lists : list (list A)) (vs : list A) :
  In vs (product lists) <-> Forall2 (fun v l => In v l) vs lists.
Proof.
  revert vs. induction lists as [ | l lists IH]; intros vs; cbn [product].
  - split.
    + intros [<- | []]. constructor.
    + intros H. inversion H. now left.
  - rewrite in_flat_map. split.
    + intros (x & Hx & Hvs). apply in_map_iff in Hvs.
      destruct Hvs as (tl & <- & Htl). constructor; [exact Hx | now apply IH].
    + intros H. inversion H as [ | v l' vs' ls' Hv Hrest]; subst.
      exists v. split; [exact Hv | ]. apply in_map_iff.
      exists vs'. split; [reflexivity | now apply IH].
Qed.

Lemma length_product {A : Type} (lists : list (list A)) :
  length (product lists)
  = fold_right (fun l n => (length l * n)%nat) 1%nat lists.
Proof.
  induction lists as [ | l lists IH]; [reflexivity | ].
  cbn [product fold_right]. rewrite <- IH. clear IH.
  induction l as [ | x l IHl]; [reflexivity | ].
  cbn [flat_map length]. rewrite length_app, length_map, IHl. lia.
Qed.

(** X18.  The parameter sets [grid_search] enumerates are exactly the
    choices of one value per key: a value list is produced iff it picks,
    key by key, a value of that key's list; their number is the product of
    the list lengths; and each resulting dictionary has the grid's keys, in
    the grid's order. *)
Theorem grid_points_are_the_product (grid : list (String.string * list Value)) :
  (forall vs : list Value,
      In vs (product (map snd grid)) <->
      Forall2 (fun v kl => In v (snd kl)) vs grid)
  /\ length (product (map snd grid))
     = fold_right (fun kl n => (length (snd kl) * n)%nat) 1%nat grid
  /\ (forall (constraint : option (Dict -> bool)) (d : Dict),
         In d (candidates grid constraint) ->
         map fst d = map fst grid /\ rejected constraint d = false).
Proof.
  assert (Hin : forall vs : list Value,
             In vs (product (map snd grid)) <->
             Forall2 (fun v kl => In v (snd kl)) vs grid).
  { intros vs. rewrite in_product. split.
    - revert vs. induction grid as [ | kl grid IH]; intros vs H;
        inversion H; subst; constructor; auto.
    - revert vs. induction grid as [ | kl grid IH]; intros vs H;
        inversion H; subst; constructor; auto. }
  split; [exact Hin | ]. split.
  - rewrite length_product. induction grid as [ | kl grid IH];
      [reflexivity | ]. cbn [map fold_right]. f_equal.
    apply IH. intros vs. rewrite in_product. split.
    + revert vs. clear. induction grid as [ | kl grid IH]; intros vs H;
        inversion H; subst; constructor; auto.
    + revert vs. clear. induction grid as [ | kl grid IH]; intros vs H;
        inversion H; subst; constructor; auto.
  - intros constraint d Hd. unfold candidates in Hd.
    apply filter_In in Hd. destruct Hd as [Hd Hrej].
    apply negb_true_iff in Hrej. split; [ | exact Hrej].
    apply in_map_iff in Hd. destruct Hd as (vs & <- & Hvs).
    apply Hin in Hvs. clear Hin Hrej.
    revert vs Hvs. induction grid as [ | kl grid IH]; intros vs H;
      inversion H; subst; [reflexivity | ].
    cbn [map combine fst]. f_equal. now apply IH.
Qed.

Lemma grid_points_are_the_product_witness :
  let grid := [(Keys.ema_fast, [VInt 8; VInt 10]);
               (Keys.ema_slow, [VInt 30; VInt 38])] in
  let d := [(Keys.ema_fast, VInt 10); (Keys.ema_slow, VInt 30)] in
  map fst d = map fst grid /\ rejected None d = false.
Proof.
  cbv zeta.
  apply (proj2 (proj2 (grid_points_are_the_product
                         [(Keys.ema_fast, [VInt 8; VInt 10]);
                          (Keys.ema_slow, [VInt 30; VInt 38])]))).
  cbn. right. right. left. reflexivity.
Defined.

(** ** [grid_search] *)

Lemma score_le_refl (s : Score) : score_le s s.
Proof. destruct s; cbn; [exact I | apply Qle_refl]. Qed.

Lemma score_le_trans (s t u : Score) :
  score_le s t -> score_le t u -> score_le s u.
Proof.
  destruct s, t, u; cbn; try tauto. intros H1 H2. eapply Qle_trans; eauto.
Qed.

Lemma score_gt_true (s t : Score) :
  score_gt s t = true -> score_le t s /\ exists q, s = Fin q.
Proof.
  destruct s as [ | x], t as [ | y]; cbn; try discriminate.
  - intros _. split; [exact I | now exists x].
  - intros H. apply Qlt_bool_iff in H. split; [lra | now exists x].
Qed.

Lemma score_gt_false (s t : Score) : score_gt s t = false -> score_le s t.
Proof.
  destruct s as [ | x], t as [ | y]; cbn; try discriminate; try tauto.
  intros H. now apply Qlt_bool_false_iff in H.
Qed.

Section Search.

Variable runs_for : Dict -> list (Res RunResult).
Variable constraint : option (Dict -> bool).
Variable keys : list String.string.

Let kept (points : list (list Value)) : list Dict :=
  filter (fun d => negb (rejected constraint d)) (map (combine keys) points).

Lemma search_loop_spec (points : list (list Value)) :
  forall (satisfied : list Result) (best : option Result),
  exists best' : option Result,
    search_loop runs_for constraint keys points satisfied best
    = Ok (satisfied
          ++ filter meets_targets (map (result_for runs_for) (kept points)),
          best')
    /\ (best' = best
        \/ exists d q, In d (kept points)
                       /\ best' = Some (result_for runs_for d)
                       /\ avg_return (result_for runs_for d) = Fin q)
    /\ score_le (best_score best) (best_score best')
    /\ (forall d, In d (kept points) ->
                  score_le (avg_return (result_for runs_for d))
                           (best_score best')).
Proof.
  induction points as [ | values points IH]; intros satisfied best.
  - exists best. cbn. rewrite app_nil_r. split; [reflexivity | ].
    split; [now left | ]. split; [apply score_le_refl | intros d []].
  - cbn [search_loop]. unfold kept. cbn [map filter]. fold (kept points).
    destruct (rejected constraint (combine keys values)) eqn:Hrej;
      cbn [negb]; [apply IH | ].
    destruct (evaluate_total (runs_for (combine keys values))) as (e & He).
    rewrite He. cbn [Res_bind].
    assert (Hres : mkResult (combine keys values) (fst (fst e)) (snd (fst e))
                            (snd e)
                   = result_for runs_for (combine keys values))
      by (unfold result_for; now rewrite He).
    rewrite Hres. set (r := result_for runs_for (combine keys values)) in *.
    fold (meets_targets r). fold (best_score best).
    destruct (IH (if meets_targets r then satisfied ++ [r] else satisfied)
                 (if score_gt (avg_return r) (best_score best)
                  then Some r else best))
      as (best' & Hrun & Hfrom & Hbest & Hpoints).
    exists best'. split.
    { rewrite Hrun. f_equal. f_equal. cbn [map filter].
      change (result_for runs_for (combine keys values)) with r.
      destruct (meets_targets r); [now rewrite <- app_assoc | reflexivity]. }
    destruct (score_gt (avg_return r) (best_score best)) eqn:Hgt.
    + apply score_gt_true in Hgt. destruct Hgt as [Hle (q & Hq)].
      cbn [best_score] in Hbest.
      split; [ | split].
      * right. destruct Hfrom as [-> | (d & q' & Hd & Hb & Hf)].
        -- exists (combine keys values), q. split; [now left | ].
           split; [reflexivity | exact Hq].
        -- exists d, q'. split; [now right | ]. now split.
      * eapply score_le_trans; eassumption.
      * intros d [<- | Hd]; [exact Hbest | now apply Hpoints].
    + apply score_gt_false in Hgt.
      split; [ | split; [exact Hbest | ]].
      * destruct Hfrom as [-> | (d & q' & Hd & Hb & Hf)]; [now left | ].
        right. exists d, q'. split; [now right | ]. now split.
      * intros d [<- | Hd]; [ | now apply Hpoints].
        eapply score_le_trans; eassumption.
Qed.

End Search.

(** X19.  [grid_search] never raises.  Its first result lists, in the order
    of enumeration, the results of exactly those candidate parameter sets
    (the product's points that the constraint does not reject) whose
    average return reaches TARGET_RETURN and whose win rate reaches
    TARGET_WIN.  Its second result, when it is not the initial
    minus-infinity placeholder, is the result of a candidate parameter set
    with a finite average return, and no candidate parameter set has a
    higher average return; it is the placeholder exactly when every
    candidate parameter set evaluates to minus infinity. *)
Theorem grid_search_result (runs_for : Dict -> list (Res RunResult))
        (grid : list (String.string * list Value))
        (constraint : option (Dict -> bool)) :
  exists best : option Result,
    grid_search runs_for grid constraint
    = Ok (filter meets_targets
                 (map (result_for runs_for) (candidates grid constraint)),
          best)
    /\ (forall b, best = Some b ->
        exists d q, In d (candidates grid constraint)
                    /\ b = result_for runs_for d /\ avg_return b = Fin q)
    /\ (forall d, In d (candidates grid constraint) ->
        score_le (avg_return (result_for runs_for d)) (best_score best))
    /\ (best = None <->
        forall d, In d (candidates grid constraint) ->
                  avg_return (result_for runs_for d) = NegInf).
Proof.
  unfold grid_search, candidates.
  destruct (search_loop_spec runs_for constraint (map fst grid)
              (product (map snd grid)) [] None)
    as (best & Hrun & Hfrom & _ & Hpoints).
  exists best. split; [exact Hrun | ]. split; [ | split; [exact Hpoints | ]].
  - intros b ->. destruct Hfrom as [H | (d & q & Hd & Hb & Hq)];
      [discriminate | ].
    injection Hb as Hb.
    exists d, q. split; [exact Hd | split; [exact Hb | now rewrite Hb]].
  - split.
    + intros -> d Hd. specialize (Hpoints d Hd). cbn [best_score] in Hpoints.
      destruct (avg_return (result_for runs_for d)); [reflexivity | ].
      destruct Hpoints.
    + intros Hall. destruct Hfrom as [-> | (d & q & Hd & _ & Hq)];
        [reflexivity | ].
      rewrite (Hall d Hd) in Hq. discriminate.
Qed.

Lemma grid_search_result_witness :
  let grid := [(Keys.ema_fast, [VInt 8; VInt 10])] in
  let runs_for := fun d : Dict =>
                    match d with
                    | [(_, VInt 8)] => [Ok (mkRunResult 104000 2 1)]
                    | _ => [Raise OrderError]
                    end in
  exists b : Result,
    snd (match grid_search runs_for grid None with
         | Ok v => v
         | Raise _ => ([], None)
         end) = Some b
    /\ exists d q, In d (candidates grid None)
                   /\ b = result_for runs_for d /\ avg_return b = Fin q.
Proof.
  cbv zeta.
  destruct (grid_search_result
              (fun d : Dict =>
                 match d with
                 | [(_, VInt 8)] => [Ok (mkRunResult 104000 2 1)]
                 | _ => [Raise OrderError]
                 end)
              [(Keys.ema_fast, [VInt 8; VInt 10])] None)
    as (best & Hrun & Hfrom & _).
  rewrite Hrun. cbn [snd].
  destruct best as [b | ].
  - exists b. split; [reflexivity | now apply Hfrom].
  - exfalso. vm_compute in Hrun. discriminate Hrun.
Defined.

End OptimizeParamsFacts.
